(** * siteBack: the quiz-session backend (db.js and the HTTP server)

    A shallow embedding of the server. The document store is a record of
    its four collections, each a list of documents in insertion order;
    every handler is a function from the instant of the request, the
    request and the store to a response and a store. The JavaScript
    runtime operations the handlers rely on are written out: numbers are
    IEEE-754 doubles, [Number] follows ToNumber and StringToNumber with the
    TypeError of an object it cannot coerce, [String] follows ToString,
    [Date.parse] and [toISOString] follow the date-time string format.

    A string of a body, of a path, of the store or of the source text is
    held in UTF-8, as this file's own literals are, and stands for a
    well-formed JavaScript string; white space is the white space of
    Unicode, read in that encoding. A string of a header is held one byte a
    code unit, as Node reads headers in Latin-1.

    What the server takes from outside (the HMAC, the token library, which
    may refuse to sign, the environment, how a number prints, and what
    [Date.parse] does outside the standard format) is the class
    [Collaborators]. A store operation never fails in this model; the 500
    answers that remain are those the handlers' own code raises.

    The model is of requests whose [userName], [startDate], [startTime] and
    [description] are strings or absent; the store then holds strings in
    those fields. [password] and [rate] are any JSON value. *)

From Stdlib Require Import ZArith List String Ascii Bool Lia.
From Stdlib Require Import Permutation Sorted.
From Stdlib Require Import Floats.SpecFloat.
From Stdlib Require Import DecimalString.
From Stdlib Require Import FunInd.
Import ListNotations.

Set Warnings "-register-all".

Local Open Scope string_scope.
Local Open Scope Z_scope.

(** ** JavaScript numbers

    A JS number is an IEEE-754 binary64 value: the Standard Library's
    [spec_float] at precision 53 and maximal exponent 1024. *)

Module JSNumber.

Definition number := spec_float.

Definition prec : Z := 53.
Definition emax : Z := 1024.

Definition NaN : number := S754_nan.
Definition Infinity : number := S754_infinity false.
Definition pos_zero : number := S754_zero false.

(** [Number.isFinite]. *)
Definition isFinite (x : number) : bool :=
  match x with
  | S754_zero _ | S754_finite _ _ _ => true
  | S754_infinity _ | S754_nan => false
  end.

Definition isNaN (x : number) : bool :=
  match x with S754_nan => true | _ => false end.

(** The relational operators [<] and [>]: false as soon as one side is NaN. *)
Definition lt (x y : number) : bool := SFltb x y.
Definition gt (x y : number) : bool := SFltb y x.

(** The number that carries an integer (exact up to 2^53 in magnitude). *)
Definition ofZ (z : Z) : number := binary_normalize prec emax z 0 false.

(** [Number.isInteger]: the value [m * 2^e] has no fractional part. *)
Definition isInteger (x : number) : bool :=
  match x with
  | S754_zero _ => true
  | S754_finite _ m e =>
      if 0 <=? e then true else (Z.pos m mod 2 ^ (- e) =? 0)
  | _ => false
  end.

(** The mathematical integer a number denotes, when it denotes one. *)
Definition toZ (x : number) : option Z :=
  match x with
  | S754_zero _ => Some 0
  | S754_finite s m e =>
      if 0 <=? e then Some (cond_Zopp s (Z.pos m * 2 ^ e))
      else if Z.pos m mod 2 ^ (- e) =? 0
           then Some (cond_Zopp s (Z.pos m / 2 ^ (- e)))
           else None
  | _ => None
  end.

(** The store's order on doubles: the IEEE order, with NaN equal to itself
    and below every other number. *)
Definition compare (x y : number) : comparison :=
  match SFcompare x y with
  | Some c => c
  | None =>
      match x, y with
      | S754_nan, S754_nan => Eq
      | S754_nan, _ => Lt
      | _, _ => Gt
      end
  end.

Definition eqb (x y : number) : bool :=
  match compare x y with Eq => true | _ => false end.

Definition leb (x y : number) : bool :=
  match compare x y with Gt => false | _ => true end.

(** *** White space in UTF-8 *)

Definition code (c : ascii) : Z := Z.of_nat (nat_of_ascii c).

(** The code points of WhiteSpace and LineTerminator (ECMA-262 12.2 and
    12.3), which are those of StrWhiteSpaceChar: TAB, LF, VT, FF, CR, SP,
    NBSP, the other space separators (OGHAM SPACE MARK, EN QUAD to HAIR
    SPACE, NARROW NO-BREAK SPACE, MEDIUM MATHEMATICAL SPACE, IDEOGRAPHIC
    SPACE), LS, PS and ZWNBSP. *)
Definition whiteSpaceCodePoints : list Z :=
  [ 0x09; 0x0A; 0x0B; 0x0C; 0x0D; 0x20; 0xA0; 0x1680;
    0x2000; 0x2001; 0x2002; 0x2003; 0x2004; 0x2005; 0x2006; 0x2007;
    0x2008; 0x2009; 0x200A; 0x2028; 0x2029; 0x202F; 0x205F; 0x3000;
    0xFEFF ].

Definition isWhiteSpaceCodePoint (cp : Z) : bool :=
  existsb (Z.eqb cp) whiteSpaceCodePoints.

Definition isContinuation (c : ascii) : bool :=
  (0x80 <=? code c) && (code c <=? 0xBF).

(** A white-space character in one, two or three bytes of UTF-8 (none
    takes four). *)
Definition whiteSpace1 (c : ascii) : bool :=
  (code c <? 0x80) && isWhiteSpaceCodePoint (code c).

Definition whiteSpace2 (c d : ascii) : bool :=
  (0xC2 <=? code c) && (code c <=? 0xDF) && isContinuation d
  && isWhiteSpaceCodePoint ((code c - 0xC0) * 64 + (code d - 0x80)).

Definition whiteSpace3 (c d e : ascii) : bool :=
  (0xE0 <=? code c) && (code c <=? 0xEF)
  && isContinuation d && isContinuation e
  && (0x800 <=? (code c - 0xE0) * 4096 + (code d - 0x80) * 64
                + (code e - 0x80))
  && isWhiteSpaceCodePoint
       ((code c - 0xE0) * 4096 + (code d - 0x80) * 64 + (code e - 0x80)).

(** [String.prototype.trimStart]. *)
Fixpoint trimStart (s : string) : string :=
  match s with
  | String c r =>
      if whiteSpace1 c then trimStart r
      else
        match r with
        | String d r1 =>
            if whiteSpace2 c d then trimStart r1
            else
              match r1 with
              | String e r2 => if whiteSpace3 c d e then trimStart r2 else s
              | EmptyString => s
              end
        | EmptyString => s
        end
  | EmptyString => s
  end.

(** [String.prototype.trimEnd]: what is left of a string that is white
    space from some character on stops there. *)
Fixpoint trimEnd (s : string) : string :=
  match s with
  | String c r =>
      if String.eqb (trimStart s) "" then "" else String c (trimEnd r)
  | EmptyString => s
  end.

(** [String.prototype.trim]. *)
Definition trim (s : string) : string := trimEnd (trimStart s).

(** *** StringToNumber (ECMA-262, 7.1.4.1.1) *)

Definition digitValue (radix : Z) (c : ascii) : option Z :=
  let n := Z.of_nat (nat_of_ascii c) in
  let v := if (48 <=? n) && (n <=? 57) then Some (n - 48)
           else if (97 <=? n) && (n <=? 102) then Some (n - 87)
           else if (65 <=? n) && (n <=? 70) then Some (n - 55)
           else None in
  match v with
  | Some d => if d <? radix then Some d else None
  | None => None
  end.

(** Reads the longest prefix of digits: its value on top of [acc], how many
    digits were read on top of [n], and the rest. *)
Fixpoint takeDigits (radix : Z) (s : string) (acc n : Z) : Z * Z * string :=
  match s with
  | String c r =>
      match digitValue radix c with
      | Some d => takeDigits radix r (radix * acc + d) (n + 1)
      | None => (acc, n, s)
      end
  | EmptyString => (acc, n, s)
  end.

(** Rounds the decimal [m * 10^e] (with [m > 0]) to the nearest double,
    ties to even. *)
Definition roundDecimal (neg : bool) (m : positive) (e : Z) : number :=
  if 0 <=? e
  then binary_normalize prec emax
         (cond_Zopp neg (Z.pos m * 10 ^ e)) 0 neg
  else
    let '(q, e', l) :=
      SFdiv_core_binary prec emax (Z.pos m) 0 (10 ^ (- e)) 0 in
    binary_round_aux prec emax neg q e' l.

Definition isExponentIndicator (c : ascii) : bool :=
  let n := Z.of_nat (nat_of_ascii c) in (n =? 101) || (n =? 69).

(** StrUnsignedDecimalLiteral without [Infinity]: digits, an optional
    fraction, an optional exponent, with a digit before or after the dot.
    The result is the pair mantissa, decimal exponent. *)
Definition parseUnsignedDecimal (s : string) : option (Z * Z) :=
  let '(i, ni, r1) := takeDigits 10 s 0 0 in
  let '(m, nf, r2) :=
    match r1 with
    | String "."%char r => takeDigits 10 r i 0
    | _ => (i, 0, r1)
    end in
  if ni + nf =? 0 then None
  else
    match r2 with
    | EmptyString => Some (m, - nf)
    | String c r3 =>
        if isExponentIndicator c then
          let '(sg, r4) :=
            match r3 with
            | String "+"%char r => (1, r)
            | String "-"%char r => (-1, r)
            | _ => (1, r3)
            end in
          let '(x, nx, r5) := takeDigits 10 r4 0 0 in
          if nx =? 0 then None
          else match r5 with
               | EmptyString => Some (m, sg * x - nf)
               | _ => None
               end
        else None
    end.

Definition unsignedDecimal (neg : bool) (s : string) : number :=
  if String.eqb s "Infinity" then S754_infinity neg
  else
    match parseUnsignedDecimal s with
    | Some (Z.pos m, e) => roundDecimal neg m e
    | Some (_, _) => S754_zero neg
    | None => NaN
    end.

(** NonDecimalIntegerLiteral: [0x], [0o] or [0b] and at least one digit. *)
Definition nonDecimal (radix : Z) (s : string) : number :=
  let '(v, n, r) := takeDigits radix s 0 0 in
  if n =? 0 then NaN
  else match r with
       | EmptyString => binary_normalize prec emax v 0 false
       | _ => NaN
       end.

Definition StringToNumber (s : string) : number :=
  match trim s with
  | EmptyString => pos_zero
  | String "0"%char (String "x"%char r) | String "0"%char (String "X"%char r) =>
      nonDecimal 16 r
  | String "0"%char (String "o"%char r) | String "0"%char (String "O"%char r) =>
      nonDecimal 8 r
  | String "0"%char (String "b"%char r) | String "0"%char (String "B"%char r) =>
      nonDecimal 2 r
  | String "+"%char r => unsignedDecimal false r
  | String "-"%char r => unsignedDecimal true r
  | t => unsignedDecimal false t
  end.

End JSNumber.

Import JSNumber.

(** ** JSON values and their coercions *)

Module JSValue.

(** What [express.json()] can put in a body field or [qs] in a query
    parameter; [JUndefined] is an absent field. *)
Inductive jsval :=
| JUndefined
| JNull
| JBool (b : bool)
| JNum (x : number)
| JStr (s : string)
| JArr (l : list jsval)
| JObj (fields : list (string * jsval)).

(** ToBoolean, as used by [!v] and [v || w]. *)
Definition truthy (v : jsval) : bool :=
  match v with
  | JUndefined | JNull => false
  | JBool b => b
  | JNum (S754_zero _) | JNum S754_nan => false
  | JNum _ => true
  | JStr s => negb (String.eqb s "")
  | JArr _ | JObj _ => true
  end.

(** An own property of that name. *)
Definition hasOwn (k : string) (fields : list (string * jsval)) : bool :=
  existsb (fun f => String.eqb (fst f) k) fields.

(** Whether ToPrimitive throws its TypeError. JSON gives an object no
    function: an own [toString] hides the one of [Object.prototype] and
    cannot be called, and [valueOf] gives the object back, so nothing
    yields a primitive. An object without an own [toString] prints as
    [[object Object]]. An array is joined: each element is printed, [null]
    and [undefined] apart. *)
Fixpoint throwsToPrimitive (v : jsval) : bool :=
  match v with
  | JObj fields => hasOwn "toString" fields
  | JArr l => existsb throwsToPrimitive l
  | _ => false
  end.

(** [Number(v)]; [None] is the TypeError. An object coerces through its
    string form: a plain object prints as [[object Object]], which is not
    numeric; an array prints as its elements joined by commas, so the empty
    array gives [0], an array of two or more elements never gives a number,
    and a one-element array coerces like the string form of its element
    (empty for [null] and [undefined]; a number prints to a string that
    reads back as the same number, the sign of zero apart). *)
Fixpoint ToNumber (v : jsval) : option number :=
  match v with
  | JUndefined => Some NaN
  | JNull => Some pos_zero
  | JBool b => Some (if b then ofZ 1 else pos_zero)
  | JNum x => Some x
  | JStr s => Some (StringToNumber s)
  | JArr [] => Some pos_zero
  | JArr [e] =>
      match e with
      | JUndefined | JNull => Some pos_zero
      | JNum (S754_zero _) => Some pos_zero
      | JNum x => Some x
      | JStr s => Some (StringToNumber s)
      | JArr _ => ToNumber e
      | JBool _ => Some NaN
      | JObj fields => if hasOwn "toString" fields then None else Some NaN
      end
  | JArr l => if existsb throwsToPrimitive l then None else Some NaN
  | JObj fields => if hasOwn "toString" fields then None else Some NaN
  end.

(** [typeof v === 'string']. *)
Definition isString (v : jsval) : bool :=
  match v with JStr _ => true | _ => false end.

(** ToBoolean of an optional text field: absent and empty are falsy. *)
Definition present (f : option string) : bool :=
  match f with
  | Some s => negb (String.eqb s "")
  | None => false
  end.

(** [f || ''] on an optional text field. *)
Definition orEmpty (f : option string) : string :=
  match f with Some s => s | None => "" end.

End JSValue.

Import JSValue.

(** ** Dates: time values are milliseconds since the epoch, in UTC *)

Module JSDate.

Definition msPerDay : Z := 86400000.
Definition maxTime : Z := 8640000000000000.

Definition Day (t : Z) : Z := t / msPerDay.
Definition TimeWithinDay (t : Z) : Z := t mod msPerDay.

(** The proleptic Gregorian date of a day number: year, month (1 to 12),
    day of the month (1 to 31). Years run in 400-year eras of 146097 days
    that start on a 1 March. *)
Definition civilFromDays (days : Z) : Z * Z * Z :=
  let z := days + 719468 in
  let era := z / 146097 in
  let doe := z mod 146097 in
  let yoe := (doe - doe / 1460 + doe / 36524 - doe / 146096) / 365 in
  let doy := doe - (365 * yoe + yoe / 4 - yoe / 100) in
  let mp := (5 * doy + 2) / 153 in
  let d := doy - (153 * mp + 2) / 5 + 1 in
  let m := if mp <? 10 then mp + 3 else mp - 9 in
  (yoe + era * 400 + (if m <=? 2 then 1 else 0), m, d).

(** The day number of a date (the inverse of [civilFromDays] on real
    dates). *)
Definition daysFromCivil (y m d : Z) : Z :=
  let y' := if m <=? 2 then y - 1 else y in
  let era := y' / 400 in
  let yoe := y' mod 400 in
  let doy := (153 * (if 2 <? m then m - 3 else m + 9) + 2) / 5 + d - 1 in
  era * 146097 + (yoe * 365 + yoe / 4 - yoe / 100 + doy) - 719468.

Definition YearFromTime (t : Z) : Z := fst (fst (civilFromDays (Day t))).
Definition MonthFromTime (t : Z) : Z := snd (fst (civilFromDays (Day t))).
Definition DateFromTime (t : Z) : Z := snd (civilFromDays (Day t)).
Definition HourFromTime (t : Z) : Z := TimeWithinDay t / 3600000.
Definition MinFromTime (t : Z) : Z := (TimeWithinDay t / 60000) mod 60.
Definition SecFromTime (t : Z) : Z := (TimeWithinDay t / 1000) mod 60.
Definition msFromTime (t : Z) : Z := t mod 1000.

Definition isLeapYear (y : Z) : bool :=
  ((y mod 4 =? 0) && negb (y mod 100 =? 0)) || (y mod 400 =? 0).

Definition daysInMonth (y m : Z) : Z :=
  if m =? 2 then (if isLeapYear y then 29 else 28)
  else if (m =? 4) || (m =? 6) || (m =? 9) || (m =? 11) then 30
  else 31.

Definition MakeTime (h mi s ms : Z) : Z :=
  h * 3600000 + mi * 60000 + s * 1000 + ms.

Definition MakeDate (day time : Z) : Z := day * msPerDay + time.

(** A [Date] object holds a time value within 100,000,000 days of the
    epoch, or is invalid. *)
Definition validTime (t : Z) : bool := (- maxTime <=? t) && (t <=? maxTime).

Definition digitChar (d : Z) : ascii := ascii_of_nat (Z.to_nat (48 + d)).

(** The last [w] decimal digits of [n], most significant first. *)
Fixpoint pad (w : nat) (n : Z) : string :=
  match w with
  | O => ""
  | S w' => pad w' (n / 10) ++ String (digitChar (n mod 10)) ""
  end.

(** Four digits for the years 0 to 9999, a sign and six digits otherwise. *)
Definition yearString (y : Z) : string :=
  if (0 <=? y) && (y <=? 9999) then pad 4 y
  else if y <? 0 then "-" ++ pad 6 (- y)
  else "+" ++ pad 6 y.

(** [Date.prototype.toISOString]; [None] is the RangeError of an invalid
    date. *)
Definition toISOString (t : Z) : option string :=
  if validTime t then
    Some (yearString (YearFromTime t) ++ "-" ++ pad 2 (MonthFromTime t)
          ++ "-" ++ pad 2 (DateFromTime t)
          ++ "T" ++ pad 2 (HourFromTime t) ++ ":" ++ pad 2 (MinFromTime t)
          ++ ":" ++ pad 2 (SecFromTime t) ++ "." ++ pad 3 (msFromTime t)
          ++ "Z")
  else None.

(** [s.slice(a, b)] for [0 <= a <= b]. *)
Definition slice (a b : nat) (s : string) : string := substring a (b - a) s.

(** *** The date-time string format of ECMA-262 (21.4.1.32) *)

(** Exactly [n] decimal digits. *)
Fixpoint readDigits (n : nat) (s : string) (acc : Z) : option (Z * string) :=
  match n with
  | O => Some (acc, s)
  | S n' =>
      match s with
      | String c r =>
          match digitValue 10 c with
          | Some d => readDigits n' r (10 * acc + d)
          | None => None
          end
      | EmptyString => None
      end
  end.

(** [YYYY], or a sign and six digits; minus zero is not a year. *)
Definition readYear (s : string) : option (Z * string) :=
  match s with
  | String "+"%char r => readDigits 6 r 0
  | String "-"%char r =>
      match readDigits 6 r 0 with
      | Some (0, _) => None
      | Some (y, r') => Some (- y, r')
      | None => None
      end
  | _ => readDigits 4 s 0
  end.

(** An optional [sep] followed by [n] digits; [dflt] when [sep] is not
    there. *)
Definition readField (sep : ascii) (n : nat) (dflt : Z) (s : string)
  : option (Z * string) :=
  match s with
  | String c r => if Ascii.eqb c sep then readDigits n r 0 else Some (dflt, s)
  | EmptyString => Some (dflt, s)
  end.

(** The time of day in [HH:mm], [HH:mm:ss] or [HH:mm:ss.sss] followed by
    [Z], in milliseconds; 24:00:00.000 is the end of the day. *)
Definition readTimeZ (s : string) : option Z :=
  match readDigits 2 s 0 with
  | Some (h, String ":"%char r1) =>
      match readDigits 2 r1 0 with
      | Some (mi, r2) =>
          match readField ":"%char 2 0 r2 with
          | Some (sec, r3) =>
              let fraction :=
                if String.eqb r2 r3 then Some (0, r3)
                else readField "."%char 3 0 r3 in
              match fraction with
              | Some (ms, String "Z"%char EmptyString) =>
                  if ((h <=? 23) && (mi <=? 59) && (sec <=? 59))
                     || ((h =? 24) && (mi =? 0) && (sec =? 0) && (ms =? 0))
                  then Some (MakeTime h mi sec ms)
                  else None
              | _ => None
              end
          | None => None
          end
      | None => None
      end
  | _ => None
  end.

(** The time value of a string in the format, for the forms read here: a
    date alone ([YYYY], [YYYY-MM], [YYYY-MM-DD], the year possibly
    expanded), which is UTC, or a date and a time of day with the offset
    [Z]. [None] for every other string, including a month or a day that
    does not exist. *)
Definition parseISO (s : string) : option Z :=
  match readYear s with
  | Some (y, r1) =>
      match readField "-"%char 2 1 r1 with
      | Some (m, r2) =>
          let day :=
            if String.eqb r1 r2 then Some (1, r2)
            else readField "-"%char 2 1 r2 in
          match day with
          | Some (d, r3) =>
              if (1 <=? m) && (m <=? 12) && (1 <=? d) && (d <=? daysInMonth y m)
              then
                match r3 with
                | EmptyString => Some (MakeDate (daysFromCivil y m d) 0)
                | String "T"%char r4 =>
                    match readTimeZ r4 with
                    | Some time => Some (MakeDate (daysFromCivil y m d) time)
                    | None => None
                    end
                | _ => None
                end
              else None
          | None => None
          end
      | None => None
      end
  | None => None
  end.

End JSDate.

Import JSDate.

(** ** The document store

    The four collections of [COLLECTIONS]. The counter is an integer of the
    store, and so is the identifier of a session, which comes from it; the
    [sessionId] and the [rate] of an attempt are the numbers the handlers
    write. An attempt carries the identifier the store gives it on
    insertion, the only one the handlers read; [nextObjectId] is the next
    one to give. Dates are time values. *)

Module User.
Record t := mk {
  userName : string;
  isAdmin : bool;
  passwordHash : option string;
  keyHash : string;
  createdAt : Z }.
End User.

Module Session.
Record t := mk {
  id : Z;
  startAt : Z;
  description : string;
  createdAt : Z }.
End Session.

Module Attempt.
Record t := mk {
  _id : N;
  sessionId : number;
  userName : string;
  rate : number;
  createdAt : Z }.
End Attempt.

Module Counter.
Record t := mk {
  _id : string;
  seq : Z }.
End Counter.

Record Db := mkDb {
  users : list User.t;
  sessions : list Session.t;
  attempts : list Attempt.t;
  counters : list Counter.t;
  nextObjectId : N }.

Definition setUsers (db : Db) (l : list User.t) : Db :=
  mkDb l (sessions db) (attempts db) (counters db) (nextObjectId db).
Definition setSessions (db : Db) (l : list Session.t) : Db :=
  mkDb (users db) l (attempts db) (counters db) (nextObjectId db).
Definition setAttempts (db : Db) (l : list Attempt.t) : Db :=
  mkDb (users db) (sessions db) l (counters db) (nextObjectId db).
Definition setCounters (db : Db) (l : list Counter.t) : Db :=
  mkDb (users db) (sessions db) (attempts db) l (nextObjectId db).

(** *** Store operations *)

(** [findOne(filter)]: the first document the filter matches. *)
Definition findOne {A} (filter : A -> bool) (coll : list A) : option A :=
  find filter coll.

(** [insertOne(doc)] and [insertMany(docs)]: at the end of the collection. *)
Definition insertOne {A} (doc : A) (coll : list A) : list A := coll ++ [doc].
Definition insertMany {A} (docs : list A) (coll : list A) : list A :=
  coll ++ docs.

(** [deleteOne(filter)]: removes the first match, if there is one. *)
Fixpoint deleteOne {A} (filter : A -> bool) (coll : list A) : list A :=
  match coll with
  | [] => []
  | d :: r => if filter d then r else d :: deleteOne filter r
  end.

(** [deleteMany(filter)]: removes every match. *)
Definition deleteMany {A} (filter : A -> bool) (coll : list A) : list A :=
  List.filter (fun d => negb (filter d)) coll.

(** [sort(spec)]: [le a b] says that [a] may come before [b]. *)
Section Sort.

Context {A : Type} (le : A -> A -> bool).

Fixpoint insertSorted (x : A) (l : list A) : list A :=
  match l with
  | [] => [x]
  | y :: r => if le x y then x :: l else y :: insertSorted x r
  end.

Fixpoint sortBy (l : list A) : list A :=
  match l with
  | [] => []
  | x :: r => insertSorted x (sortBy r)
  end.

End Sort.

(** A number field of a document against a number of the query: equal in
    the store's order. *)
Definition numberMatches (q x : number) : bool := JSNumber.eqb x q.

(** An integer field of a document against a number of the query. *)
Definition integerMatches (q : number) (z : Z) : bool :=
  match toZ q with
  | Some v => v =? z
  | None => false
  end.

(** [findOneAndUpdate({_id: key}, {$inc: {seq: 1}},
    {upsert: true, returnDocument: 'after'})]: the counter after the
    increment, inserted with [seq = 1] when there was none. *)
Fixpoint findOneAndUpdateInc (key : string) (coll : list Counter.t)
  : option Counter.t * list Counter.t :=
  match coll with
  | [] =>
      let doc := Counter.mk key 1 in (Some doc, [doc])
  | c :: r =>
      if String.eqb (Counter._id c) key then
        let doc := Counter.mk (Counter._id c) (Counter.seq c + 1) in
        (Some doc, doc :: r)
      else
        let '(doc, r') := findOneAndUpdateInc key r in (doc, c :: r')
  end.

(** ** Requests and responses *)

(** [req.user], as the middleware sets it. *)
Record AuthUser := mkAuthUser { authUserName : string; authRole : string }.

Module ReqBody.
Record t := mk {
  userName : option string;
  password : jsval;
  startDate : option string;
  startTime : option string;
  description : option string;
  rate : jsval }.
End ReqBody.

(** A request: the authorization header, the [:id] path parameter, the
    [userName] query parameter and the JSON body. In a body [userName],
    [startDate], [startTime] and [description] are strings when present;
    [password] and [rate] are any JSON value, [JUndefined] when absent. *)
Record Request := mkRequest {
  authorization : option string;
  params_id : string;
  query_userName : jsval;
  body : ReqBody.t }.

Module SessionView.
Record t := mk {
  id : Z;
  startDate : string;
  startTime : string;
  description : string }.
End SessionView.

Module LeaderboardRow.
Record t := mk {
  rank : Z;
  userName : string;
  rate : number }.
End LeaderboardRow.

(** [id] is the identifier the store gave the attempt, which the endpoint
    prints with [String]. *)
Module AttemptView.
Record t := mk {
  id : N;
  sessionId : number;
  userName : string;
  rate : number;
  dateTime : string }.
End AttemptView.

(** The bodies of the responses; [Ok] is [{ok: true}] and [NoBody] the
    empty body of [end()]. *)
Inductive Json :=
| Error (error : string)
| Token (token userName role : string)
| Sessions (sessions : list SessionView.t)
| OneSession (session : SessionView.t)
| Leaderboard (leaderboard : list LeaderboardRow.t)
| Attempts (attempts : list AttemptView.t)
| Ok
| NoBody.

Record Response := mkResponse { status : Z; json : Json }.

(** ** db.js *)

(** The claims of a token. *)
Record TokenPayload := mkPayload { sub : string; role : string }.

(** What the server takes from outside: the HMAC of [crypto], the token
    library, how the runtime prints a number, what [Date.parse] does with
    a string that is not in the standard format, and the process
    environment. *)
Class Collaborators := {
  (** [crypto.createHmac('sha256', secret).update(msg).digest('hex')] *)
  hmacSha256Hex : string -> string -> string;
  (** [jwt.sign(payload, secret, {expiresIn})] at a given instant; [None]
      when it throws, as it does on a lifetime it cannot read *)
  jwtSign : TokenPayload -> string -> string -> Z -> option string;
  (** [Number.prototype.toString] *)
  numberToString : number -> string;
  (** [jwt.verify(token, secret)] at a given instant; [None] when it
      throws *)
  jwtVerify : string -> option string -> Z -> option TokenPayload;
  (** [Date.parse] outside the standard format; [None] is NaN *)
  legacyDateParse : string -> option Z;
  JWT_SECRET : option string;
  JWT_EXPIRES_IN : option string }.

Section Server.

Context {ext : Collaborators}.

(** [Date.parse]: the standard format first, and NaN for a time value out
    of range. *)
Definition Date_parse (s : string) : option Z :=
  match parseISO s with
  | Some t => if validTime t then Some t else None
  | None => legacyDateParse s
  end.

(** [String(v)]; [None] is the TypeError of an object that cannot be
    coerced. *)
Fixpoint ToString (v : jsval) : option string :=
  match v with
  | JUndefined => Some "undefined"
  | JNull => Some "null"
  | JBool b => Some (if b then "true" else "false")
  | JNum x => Some (numberToString x)
  | JStr s => Some s
  | JArr l =>
      (fix join (l : list jsval) : option string :=
         let element e :=
           match e with
           | JUndefined | JNull => Some ""
           | _ => ToString e
           end in
         match l with
         | [] => Some ""
         | [e] => element e
         | e :: r =>
             match element e, join r with
             | Some a, Some b => Some (a ++ "," ++ b)
             | _, _ => None
             end
         end) l
  | JObj fields =>
      if hasOwn "toString" fields then None else Some "[object Object]"
  end.

(** The HMAC of the trimmed password under the signing secret, under
    [change-me] when the environment has none. The argument is the string
    [String(password)]: a seed password is a string, and the routes coerce
    theirs with [ToString] as they call. *)
Definition hmacKeyHash (password : string) : string :=
  let secret := if present JWT_SECRET then orEmpty JWT_SECRET
                else "change-me" in
  hmacSha256Hex secret (trim password).

(** The session counter after its increment, and 1 should the store hand
    back no document. *)
Definition getNextSessionId (db : Db) : Z * Db :=
  let '(doc, cs) := findOneAndUpdateInc "sessionId" (counters db) in
  (match doc with
   | Some d => Counter.seq d
   | None => 1
   end, setCounters db cs).

Definition seedPlayers : list (string * string) :=
  [("Artur_1", "artur"); ("Antuan", "a"); ("Maria", "m"); ("Ivan", "i")].

Definition hasUserName (name : string) (u : User.t) : bool :=
  String.eqb (User.userName u) name.

(** The loop over [seedPlayers]. *)
Fixpoint seedUsers (now : Z) (ps : list (string * string))
  (us : list User.t) : list User.t :=
  match ps with
  | [] => us
  | (name, password) :: r =>
      let us' :=
        match findOne (hasUserName name) us with
        | Some _ => us
        | None =>
            insertOne (User.mk name false None (hmacKeyHash password) now) us
        end in
      seedUsers now r us'
  end.

(** Inserts [docs] in the attempts collection, each under a fresh
    identifier. *)
Fixpoint insertAttempts
  (docs : list (number * string * number * Z)) (db : Db) : Db :=
  match docs with
  | [] => db
  | (sid, name, r, createdAt) :: rest =>
      insertAttempts rest
        (mkDb (users db) (sessions db)
           (insertOne (Attempt.mk (nextObjectId db) sid name r createdAt)
              (attempts db))
           (counters db) (N.succ (nextObjectId db)))
  end.

(** [now] is the instant [new Date()] reads during the run. *)
Definition ensureSeedData (now : Z) (db : Db) : Db :=
  (* Admin *)
  let admin :=
    findOne (fun u => User.isAdmin u && hasUserName "admin" u) (users db) in
  let db :=
    match admin with
    | Some _ => db
    | None =>
        setUsers db
          (insertOne (User.mk "admin" true None (hmacKeyHash "admin") now)
             (users db))
    end in
  (* Players *)
  let db := setUsers db (seedUsers now seedPlayers (users db)) in
  (* Sessions + attempts (only if no sessions yet) *)
  let sessionsCount := Z.of_nat (List.length (sessions db)) in
  if sessionsCount =? 0 then
    let s1Date := now + 24 * 60 * 60 * 1000 in
    let s2Date := now + 2 * 24 * 60 * 60 * 1000 in
    let '(id1, db) := getNextSessionId db in
    let '(id2, db) := getNextSessionId db in
    let db :=
      setSessions db
        (insertMany
           [ Session.mk id1 s1Date "Текстовое описание сессии 1" now;
             Session.mk id2 s2Date "Текстовое описание сессии 2" now ]
           (sessions db)) in
    insertAttempts
      [ (ofZ id1, "Antuan", ofZ 98, s1Date + 5 * 60 * 1000);
        (ofZ id1, "Maria", ofZ 81, s1Date + 10 * 60 * 1000);
        (ofZ id1, "Ivan", ofZ 69, s1Date + 15 * 60 * 1000);
        (ofZ id1, "Artur_1", ofZ 78, s1Date + 20 * 60 * 1000) ]
      db
  else db.

(** ** The HTTP handlers *)

(** [None] is the error thrown without a signing secret, or the one
    [jwt.sign] throws. *)
Definition signToken (now : Z) (payload : TokenPayload) : option string :=
  if present JWT_SECRET then
    let expiresIn := if present JWT_EXPIRES_IN then orEmpty JWT_EXPIRES_IN
                     else "7d" in
    jwtSign payload (orEmpty JWT_SECRET) expiresIn now
  else None.

(** [\s] on a code unit below 256: TAB, LF, VT, FF, CR, SP and NBSP. *)
Definition isWhiteSpace (c : ascii) : bool :=
  let n := Z.of_nat (nat_of_ascii c) in
  ((9 <=? n) && (n <=? 13)) || (n =? 32) || (n =? 160).

(** The string past the white space it starts with. *)
Fixpoint skipWhiteSpace (s : string) : string :=
  match s with
  | String c r => if isWhiteSpace c then skipWhiteSpace r else s
  | EmptyString => s
  end.

Definition isLineTerminator (c : ascii) : bool :=
  let n := Z.of_nat (nat_of_ascii c) in (n =? 10) || (n =? 13).

Fixpoint hasLineTerminator (s : string) : bool :=
  match s with
  | String c r => isLineTerminator c || hasLineTerminator r
  | EmptyString => false
  end.

Definition lowerCase (c : ascii) : ascii :=
  let n := nat_of_ascii c in
  if ((65 <=? n) && (n <=? 90))%nat then ascii_of_nat (n + 32) else c.

Fixpoint toLowerCase (s : string) : string :=
  match s with
  | String c r => String (lowerCase c) (toLowerCase r)
  | EmptyString => EmptyString
  end.

(** The capture of [/^Bearer\s+(.+)$/i]: what follows the white space
    after the scheme, when it is not empty and holds no line terminator.
    When only white space follows the scheme, the run gives its last
    character back to the capture. *)
Definition bearerToken (header : string) : option string :=
  if prefix "bearer" (toLowerCase header) then
    let r := substring 6 (String.length header - 6) header in
    match r with
    | String c r1 =>
        if isWhiteSpace c then
          match skipWhiteSpace r with
          | EmptyString =>
              match r1 with
              | EmptyString => None
              | _ =>
                  let l := substring (String.length r - 1) 1 r in
                  if hasLineTerminator l then None else Some l
              end
          | t => if hasLineTerminator t then None else Some t
          end
        else None
    | EmptyString => None
    end
  else None.

Definition Handler := Z -> Request -> Db -> Response * Db.

(** The user the middleware attaches to the request: [None] when the header
    does not carry a token that verifies. *)
Definition authenticate (now : Z) (req : Request) : option AuthUser :=
  match bearerToken (orEmpty (authorization req)) with
  | None => None
  | Some token =>
      match jwtVerify token JWT_SECRET now with
      | Some payload => Some (mkAuthUser (sub payload) (role payload))
      | None => None
      end
  end.

Definition authMiddleware (requiredRole : option string)
  (next : AuthUser -> Handler) : Handler :=
  fun now req db =>
    match authenticate now req with
    | None => (mkResponse 401 (Error "unauthorized"), db)
    | Some user =>
        if present requiredRole
           && negb (String.eqb (authRole user) (orEmpty requiredRole))
        then (mkResponse 403 (Error "forbidden"), db)
        else next user now req db
    end.

Definition serverError : Response := mkResponse 500 (Error "server_error").

(** *** Auth *)

Definition login (admin : bool) (roleName : string) : Handler :=
  fun now req db =>
    let password := ReqBody.password (body req) in
    if negb (truthy password)
    then (mkResponse 400 (Error "missing_password"), db)
    else
      match ToString password with
      | None => (serverError, db)
      | Some text =>
          match findOne (fun u => Bool.eqb (User.isAdmin u) admin
                                  && String.eqb (User.keyHash u)
                                       (hmacKeyHash text))
                  (users db) with
          | None => (mkResponse 401 (Error "invalid_password"), db)
          | Some user =>
              match signToken now (mkPayload (User.userName user) roleName)
              with
              | Some token =>
                  (mkResponse 200
                     (Token token (User.userName user) roleName), db)
              | None => (serverError, db)
              end
          end
      end.

Definition playerLoginOld : Handler := login false "player".
Definition adminLogin : Handler := login true "admin".

Definition playerRegister : Handler :=
  fun now req db =>
    let userName := ReqBody.userName (body req) in
    let password := ReqBody.password (body req) in
    if negb (present userName) || negb (truthy password)
    then (mkResponse 400 (Error "missing_fields"), db)
    else
      match findOne (hasUserName (orEmpty userName)) (users db) with
      | Some _ => (mkResponse 409 (Error "username_taken"), db)
      | None =>
          match ToString password with
          | None => (serverError, db)
          | Some text =>
              let db :=
                setUsers db
                  (insertOne
                     (User.mk (orEmpty userName) false None
                        (hmacKeyHash text) now)
                     (users db)) in
              match signToken now (mkPayload (orEmpty userName) "player")
              with
              | Some token =>
                  (mkResponse 201 (Token token (orEmpty userName) "player"),
                   db)
              | None => (serverError, db)
              end
          end
      end.

(** *** Sessions *)

(** [map] with a callback that may throw. *)
Fixpoint mapThrowing {A B} (f : A -> option B) (l : list A)
  : option (list B) :=
  match l with
  | [] => Some []
  | x :: r =>
      match f x with
      | Some y =>
          match mapThrowing f r with
          | Some ys => Some (y :: ys)
          | None => None
          end
      | None => None
      end
  end.

Definition sessionView (d : Session.t) : option SessionView.t :=
  match toISOString (Session.startAt d) with
  | Some iso =>
      Some (SessionView.mk (Session.id d) (slice 0 10 iso) (slice 11 16 iso)
              (Session.description d))
  | None => None
  end.

(** [sort({startAt: -1})] *)
Definition byStartAtDesc (a b : Session.t) : bool :=
  Session.startAt b <=? Session.startAt a.

Definition listSessions : Handler :=
  authMiddleware None (fun _ now req db =>
    let docs := sortBy byStartAtDesc (sessions db) in
    match mapThrowing sessionView docs with
    | Some sessions => (mkResponse 200 (Sessions sessions), db)
    | None => (serverError, db)
    end).

Definition createSession : Handler :=
  authMiddleware (Some "admin") (fun _ now req db =>
    let startDate := ReqBody.startDate (body req) in
    let startTime := ReqBody.startTime (body req) in
    let description := ReqBody.description (body req) in
    if negb (present startDate) || negb (present startTime)
    then (mkResponse 400 (Error "invalid_datetime"), db)
    else
      match Date_parse (orEmpty startDate ++ "T" ++ orEmpty startTime
                        ++ ":00Z") with
      | None => (mkResponse 400 (Error "invalid_datetime"), db)
      | Some ts =>
          let '(id, db) := getNextSessionId db in
          let doc := Session.mk id ts (orEmpty description) now in
          let db := setSessions db (insertOne doc (sessions db)) in
          (mkResponse 201
             (OneSession
                (SessionView.mk id (orEmpty startDate) (orEmpty startTime)
                   (Session.description doc))), db)
      end).

Definition deleteSession : Handler :=
  authMiddleware (Some "admin") (fun _ now req db =>
    let id := StringToNumber (params_id req) in
    if negb (isFinite id) then (mkResponse 400 (Error "invalid_id"), db)
    else
      let db :=
        setSessions db
          (deleteOne (fun s => integerMatches id (Session.id s))
             (sessions db)) in
      let db :=
        setAttempts db
          (deleteMany (fun a => numberMatches id (Attempt.sessionId a))
             (attempts db)) in
      (mkResponse 204 NoBody, db)).

(** *** Leaderboard and attempts *)

(** [$max] in the store's order. *)
Definition maxNumber (x y : number) : number :=
  if JSNumber.leb x y then y else x.

(** One document into the groups of [$group]: the key's group takes the
    maximum, a new key opens a group. *)
Fixpoint accumulate (key : string) (r : number)
  (groups : list (string * number)) : list (string * number) :=
  match groups with
  | [] => [(key, r)]
  | (k, m) :: rest =>
      if String.eqb k key then (k, maxNumber m r) :: rest
      else (k, m) :: accumulate key r rest
  end.

(** [{ $group: { _id: '$userName', rate: { $max: '$rate' } } }] *)
Definition groupByUserName (docs : list Attempt.t) : list (string * number) :=
  fold_left
    (fun groups a => accumulate (Attempt.userName a) (Attempt.rate a) groups)
    docs [].

(** [{ $sort: { rate: -1, _id: 1 } }] *)
Definition byRateDescThenId (a b : string * number) : bool :=
  match JSNumber.compare (snd a) (snd b) with
  | Gt => true
  | Lt => false
  | Eq => String.leb (fst a) (fst b)
  end.

Definition aggregate (id : number) (coll : list Attempt.t)
  : list (string * number) :=
  sortBy byRateDescThenId
    (groupByUserName
       (filter (fun a => numberMatches id (Attempt.sessionId a)) coll)).

(** [docs.map((d, idx) => ...)] from index [idx] on. *)
Fixpoint mapIndexed {A B} (f : A -> Z -> B) (idx : Z) (l : list A) : list B :=
  match l with
  | [] => []
  | x :: r => f x idx :: mapIndexed f (idx + 1) r
  end.

Definition leaderboardRows (docs : list (string * number))
  : list LeaderboardRow.t :=
  mapIndexed (fun d idx => LeaderboardRow.mk (idx + 1) (fst d) (snd d)) 0 docs.

Definition getLeaderboard : Handler :=
  authMiddleware None (fun _ now req db =>
    let id := StringToNumber (params_id req) in
    if negb (isFinite id) then (mkResponse 400 (Error "invalid_id"), db)
    else
      let docs := aggregate id (attempts db) in
      (mkResponse 200 (Leaderboard (leaderboardRows docs)), db)).

Definition attemptView (d : Attempt.t) : option AttemptView.t :=
  match toISOString (Attempt.createdAt d) with
  | Some iso =>
      Some (AttemptView.mk (Attempt._id d) (Attempt.sessionId d)
              (Attempt.userName d) (Attempt.rate d) iso)
  | None => None
  end.

(** [sort({createdAt: -1})] *)
Definition byCreatedAtDesc (a b : Attempt.t) : bool :=
  Attempt.createdAt b <=? Attempt.createdAt a.

Definition listAttempts : Handler :=
  authMiddleware None (fun authUser now req db =>
    let id := StringToNumber (params_id req) in
    if negb (isFinite id) then (mkResponse 400 (Error "invalid_id"), db)
    else
      match query_userName req with
      | JStr userName =>
          if negb (truthy (JStr userName))
          then (mkResponse 400 (Error "missing_userName"), db)
          else if negb (String.eqb (authRole authUser) "admin")
                  && negb (String.eqb (authUserName authUser) userName)
          then (mkResponse 403 (Error "forbidden"), db)
          else
            let docs :=
              sortBy byCreatedAtDesc
                (filter (fun a => numberMatches id (Attempt.sessionId a)
                                  && String.eqb (Attempt.userName a) userName)
                   (attempts db)) in
            match mapThrowing attemptView docs with
            | Some attempts => (mkResponse 200 (Attempts attempts), db)
            | None => (serverError, db)
            end
      | _ => (mkResponse 400 (Error "missing_userName"), db)
      end).

Definition submitAttempt : Handler :=
  authMiddleware (Some "player") (fun authUser now req db =>
    let id := StringToNumber (params_id req) in
    if negb (isFinite id) then (mkResponse 400 (Error "invalid_id"), db)
    else
      match ToNumber (ReqBody.rate (body req)) with
      | None => (serverError, db)
      | Some r =>
          if negb (isFinite r) || lt r (ofZ 1) || gt r (ofZ 100)
          then (mkResponse 400 (Error "invalid_rate"), db)
          else
            (mkResponse 201 Ok,
             insertAttempts [(id, authUserName authUser, r, now)] db)
      end).

End Server.

(** ** Sequences of allocations *)

Definition isSessionCounter (c : Counter.t) : bool :=
  String.eqb (Counter._id c) "sessionId".

(** The value of the session counter; 0 before the first allocation. *)
Definition counterValue (db : Db) : Z :=
  match findOne isSessionCounter (counters db) with
  | Some c => Counter.seq c
  | None => 0
  end.

(** [n] calls of [getNextSessionId] in a row: the identifiers returned, in
    order, and the store they leave. *)
Fixpoint allocate (n : nat) (db : Db) : list Z * Db :=
  match n with
  | O => ([], db)
  | S n' =>
      let '(id, db1) := getNextSessionId db in
      let '(ids, db2) := allocate n' db1 in
      (id :: ids, db2)
  end.

(** The run [k+1, ..., k+n]. *)
Fixpoint run (k : Z) (n : nat) : list Z :=
  match n with
  | O => []
  | S n' => (k + 1) :: run (k + 1) n'
  end.

(** ** The order of the store, for the statements *)

(** A number's place in the order: its class (NaN, negative infinity,
    negative, zero, positive, positive infinity), then exponent and
    mantissa, both negated for a negative number. *)
Definition key (x : number) : Z * Z * Z :=
  match x with
  | S754_nan => (0, 0, 0)
  | S754_infinity true => (1, 0, 0)
  | S754_finite true m e => (2, - e, - Z.pos m)
  | S754_zero _ => (3, 0, 0)
  | S754_finite false m e => (4, e, Z.pos m)
  | S754_infinity false => (5, 0, 0)
  end.

Definition keyLt (a b : Z * Z * Z) : Prop :=
  let '(a1, a2, a3) := a in
  let '(b1, b2, b3) := b in
  a1 < b1 \/ (a1 = b1 /\ (a2 < b2 \/ (a2 = b2 /\ a3 < b3))).


(** The rate of a group. *)
Fixpoint lookup (k : string) (groups : list (string * number))
  : option number :=
  match groups with
  | [] => None
  | (k', m) :: rest => if String.eqb k' k then Some m else lookup k rest
  end.

(** What holds of the groups once the documents [seen] went in. *)
Definition grouped (seen : list Attempt.t) (groups : list (string * number))
  : Prop :=
  NoDup (map fst groups)
  /\ (forall k, In k (map fst groups)
                <-> exists a, In a seen /\ Attempt.userName a = k)
  /\ (forall k m, lookup k groups = Some m ->
        (exists a, In a seen /\ Attempt.userName a = k /\ Attempt.rate a = m)
        /\ forall a, In a seen -> Attempt.userName a = k ->
                     JSNumber.leb (Attempt.rate a) m = true).

(** ** Requests that pass the middleware *)

(** The request carries a token that verifies, for a user whose role the
    route admits. *)
Definition admitted {ext : Collaborators} (requiredRole : option string)
  (now : Z) (req : Request) (user : AuthUser) : Prop :=
  authenticate now req = Some user
  /\ (present requiredRole = true -> authRole user = orEmpty requiredRole).

(** The attempts of a session. *)
Definition sessionAttempts (id : number) (db : Db) : list Attempt.t :=
  filter (fun a => numberMatches id (Attempt.sessionId a)) (attempts db).

(** ** Equality with the id of a request, for the statements *)

(** The number [x] is the integer [z]: the value of [x], its sign, its
    mantissa [m] and its exponent [e] read as [m * 2^e], equals [z]. *)
Definition equalsInteger (x : number) (z : Z) : bool :=
  match x with
  | S754_zero _ => z =? 0
  | S754_finite s m e =>
      if 0 <=? e then z =? cond_Zopp s (Z.pos m * 2 ^ e)
      else z * 2 ^ (- e) =? cond_Zopp s (Z.pos m)
  | _ => false
  end.

(** The numbers [x] and [y] are equal as doubles: the equality of IEEE
    754, under which the two zeros are equal and NaN equals nothing. *)
Definition equalsNumber (x y : number) : bool := SFeqb x y.

(** ** Sample collaborators, stores and requests *)

(** Collaborators for the examples: a token is a role, a colon and a
    subject. *)
Definition sampleVerify (token : string) (secret : option string) (now : Z)
  : option TokenPayload :=
  if negb (present secret) then None
  else if prefix "admin:" token
  then Some (mkPayload (substring 6 (String.length token - 6) token) "admin")
  else if prefix "player:" token
  then Some (mkPayload (substring 7 (String.length token - 7) token) "player")
  else None.

(** The sample library signs for the lifetime [7d] and throws on any
    other. *)
Definition sampleSign (p : TokenPayload) (secret expiresIn : string)
  (now : Z) : option string :=
  if String.eqb expiresIn "7d" then Some (role p ++ ":" ++ sub p) else None.

(** The sample runtime prints an integer in decimal digits; the examples
    print no other number. *)
Definition sampleNumberToString (x : number) : string :=
  match toZ x with
  | Some z => NilZero.string_of_int (Z.to_int z)
  | None => "NaN"
  end.

Definition sampleCollaborators : Collaborators := {|
  hmacSha256Hex := fun secret msg => secret ++ "/" ++ msg;
  jwtSign := sampleSign;
  numberToString := sampleNumberToString;
  jwtVerify := sampleVerify;
  legacyDateParse := fun _ => None;
  JWT_SECRET := Some "secret";
  JWT_EXPIRES_IN := None |}.



Definition emptyBody : ReqBody.t :=
  ReqBody.mk None JUndefined None None None JUndefined.

Definition emptyDb : Db := mkDb [] [] [] [] 0.

(** A request of [token] on the session [id]. *)
Definition sampleRequest (token id : string) : Request :=
  mkRequest (Some ("Bearer " ++ token)) id JUndefined emptyBody.

(** The attempts (A,90), (A,70), (B,90), (C,50) of session 7, and the
    attempt (D,99) of session 8. *)
Definition sampleAttempts : list Attempt.t :=
  [ Attempt.mk 0 (ofZ 7) "A" (ofZ 90) 1000;
    Attempt.mk 1 (ofZ 8) "D" (ofZ 99) 2000;
    Attempt.mk 2 (ofZ 7) "A" (ofZ 70) 3000;
    Attempt.mk 3 (ofZ 7) "B" (ofZ 90) 4000;
    Attempt.mk 4 (ofZ 7) "C" (ofZ 50) 5000 ].

Definition sampleDb : Db :=
  mkDb [] [Session.mk 7 86400000 "seven" 0; Session.mk 8 172800000 "eight" 0]
    sampleAttempts [Counter.mk "sessionId" 8] 5.

(** The users behind the tokens [player:A] and [admin:root]. *)
Definition playerA : AuthUser := mkAuthUser "A" "player".
Definition rootAdmin : AuthUser := mkAuthUser "root" "admin".

(** The rate is a finite number from 1 to 100. *)
Definition rateInRange (r : number) : bool :=
  isFinite r && JSNumber.leb (ofZ 1) r && JSNumber.leb r (ofZ 100).

(** The store after the attempt of [user] on the session [id] went in. *)
Definition withAttempt (db : Db) (id : number) (user : AuthUser)
  (r : number) (now : Z) : Db :=
  mkDb (users db) (sessions db)
    (attempts db ++ [Attempt.mk (nextObjectId db) id (authUserName user) r now])
    (counters db) (N.succ (nextObjectId db)).

(** A request of [token] that submits [rate] on the session [id]. *)
Definition rateRequest (token id : string) (rate : jsval) : Request :=
  mkRequest (Some ("Bearer " ++ token)) id JUndefined
    (ReqBody.mk None JUndefined None None None rate).

(** A request of [token] for the attempts of [userName] on the session
    [id]. *)
Definition attemptsRequest (token id userName : string) : Request :=
  mkRequest (Some ("Bearer " ++ token)) id (JStr userName) emptyBody.

(** The view the attempts endpoint gives of a stored attempt. *)
Definition viewOf (a : Attempt.t) (v : AttemptView.t) : Prop :=
  AttemptView.id v = Attempt._id a
  /\ AttemptView.sessionId v = Attempt.sessionId a
  /\ AttemptView.userName v = Attempt.userName a
  /\ AttemptView.rate v = Attempt.rate a
  /\ toISOString (Attempt.createdAt a) = Some (AttemptView.dateTime v).

(** The attempts of [userName] on the session [id], latest first. *)
Definition userAttempts (id : number) (userName : string) (db : Db)
  : list Attempt.t :=
  sortBy byCreatedAtDesc
    (filter (fun a => numberMatches id (Attempt.sessionId a)
                      && String.eqb (Attempt.userName a) userName)
       (attempts db)).

(** A registration request. *)
Definition registerRequest (userName : option string) (password : jsval)
  : Request :=
  mkRequest None "" JUndefined
    (ReqBody.mk userName password None None None JUndefined).

(** The lifetime [signToken] asks for. *)
Definition expiresIn {ext : Collaborators} : string :=
  if present JWT_EXPIRES_IN then orEmpty JWT_EXPIRES_IN else "7d".

(** ** Seeding, for the statements *)

Definition isSeedAdmin (u : User.t) : bool :=
  User.isAdmin u && hasUserName "admin" u.

(** The two sessions and the four attempts of the seed, for the counter
    value [k], the next attempt identifier [oid] and the instant [now]. *)
Definition seedSessions (k now : Z) : list Session.t :=
  [ Session.mk (k + 1) (now + 86400000) "Текстовое описание сессии 1" now;
    Session.mk (k + 2) (now + 172800000) "Текстовое описание сессии 2" now ].

Definition seedAttempts (k : Z) (oid : N) (now : Z) : list Attempt.t :=
  [ Attempt.mk oid (ofZ (k + 1)) "Antuan" (ofZ 98) (now + 86400000 + 300000);
    Attempt.mk (N.succ oid) (ofZ (k + 1)) "Maria" (ofZ 81)
      (now + 86400000 + 600000);
    Attempt.mk (N.succ (N.succ oid)) (ofZ (k + 1)) "Ivan" (ofZ 69)
      (now + 86400000 + 900000);
    Attempt.mk (N.succ (N.succ (N.succ oid))) (ofZ (k + 1)) "Artur_1" (ofZ 78)
      (now + 86400000 + 1200000) ].

(** The users after the admin step. *)
Definition withAdmin {ext : Collaborators} (now : Z) (us : list User.t)
  : list User.t :=
  match findOne isSeedAdmin us with
  | Some _ => us
  | None => insertOne (User.mk "admin" true None (hmacKeyHash "admin") now) us
  end.

(** A store where a player took the userName [admin], with one session. *)
Definition playerNamedAdminDb : Db :=
  mkDb [User.mk "admin" false None "h" 0] [Session.mk 1 0 "" 0] [] [] 0.

(** ** Sessions, for the statements *)

(** A request of [token] to create a session. *)
Definition sessionRequest (token : string)
  (startDate startTime description : option string) : Request :=
  mkRequest (Some ("Bearer " ++ token)) "" JUndefined
    (ReqBody.mk None JUndefined startDate startTime description JUndefined).

(** The string the create endpoint hands to [Date.parse]. *)
Definition startString (req : Request) : string :=
  orEmpty (ReqBody.startDate (body req)) ++ "T"
  ++ orEmpty (ReqBody.startTime (body req)) ++ ":00Z".

(** The session the create endpoint stores for the instant [ts]. *)
Definition createdSession (now : Z) (req : Request) (db : Db) (ts : Z)
  : Session.t :=
  Session.mk (counterValue db + 1) ts
    (orEmpty (ReqBody.description (body req))) now.

(** The first instant of the year 10000. *)
Definition year10000 : Z := 253402300800000.

(** A decimal digit. *)
Definition isDigit (c : ascii) : bool :=
  match digitValue 10 c with Some _ => true | None => false end.

(** The shapes [YYYY-MM-DD] and [HH:MM]. *)
Definition isDateShape (s : string) : bool :=
  match list_ascii_of_string s with
  | [y1; y2; y3; y4; d1; m1; m2; d2; a1; a2] =>
      isDigit y1 && isDigit y2 && isDigit y3 && isDigit y4
      && Ascii.eqb d1 "-" && isDigit m1 && isDigit m2
      && Ascii.eqb d2 "-" && isDigit a1 && isDigit a2
  | _ => false
  end.

Definition isTimeShape (s : string) : bool :=
  match list_ascii_of_string s with
  | [h1; h2; c; m1; m2] =>
      isDigit h1 && isDigit h2 && Ascii.eqb c ":" && isDigit m1 && isDigit m2
  | _ => false
  end.

(** The view the list endpoint gives of a stored session whose instant
    prints as [iso]. *)
Definition sessionViewOf (d : Session.t) (v : SessionView.t) : Prop :=
  exists iso,
    toISOString (Session.startAt d) = Some iso
    /\ v = SessionView.mk (Session.id d) (slice 0 10 iso) (slice 11 16 iso)
             (Session.description d).

(** The identifiers of the sessions are distinct and were all given out by
    the counter. *)
Definition sessionIdsAllocated (db : Db) : Prop :=
  NoDup (map Session.id (sessions db))
  /\ forall s, In s (sessions db) -> Session.id s <= counterValue db.

(** ** The routes, for the statements *)

(** The routes behind the middleware, each with the role it requires. *)
Definition guardedRoutes {ext : Collaborators}
  : list (option string * Handler) :=
  [ (None, listSessions); (Some "admin", createSession);
    (Some "admin", deleteSession); (None, getLeaderboard);
    (None, listAttempts); (Some "player", submitAttempt) ].

(** The two login routes, each with the kind of user it looks up and the
    role it grants. *)
Definition loginRoutes {ext : Collaborators}
  : list (Handler * bool * string) :=
  [ (playerLoginOld, false, "player"); (adminLogin, true, "admin") ].

(** The user is of the kind [admin] and holds the hash of [password]. *)
Definition holdsPassword {ext : Collaborators} (admin : bool)
  (password : string) (u : User.t) : bool :=
  Bool.eqb (User.isAdmin u) admin
  && String.eqb (User.keyHash u) (hmacKeyHash password).

(** A login request. *)
Definition loginRequest (password : jsval) : Request :=
  mkRequest None "" JUndefined
    (ReqBody.mk None password None None None JUndefined).

(** The answer of a route that grants [role] to [userName]: the token when
    [signToken] gives one, 500 [server_error] when it throws. *)
Definition tokenAnswer {ext : Collaborators} (status : Z) (now : Z)
  (userName role : string) : Response :=
  match signToken now (mkPayload userName role) with
  | Some token => mkResponse status (Token token userName role)
  | None => mkResponse 500 (Error "server_error")
  end.


(** Every route of the server. *)
Definition allRoutes {ext : Collaborators} : list Handler :=
  [ playerLoginOld; adminLogin; playerRegister; listSessions; createSession;
    deleteSession; getLeaderboard; listAttempts; submitAttempt ].

(** The userNames of the store are distinct. *)
Definition userNamesUnique (db : Db) : Prop :=
  NoDup (map User.userName (users db)).

(** The rate the rows give a userName. *)
Definition boardRate (rows : list LeaderboardRow.t) (name : string)
  : option number :=
  lookup name
    (map (fun r => (LeaderboardRow.userName r, LeaderboardRow.rate r)) rows).

(** The rows the leaderboard route answers for the session [id]. *)
Definition boardOf (id : number) (db : Db) : list LeaderboardRow.t :=
  leaderboardRows (aggregate id (attempts db)).

(** ** White space, for the statements *)

Fixpoint allWhiteSpace (s : string) : bool :=
  match s with
  | String c r => isWhiteSpace c && allWhiteSpace r
  | EmptyString => true
  end.

(** The string does not start with white space. *)
Definition startsClean (s : string) : bool :=
  match s with
  | String c _ => negb (isWhiteSpace c)
  | EmptyString => true
  end.

(** ** Dates, for the statements *)

(** The date [YYYY-MM-DD] and the time [HH:MM] in digits. *)
Definition dateString (y m d : Z) : string :=
  pad 4 y ++ "-" ++ pad 2 m ++ "-" ++ pad 2 d.

Definition timeString (h mi : Z) : string := pad 2 h ++ ":" ++ pad 2 mi.

(** A day of the calendar in a four-digit year. *)
Definition validDate (y m d : Z) : Prop :=
  0 <= y <= 9999 /\ 1 <= m <= 12 /\ 1 <= d <= daysInMonth y m.

(** A minute of the day. *)
Definition validMinute (h mi : Z) : Prop := 0 <= h <= 23 /\ 0 <= mi <= 59.

(** ** Decimal numerals, for the statements *)

(** The string of the decimal digits [ds], most significant first. *)
Fixpoint numeral (ds : list Z) : string :=
  match ds with
  | [] => ""
  | d :: r => String (digitChar d) (numeral r)
  end.

(** The integer the digits [ds] write, on top of [acc]. *)
Fixpoint numeralValueFrom (acc : Z) (ds : list Z) : Z :=
  match ds with
  | [] => acc
  | d :: r => numeralValueFrom (10 * acc + d) r
  end.

Definition numeralValue (ds : list Z) : Z := numeralValueFrom 0 ds.

(** At least one digit, each from 0 to 9. *)
Definition isNumeral (ds : list Z) : bool :=
  match ds with
  | [] => false
  | _ => forallb (fun d => (0 <=? d) && (d <=? 9)) ds
  end.

(** A double carries every integer of magnitude below 2^53 exactly. *)
Definition exactInteger (z : Z) : Prop := - 2 ^ 53 < z < 2 ^ 53.

(** ** Strings in UTF-8, for the statements *)

Definition byte (n : Z) : ascii := ascii_of_nat (Z.to_nat n).

Definition isCodePoint (cp : Z) : bool := (0 <=? cp) && (cp <? 0x110000).

(** The UTF-8 bytes of a code point. *)
Definition utf8 (cp : Z) : string :=
  if cp <? 0x80 then String (byte cp) ""
  else if cp <? 0x800
  then String (byte (0xC0 + cp / 64)) (String (byte (0x80 + cp mod 64)) "")
  else if cp <? 0x10000
  then String (byte (0xE0 + cp / 4096))
         (String (byte (0x80 + (cp / 64) mod 64))
            (String (byte (0x80 + cp mod 64)) ""))
  else String (byte (0xF0 + cp / 262144))
         (String (byte (0x80 + (cp / 4096) mod 64))
            (String (byte (0x80 + (cp / 64) mod 64))
               (String (byte (0x80 + cp mod 64)) ""))).

(** The string of a sequence of code points. *)
Fixpoint utf8s (cps : list Z) : string :=
  match cps with
  | [] => ""
  | cp :: r => utf8 cp ++ utf8s r
  end.

Definition allWhiteSpaceCodePoints (cps : list Z) : bool :=
  forallb isWhiteSpaceCodePoint cps.

(** [trim] told on code points: the white space a string starts with
    goes, and so does what is white space from some character on. *)
Fixpoint dropWhiteSpace (cps : list Z) : list Z :=
  match cps with
  | cp :: r => if isWhiteSpaceCodePoint cp then dropWhiteSpace r else cps
  | [] => []
  end.

Fixpoint dropTrailingWhiteSpace (cps : list Z) : list Z :=
  match cps with
  | cp :: r =>
      if allWhiteSpaceCodePoints cps then []
      else cp :: dropTrailingWhiteSpace r
  | [] => []
  end.

Definition trimCodePoints (cps : list Z) : list Z :=
  dropTrailingWhiteSpace (dropWhiteSpace cps).

Functional Scheme trimStart_ind := Induction for trimStart Sort Prop.

(** ** Answers that carry a token *)

(** [resp] is the answer of a route that grants [role] to [userName] at
    [now]: with the signing secret set and a token from [jwt.sign], that
    token under [status]; without the secret, or when [jwt.sign] throws,
    500 [server_error]. *)
Definition grantsToken {ext : Collaborators} (resp : Response)
  (status now : Z) (userName role : string) : Prop :=
  (forall token,
     present JWT_SECRET = true ->
     jwtSign (mkPayload userName role) (orEmpty JWT_SECRET) expiresIn now
     = Some token ->
     resp = mkResponse status (Token token userName role))
  /\ (present JWT_SECRET = false
      \/ jwtSign (mkPayload userName role) (orEmpty JWT_SECRET) expiresIn now
         = None ->
      resp = mkResponse 500 (Error "server_error")).
(** * Properties *)

(** ** The sequence allocator *)

Lemma findOneAndUpdateInc_after (coll : list Counter.t) :
  let v := match findOne isSessionCounter coll with
           | Some c => Counter.seq c
           | None => 0
           end in
  exists doc coll',
    findOneAndUpdateInc "sessionId" coll = (Some doc, coll')
    /\ Counter.seq doc = v + 1
    /\ findOne isSessionCounter coll' = Some doc.
Proof.
  induction coll as [|c r IH]; cbn [findOne find findOneAndUpdateInc].
  - eexists _, _. repeat split.
  - unfold isSessionCounter at 1.
    destruct (String.eqb (Counter._id c) "sessionId") eqn:E.
    + eexists _, _. split; [reflexivity|]. split; [reflexivity|].
      cbn [findOne find]. unfold isSessionCounter. cbn [Counter._id].
      rewrite E. reflexivity.
    + destruct IH as (doc & coll' & H1 & H2 & H3).
      rewrite H1. eexists _, _. split; [reflexivity|]. split; [exact H2|].
      cbn [findOne find]. unfold isSessionCounter at 1. rewrite E. exact H3.
Qed.

Lemma getNextSessionId_spec (db : Db) :
  exists db',
    getNextSessionId db = (counterValue db + 1, db')
    /\ counterValue db' = counterValue db + 1
    /\ users db' = users db /\ sessions db' = sessions db
    /\ attempts db' = attempts db /\ nextObjectId db' = nextObjectId db.
Proof.
  unfold getNextSessionId, counterValue.
  destruct (findOneAndUpdateInc_after (counters db))
    as (doc & coll' & H1 & H2 & H3).
  rewrite H1. eexists. split; [rewrite H2; reflexivity|].
  simpl. rewrite H3. repeat split; assumption.
Qed.

Lemma allocate_run (n : nat) : forall db,
  fst (allocate n db) = run (counterValue db) n
  /\ counterValue (snd (allocate n db)) = counterValue db + Z.of_nat n.
Proof.
  induction n as [|n IH]; intros db.
  - simpl. split; [reflexivity | lia].
  - cbn [allocate run].
    destruct (getNextSessionId_spec db) as (db1 & H1 & H2 & _).
    rewrite H1. specialize (IH db1).
    destruct (allocate n db1) as [ids db2]. simpl in *.
    destruct IH as [IH1 IH2]. rewrite IH1, IH2, H2. split; [reflexivity | lia].
Qed.

Lemma run_bounds (n : nat) : forall k x,
  In x (run k n) <-> k + 1 <= x <= k + Z.of_nat n.
Proof.
  induction n as [|n IH]; intros k x; cbn [run In].
  - lia.
  - rewrite IH. lia.
Qed.

Lemma run_increasing (n : nat) : forall k, StronglySorted Z.lt (run k n).
Proof.
  induction n as [|n IH]; intros k; cbn [run]; constructor.
  - apply IH.
  - apply Forall_forall. intros x Hx. apply run_bounds in Hx. lia.
Qed.

Lemma run_NoDup (n : nat) : forall k, NoDup (run k n).
Proof.
  induction n as [|n IH]; intros k; cbn [run]; constructor.
  - rewrite run_bounds. lia.
  - apply IH.
Qed.

(** C3. [getNextSessionId] returns the counter's value after the increment,
    and the counter it leaves holds that value; on a store without the
    counter it returns 1 and creates the counter with [seq = 1]; [n] calls
    in a row from the counter value [k] return [k+1, ..., k+n] in this
    order, so every value from [k+1] to [k+n] once, increasing and without
    a duplicate. *)
Theorem getNextSessionId_sequence (db : Db) (n : nat) :
  fst (getNextSessionId db) = counterValue db + 1
  /\ counterValue (snd (getNextSessionId db)) = counterValue db + 1
  /\ (findOne isSessionCounter (counters db) = None ->
      fst (getNextSessionId db) = 1
      /\ findOne isSessionCounter (counters (snd (getNextSessionId db)))
         = Some (Counter.mk "sessionId" 1))
  /\ fst (allocate n db) = run (counterValue db) n
  /\ (forall x, In x (fst (allocate n db))
                <-> counterValue db + 1 <= x <= counterValue db + Z.of_nat n)
  /\ NoDup (fst (allocate n db))
  /\ StronglySorted Z.lt (fst (allocate n db))
  /\ counterValue (snd (allocate n db)) = counterValue db + Z.of_nat n.
Proof.
  destruct (getNextSessionId_spec db) as (db1 & H1 & H2 & _).
  destruct (allocate_run n db) as [A1 A2].
  rewrite H1. cbn [fst snd].
  split; [reflexivity|]. split; [exact H2|]. split.
  - intros Hnone.
    assert (K : counterValue db = 0) by (unfold counterValue; now rewrite Hnone).
    split; [lia|].
    pose proof H1 as H1'. unfold getNextSessionId in H1'.
    destruct (findOneAndUpdateInc_after (counters db))
      as (doc & coll' & F1 & F2 & F3).
    rewrite F1 in H1'. injection H1' as _ <-. cbn [counters setCounters].
    rewrite F3. f_equal.
    clear - F1 Hnone. revert doc coll' F1.
    induction (counters db) as [|c r IH]; cbn [findOneAndUpdateInc];
      intros doc coll' F1.
    + now injection F1 as <- _.
    + cbn [findOne find] in Hnone. unfold isSessionCounter in Hnone at 1.
      destruct (String.eqb (Counter._id c) "sessionId"); [discriminate|].
      destruct (findOneAndUpdateInc "sessionId" r) as [d r'].
      injection F1 as -> _. now apply (IH Hnone doc r').
  - rewrite A1. split; [reflexivity|]. split; [apply run_bounds|].
    split; [apply run_NoDup|]. split; [apply run_increasing | exact A2].
Qed.

(** The witness of C3: three allocations on the empty store. *)
Lemma getNextSessionId_sequence_witness :
  fst (getNextSessionId emptyDb) = 1
  /\ fst (allocate 3 emptyDb) = [1; 2; 3].
Proof.
  destruct (getNextSessionId_sequence emptyDb 3)
    as (_ & _ & H1 & H2 & _).
  split; [exact (proj1 (H1 eq_refl)) | exact H2].
Defined.

(** ** The store's order on numbers and strings *)

Lemma compare_cont_Eq (m n : positive) :
  Pos.compare_cont Eq m n = (Z.pos m ?= Z.pos n).
Proof. reflexivity. Qed.

Lemma compare_key (x y : number) :
  match JSNumber.compare x y with
  | Lt => keyLt (key x) (key y)
  | Eq => key x = key y
  | Gt => keyLt (key y) (key x)
  end.
Proof.
  destruct x as [[|]|[|]| |[|] m e], y as [[|]|[|]| |[|] n f];
    cbn [JSNumber.compare SFcompare key keyLt]; try lia; try reflexivity;
    rewrite ?compare_cont_Eq;
    destruct (Z.compare_spec e f); cbn [CompOpp]; try lia;
    destruct (Z.compare_spec (Z.pos m) (Z.pos n)); cbn [CompOpp];
    try lia; subst; repeat f_equal; congruence.
Qed.

Lemma compare_Lt (x y : number) :
  JSNumber.compare x y = Lt <-> keyLt (key x) (key y).
Proof.
  pose proof (compare_key x y) as H.
  destruct (JSNumber.compare x y), (key x) as [[a1 a2] a3],
    (key y) as [[b1 b2] b3]; cbn [keyLt] in *;
    split; intros K; try reflexivity; try discriminate;
    try (injection H as -> -> ->); lia.
Qed.

Lemma compare_Gt (x y : number) :
  JSNumber.compare x y = Gt <-> keyLt (key y) (key x).
Proof.
  pose proof (compare_key x y) as H.
  destruct (JSNumber.compare x y), (key x) as [[a1 a2] a3],
    (key y) as [[b1 b2] b3]; cbn [keyLt] in *;
    split; intros K; try reflexivity; try discriminate;
    try (injection H as -> -> ->); lia.
Qed.

Lemma compare_Eq (x y : number) :
  JSNumber.compare x y = Eq <-> key x = key y.
Proof.
  pose proof (compare_key x y) as H.
  destruct (JSNumber.compare x y), (key x) as [[a1 a2] a3],
    (key y) as [[b1 b2] b3]; cbn [keyLt] in *;
    split; intros K; try reflexivity; try discriminate; try assumption;
    injection K as -> -> ->; lia.
Qed.

Lemma compare_refl (x : number) : JSNumber.compare x x = Eq.
Proof. now apply compare_Eq. Qed.

Lemma compare_antisym (x y : number) :
  JSNumber.compare y x = CompOpp (JSNumber.compare x y).
Proof.
  destruct (JSNumber.compare x y) eqn:E; cbn [CompOpp].
  - apply compare_Eq. apply compare_Eq in E. congruence.
  - apply compare_Gt. now apply compare_Lt in E.
  - apply compare_Lt. now apply compare_Gt in E.
Qed.

Lemma leb_iff (x y : number) :
  JSNumber.leb x y = true <-> key x = key y \/ keyLt (key x) (key y).
Proof.
  unfold JSNumber.leb. destruct (JSNumber.compare x y) eqn:E.
  - apply compare_Eq in E. tauto.
  - apply compare_Lt in E. tauto.
  - apply compare_Gt in E. split; [discriminate|].
    destruct (key x) as [[a1 a2] a3], (key y) as [[b1 b2] b3].
    cbn [keyLt] in *. intros [K|K]; [injection K as -> -> ->|]; lia.
Qed.

Lemma leb_refl (x : number) : JSNumber.leb x x = true.
Proof. apply leb_iff. now left. Qed.

Lemma leb_total (x y : number) :
  JSNumber.leb x y = false -> JSNumber.leb y x = true.
Proof.
  unfold JSNumber.leb. rewrite (compare_antisym x y).
  now destruct (JSNumber.compare x y).
Qed.

Lemma leb_trans (x y z : number) :
  JSNumber.leb x y = true -> JSNumber.leb y z = true ->
  JSNumber.leb x z = true.
Proof.
  rewrite !leb_iff.
  destruct (key x) as [[a1 a2] a3], (key y) as [[b1 b2] b3],
    (key z) as [[c1 c2] c3]; cbn [keyLt].
  intros [H|H] [K|K]; try (injection H as -> -> ->);
    try (injection K as -> -> ->); auto; right; lia.
Qed.

Lemma maxNumber_cases (x y : number) :
  (maxNumber x y = x \/ maxNumber x y = y)
  /\ JSNumber.leb x (maxNumber x y) = true
  /\ JSNumber.leb y (maxNumber x y) = true.
Proof.
  unfold maxNumber. destruct (JSNumber.leb x y) eqn:E.
  - split; [now right|]. split; [exact E | apply leb_refl].
  - split; [now left|]. split; [apply leb_refl | now apply leb_total].
Qed.




(** ** Sorting *)

Section SortProperties.

Context {A : Type} (le : A -> A -> bool).

Hypothesis le_total : forall x y, le x y = false -> le y x = true.

Let R (x y : A) : Prop := le x y = true.

Lemma insertSorted_perm (x : A) (l : list A) :
  Permutation (x :: l) (insertSorted le x l).
Proof.
  induction l as [|y r IH]; cbn [insertSorted]; [reflexivity|].
  destruct (le x y); [reflexivity|].
  rewrite perm_swap. now constructor.
Qed.

Lemma sortBy_perm (l : list A) : Permutation l (sortBy le l).
Proof.
  induction l as [|x r IH]; cbn [sortBy]; [constructor|].
  rewrite <- insertSorted_perm. now constructor.
Qed.

Lemma insertSorted_HdRel (y x : A) (l : list A) :
  R y x -> HdRel R y l -> HdRel R y (insertSorted le x l).
Proof.
  intros Hyx Hl. destruct l as [|z r]; cbn [insertSorted].
  - now constructor.
  - destruct (le x z); constructor; [exact Hyx | now inversion Hl].
Qed.

Lemma insertSorted_Sorted (x : A) (l : list A) :
  Sorted R l -> Sorted R (insertSorted le x l).
Proof.
  induction 1 as [|y r Hs IH Hd]; cbn [insertSorted].
  - repeat constructor.
  - destruct (le x y) eqn:E.
    + constructor; [now constructor | now constructor].
    + constructor; [exact IH|].
      apply insertSorted_HdRel; [now apply le_total | exact Hd].
Qed.

Lemma sortBy_Sorted (l : list A) : Sorted R (sortBy le l).
Proof.
  induction l as [|x r IH]; cbn [sortBy]; [constructor|].
  now apply insertSorted_Sorted.
Qed.

Hypothesis le_trans :
  forall x y z, le x y = true -> le y z = true -> le x z = true.

Lemma sortBy_StronglySorted (l : list A) : StronglySorted R (sortBy le l).
Proof.
  apply Sorted_StronglySorted; [|apply sortBy_Sorted].
  intros x y z. apply le_trans.
Qed.

End SortProperties.

(** ** The leaderboard *)



(** *** Grouping *)

Lemma lookup_accumulate (key : string) (r : number) (k : string) :
  forall groups,
    lookup k (accumulate key r groups)
    = if String.eqb key k
      then Some (match lookup key groups with
                 | Some m => maxNumber m r
                 | None => r
                 end)
      else lookup k groups.
Proof.
  induction groups as [|[k' m] rest IH]; cbn [accumulate lookup].
  - destruct (String.eqb_spec key k); reflexivity.
  - destruct (String.eqb_spec k' key) as [->|Hne]; cbn [lookup].
    + destruct (String.eqb_spec key k); reflexivity.
    + rewrite IH. destruct (String.eqb_spec k' k) as [->|Hne'];
        [|reflexivity].
      destruct (String.eqb_spec key k); [congruence | reflexivity].
Qed.

Lemma keys_accumulate (key : string) (r : number) (k : string) :
  forall groups,
    In k (map fst (accumulate key r groups))
    <-> k = key \/ In k (map fst groups).
Proof.
  induction groups as [|[k' m] rest IH]; cbn [accumulate map fst In].
  - intuition congruence.
  - destruct (String.eqb_spec k' key) as [->|Hne]; cbn [map fst In].
    + intuition congruence.
    + rewrite IH. tauto.
Qed.

Lemma NoDup_accumulate (key : string) (r : number) :
  forall groups,
    NoDup (map fst groups) -> NoDup (map fst (accumulate key r groups)).
Proof.
  induction groups as [|[k' m] rest IH]; cbn [accumulate map fst]; intros H.
  - repeat constructor. intros [].
  - inversion H as [|? ? Hnot Hrest]; subst.
    destruct (String.eqb_spec k' key) as [->|Hne]; cbn [map fst].
    + now constructor.
    + constructor; [|now apply IH].
      rewrite keys_accumulate. intros [->|K]; [congruence | contradiction].
Qed.

Lemma lookup_In (k : string) (m : number) :
  forall groups,
    NoDup (map fst groups) ->
    (In (k, m) groups <-> lookup k groups = Some m).
Proof.
  induction groups as [|[k' m'] rest IH]; cbn [map fst In lookup]; intros H.
  - split; [intros [] | discriminate].
  - inversion H as [|? ? Hnot Hrest]; subst.
    destruct (String.eqb_spec k' k) as [->|Hne].
    + split.
      * intros [E|K]; [congruence|].
        exfalso. apply Hnot. now apply (in_map fst) in K.
      * intros E. left. congruence.
    + rewrite <- (IH Hrest). split; [intros [E|K]|]; auto; congruence.
Qed.

Lemma grouped_step (seen : list Attempt.t) (a : Attempt.t)
  (groups : list (string * number)) :
  grouped seen groups ->
  grouped (seen ++ [a])
    (accumulate (Attempt.userName a) (Attempt.rate a) groups).
Proof.
  intros (Hnd & Hkeys & Hmax). split; [now apply NoDup_accumulate|]. split.
  - intros k. rewrite keys_accumulate, Hkeys. split.
    + intros [->|(b & Hb & <-)].
      * exists a. split; [apply in_or_app; right; now left | reflexivity].
      * exists b. split; [apply in_or_app; now left | reflexivity].
    + intros (b & Hb & <-). apply in_app_or in Hb.
      destruct Hb as [Hb|[<-|[]]]; [right; now exists b | now left].
  - intros k m. rewrite lookup_accumulate.
    destruct (String.eqb_spec (Attempt.userName a) k) as [<-|Hne].
    + destruct (lookup (Attempt.userName a) groups) as [m0|] eqn:E.
      * intros [= <-]. destruct (Hmax _ _ E) as [(b & Hb & Hu & Hr) Hle].
        destruct (maxNumber_cases m0 (Attempt.rate a)) as ([M|M] & L1 & L2).
        -- split.
           ++ exists b. rewrite M.
              split; [apply in_or_app; now left | now split].
           ++ intros c Hc Hcu. apply in_app_or in Hc.
              destruct Hc as [Hc|[<-|[]]]; [|exact L2].
              apply (leb_trans _ m0); [now apply Hle | exact L1].
        -- split.
           ++ exists a. rewrite M.
              split; [apply in_or_app; right; now left | now split].
           ++ intros c Hc Hcu. apply in_app_or in Hc.
              destruct Hc as [Hc|[<-|[]]]; [|exact L2].
              apply (leb_trans _ m0); [now apply Hle | exact L1].
      * intros [= <-]. split.
        -- exists a. split; [apply in_or_app; right; now left | now split].
        -- intros c Hc Hcu. apply in_app_or in Hc.
           destruct Hc as [Hc|[<-|[]]]; [|apply leb_refl].
           exfalso. assert (K : In (Attempt.userName a) (map fst groups))
             by (apply Hkeys; now exists c).
           clear - E K. induction groups as [|[k' m'] rest IH];
             cbn [lookup map fst In] in *; [contradiction|].
           destruct (String.eqb_spec k' (Attempt.userName a));
             [discriminate|]. destruct K; [contradiction | auto].
    + intros E. destruct (Hmax _ _ E) as [(b & Hb & Hu & Hr) Hle]. split.
      * exists b. split; [apply in_or_app; now left | now split].
      * intros c Hc Hcu. apply in_app_or in Hc.
        destruct Hc as [Hc|[<-|[]]]; [now apply Hle | contradiction].
Qed.

Lemma grouped_fold (rest : list Attempt.t) : forall seen groups,
  grouped seen groups ->
  grouped (seen ++ rest)
    (fold_left
       (fun g a => accumulate (Attempt.userName a) (Attempt.rate a) g)
       rest groups).
Proof.
  induction rest as [|a rest IH]; intros seen groups H; cbn [fold_left].
  - now rewrite app_nil_r.
  - replace (seen ++ a :: rest)%list with ((seen ++ [a]) ++ rest)%list
      by (now rewrite <- app_assoc).
    apply IH. now apply grouped_step.
Qed.

Lemma grouped_groupByUserName (docs : list Attempt.t) :
  grouped docs (groupByUserName docs).
Proof.
  apply (grouped_fold docs [] []). split; [constructor|]. split.
  - intros k. cbn. split; [intros [] | intros (a & [] & _)].
  - intros k m. discriminate.
Qed.

(** *** Ranks *)

Lemma mapIndexed_rows (docs : list (string * number)) : forall idx,
  let rows := mapIndexed
                (fun d i => LeaderboardRow.mk (i + 1) (fst d) (snd d))
                idx docs in
  map LeaderboardRow.rank rows = run idx (List.length docs)
  /\ map (fun row => (LeaderboardRow.userName row, LeaderboardRow.rate row))
       rows = docs.
Proof.
  induction docs as [|[k m] r IH]; intros idx; cbn [mapIndexed map run length].
  - now split.
  - destruct (IH (idx + 1)) as [H1 H2]. cbn zeta in H1, H2.
    rewrite H1, H2. now split.
Qed.


(** ** The middleware *)

Lemma authMiddleware_admitted {ext : Collaborators}
  (requiredRole : option string) (next : AuthUser -> Handler)
  (now : Z) (req : Request) (db : Db) (user : AuthUser) :
  admitted requiredRole now req user ->
  authMiddleware requiredRole next now req db = next user now req db.
Proof.
  intros [Hauth Hrole]. unfold authMiddleware. rewrite Hauth.
  destruct (present requiredRole); [|reflexivity].
  rewrite (Hrole eq_refl), String.eqb_refl. reflexivity.
Qed.

(** ** The leaderboard endpoint *)




(** ** Deleting a session *)

Lemma deleteOne_unique {A} (f : A -> bool) (key : A -> Z) (l : list A) :
  (forall x y, f x = true -> f y = true -> key x = key y) ->
  NoDup (map key l) ->
  deleteOne f l = filter (fun d => negb (f d)) l.
Proof.
  intros Hkey. induction l as [|d r IH]; cbn [deleteOne filter map];
    intros Hnd; [reflexivity|].
  inversion Hnd as [|? ? Hnot Hrest]; subst.
  destruct (f d) eqn:E; cbn [negb].
  - symmetry. apply forallb_filter_id. apply forallb_forall.
    intros y Hy. destruct (f y) eqn:Ey; [|reflexivity].
    exfalso. apply Hnot. rewrite (Hkey d y E Ey). now apply in_map.
  - f_equal. now apply IH.
Qed.

Lemma filter_none {A} (f : A -> bool) (l : list A) :
  filter f (filter (fun d => negb (f d)) l) = [].
Proof.
  induction l as [|d r IH]; cbn [filter]; [reflexivity|].
  destruct (f d) eqn:E; cbn [negb filter]; [exact IH|].
  now rewrite E.
Qed.

Lemma filter_all {A} (f : A -> bool) (l : list A) :
  (forall d, In d l -> f d = false) ->
  filter (fun d => negb (f d)) l = l.
Proof.
  intros H. apply forallb_filter_id. apply forallb_forall.
  intros d Hd. now rewrite (H d Hd).
Qed.

Lemma integerMatches_same (id : number) (x y : Z) :
  integerMatches id x = true -> integerMatches id y = true -> x = y.
Proof.
  unfold integerMatches. destruct (toZ id); [|discriminate].
  rewrite !Z.eqb_eq. congruence.
Qed.

Lemma integerMatches_equalsInteger (id : number) (z : Z) :
  integerMatches id z = equalsInteger id z.
Proof.
  unfold integerMatches, equalsInteger.
  destruct id as [s| | |s m e]; cbn [toZ]; try reflexivity.
  destruct (0 <=? e) eqn:He; [apply Z.eqb_sym|].
  apply Z.leb_gt in He.
  assert (Hk : 0 < 2 ^ (- e)) by (apply Z.pow_pos_nonneg; lia).
  set (k := 2 ^ (- e)) in *. clearbody k.
  pose proof (Z.div_mod (Z.pos m) k ltac:(lia)) as Hdm.
  pose proof (Z.mod_pos_bound (Z.pos m) k Hk) as Hb.
  destruct (Z.eqb_spec (Z.pos m mod k) 0) as [H0|H0].
  - destruct (Z.eqb_spec (cond_Zopp s (Z.pos m / k)) z) as [E|E];
      destruct (Z.eqb_spec (z * k) (cond_Zopp s (Z.pos m))) as [F|F];
      try reflexivity; exfalso; destruct s; cbn [cond_Zopp] in *; nia.
  - destruct (Z.eqb_spec (z * k) (cond_Zopp s (Z.pos m))) as [F|F];
      [|reflexivity].
    exfalso. apply H0.
    destruct s; cbn [cond_Zopp] in F.
    + replace (Z.pos m) with ((- z) * k) by lia. apply Z.mod_mul. lia.
    + rewrite <- F. apply Z.mod_mul. lia.
Qed.

Lemma numberMatches_equalsNumber (id x : number) :
  isFinite id = true -> numberMatches id x = equalsNumber x id.
Proof.
  unfold numberMatches, equalsNumber, JSNumber.eqb, JSNumber.compare, SFeqb.
  intros Hfin.
  destruct x as [sx| sx| |sx mx ex], id as [sy| sy| |sy my ey];
    try discriminate; cbn [SFcompare]; try reflexivity;
    repeat match goal with b : bool |- _ => destruct b end;
    try reflexivity;
    destruct (Z.compare ex ey); try reflexivity;
    destruct (Pos.compare_cont Eq mx my); reflexivity.
Qed.

(** C4. For an admin request with a finite id on a store whose sessions
    have distinct ids, the delete endpoint answers 204 and leaves the store
    without the session whose id is that number and without the attempts
    whose sessionId equals it, every other session and attempt in place and
    in order, users and counter untouched; the leaderboard of that id is
    then empty; the answer is 204 also when no session has that id, and the
    sessions are then as they were. *)
Theorem deleteSession_cascade {ext : Collaborators}
  (now : Z) (req : Request) (db : Db) (user : AuthUser) :
  admitted (Some "admin") now req user ->
  isFinite (StringToNumber (params_id req)) = true ->
  NoDup (map Session.id (sessions db)) ->
  let id := StringToNumber (params_id req) in
  exists db',
    deleteSession now req db = (mkResponse 204 NoBody, db')
    /\ sessions db'
       = filter (fun s => negb (equalsInteger id (Session.id s)))
           (sessions db)
    /\ attempts db'
       = filter (fun a => negb (equalsNumber (Attempt.sessionId a) id))
           (attempts db)
    /\ (forall s, In s (sessions db') <->
          In s (sessions db) /\ equalsInteger id (Session.id s) = false)
    /\ (forall a, In a (attempts db') <->
          In a (attempts db)
          /\ equalsNumber (Attempt.sessionId a) id = false)
    /\ users db' = users db
    /\ counters db' = counters db
    /\ nextObjectId db' = nextObjectId db
    /\ (forall now' req' user',
          admitted None now' req' user' ->
          StringToNumber (params_id req') = id ->
          getLeaderboard now' req' db'
          = (mkResponse 200 (Leaderboard []), db'))
    /\ ((forall s, In s (sessions db) ->
           equalsInteger id (Session.id s) = false) ->
        sessions db' = sessions db).
Proof.
  intros Hadm Hfin Hnd id. subst id.
  set (id := StringToNumber (params_id req)) in *.
  unfold deleteSession. rewrite (authMiddleware_admitted _ _ _ _ _ _ Hadm).
  fold id. rewrite Hfin. cbn [negb].
  eexists. split; [reflexivity|].
  cbn [sessions attempts users counters nextObjectId setSessions setAttempts].
  assert (Hs : deleteOne (fun s => integerMatches id (Session.id s))
                 (sessions db)
               = filter (fun s => negb (equalsInteger id (Session.id s)))
                   (sessions db)).
  { rewrite (deleteOne_unique _ Session.id);
      [| intros x y; apply integerMatches_same | exact Hnd].
    apply filter_ext. intros s.
    now rewrite integerMatches_equalsInteger. }
  assert (Ha : deleteMany (fun a => numberMatches id (Attempt.sessionId a))
                 (attempts db)
               = filter
                   (fun a => negb (equalsNumber (Attempt.sessionId a) id))
                   (attempts db)).
  { unfold deleteMany. apply filter_ext. intros a.
    now rewrite (numberMatches_equalsNumber id _ Hfin). }
  assert (Hnone : filter (fun a => numberMatches id (Attempt.sessionId a))
                    (deleteMany
                       (fun a => numberMatches id (Attempt.sessionId a))
                       (attempts db)) = [])
    by apply (filter_none (fun a => numberMatches id (Attempt.sessionId a))).
  split; [exact Hs|]. split; [exact Ha|].
  split; [intros s; rewrite Hs, filter_In, negb_true_iff; tauto|].
  split; [intros a; rewrite Ha, filter_In, negb_true_iff; tauto|].
  do 3 (split; [reflexivity|]).
  split.
  - intros now' req' user' Hadm' Hid.
    unfold getLeaderboard.
    rewrite (authMiddleware_admitted _ _ _ _ _ _ Hadm'), Hid, Hfin.
    cbn [negb]. unfold aggregate. cbn [attempts setAttempts setSessions].
    now rewrite Hnone.
  - intros Hno. rewrite Hs. apply filter_all.
    intros s Hin. now rewrite (Hno s Hin).
Qed.

(** The witness of C4: the admin deletes session 7 of the sample store;
    session 8 and its attempt stay. *)
Lemma deleteSession_cascade_witness :
  admitted (ext := sampleCollaborators) (Some "admin") 0
    (sampleRequest "admin:root" "7") rootAdmin
  /\ isFinite (StringToNumber "7") = true
  /\ NoDup (map Session.id (sessions sampleDb))
  /\ exists db',
       deleteSession (ext := sampleCollaborators) 0
         (sampleRequest "admin:root" "7") sampleDb
       = (mkResponse 204 NoBody, db')
       /\ sessions db' = [Session.mk 8 172800000 "eight" 0]
       /\ attempts db' = [Attempt.mk 1 (ofZ 8) "D" (ofZ 99) 2000]
       /\ getLeaderboard (ext := sampleCollaborators) 1
            (sampleRequest "player:A" "7") db'
          = (mkResponse 200 (Leaderboard []), db').
Proof.
  assert (H1 : admitted (ext := sampleCollaborators) (Some "admin") 0
                 (sampleRequest "admin:root" "7") rootAdmin)
    by (split; reflexivity).
  assert (H2 : isFinite (StringToNumber "7") = true) by reflexivity.
  assert (H3 : NoDup (map Session.id (sessions sampleDb))).
  { cbn. repeat constructor; cbn; intuition discriminate. }
  split; [exact H1|]. split; [exact H2|]. split; [exact H3|].
  destruct (deleteSession_cascade (ext := sampleCollaborators) 0
              (sampleRequest "admin:root" "7") sampleDb rootAdmin H1 H2 H3)
    as (db' & Hres & Hs & Ha & _ & _ & _ & _ & _ & Hboard & _).
  exists db'. split; [exact Hres|]. split; [exact Hs|]. split; [exact Ha|].
  apply (Hboard 1 (sampleRequest "player:A" "7") playerA);
    [split; [reflexivity | discriminate] | reflexivity].
Defined.

(** ** Submitting an attempt *)

Lemma SFcompare_compare (x y : number) :
  isNaN x = false -> isNaN y = false ->
  SFcompare x y = Some (JSNumber.compare x y).
Proof.
  unfold JSNumber.compare.
  destruct x as [[|]|[|]| |[|] m e], y as [[|]|[|]| |[|] n f];
    cbn [isNaN SFcompare]; intros; try discriminate; reflexivity.
Qed.

Lemma isFinite_not_NaN (x : number) : isFinite x = true -> isNaN x = false.
Proof. now destruct x. Qed.

(** The guard of the handler is the negation of [rateInRange]. *)
Lemma rate_guard (r : number) :
  negb (isFinite r) || lt r (ofZ 1) || gt r (ofZ 100)
  = negb (rateInRange r).
Proof.
  unfold rateInRange. destruct (isFinite r) eqn:F; [|reflexivity].
  cbn [negb orb andb]. apply isFinite_not_NaN in F.
  unfold lt, gt, SFltb, JSNumber.leb.
  rewrite (SFcompare_compare r (ofZ 1) F eq_refl).
  rewrite (SFcompare_compare (ofZ 100) r eq_refl F).
  rewrite (compare_antisym r (ofZ 1)), (compare_antisym (ofZ 100) r).
  now destruct (JSNumber.compare r (ofZ 1)),
    (JSNumber.compare (ofZ 100) r).
Qed.

Lemma submitAttempt_admitted {ext : Collaborators}
  (now : Z) (req : Request) (db : Db) (user : AuthUser) :
  admitted (Some "player") now req user ->
  isFinite (StringToNumber (params_id req)) = true ->
  submitAttempt now req db
  = match ToNumber (ReqBody.rate (body req)) with
    | None => (serverError, db)
    | Some r =>
        if rateInRange r
        then (mkResponse 201 Ok,
              withAttempt db (StringToNumber (params_id req)) user r now)
        else (mkResponse 400 (Error "invalid_rate"), db)
    end.
Proof.
  intros Hadm Hfin. unfold submitAttempt.
  rewrite (authMiddleware_admitted _ _ _ _ _ _ Hadm), Hfin. cbn [negb].
  destruct (ToNumber (ReqBody.rate (body req))) as [r|]; [|reflexivity].
  rewrite rate_guard. now destruct (rateInRange r).
Qed.

(** [Number] throws exactly on an object with an own [toString], and on an
    array that holds one at any depth. *)
Lemma ToNumber_throws :
  forall v, ToNumber v = None <-> throwsToPrimitive v = true.
Proof.
  fix IH 1. intros v.
  destruct v as [| |b|x|s|l|fields]; cbn [ToNumber throwsToPrimitive];
    try (split; discriminate).
  - destruct l as [|e [|e' r]].
    + split; discriminate.
    + cbn [existsb]. rewrite orb_false_r. pose proof (IH e) as He.
      destruct e as [| |b|x|s|l'|fields];
        try (cbn [throwsToPrimitive]; split; discriminate).
      * destruct x; cbn [throwsToPrimitive]; split; discriminate.
      * exact He.
      * cbn [throwsToPrimitive].
        destruct (hasOwn "toString" fields); split;
          try discriminate; reflexivity.
    + destruct (existsb throwsToPrimitive (e :: e' :: r)); split;
        try discriminate; reflexivity.
  - destruct (hasOwn "toString" fields); split;
      try discriminate; reflexivity.
Qed.

(** C1, as the code has it. For a request of a player on a finite session
    id, the rate is coerced with [Number]. When the coercion gives a
    number, the attempt is stored with it and the answer is 201 exactly
    when that number is finite and from 1 to 100; otherwise the answer is
    400 [invalid_rate] and the store stays as it is. When the coercion
    throws, which it does exactly on an object with an own [toString]
    property and on an array that holds one, the answer is 500
    [server_error] and the store stays as it is. The rates 0 and 101, the
    string [x] and every value that coerces to NaN are out of range; 1 and
    100 are in range, so is the string [50] between an ideographic space
    and a no-break space, and so is 1.5, which is not an integer. *)
Theorem submitAttempt_rate {ext : Collaborators}
  (now : Z) (req : Request) (db : Db) (user : AuthUser) :
  admitted (Some "player") now req user ->
  isFinite (StringToNumber (params_id req)) = true ->
  let id := StringToNumber (params_id req) in
  let rate := ReqBody.rate (body req) in
  (forall r, ToNumber rate = Some r -> rateInRange r = true ->
     submitAttempt now req db
     = (mkResponse 201 Ok, withAttempt db id user r now))
  /\ (forall r, ToNumber rate = Some r -> rateInRange r = false ->
     submitAttempt now req db
     = (mkResponse 400 (Error "invalid_rate"), db))
  /\ (throwsToPrimitive rate = true ->
     submitAttempt now req db
     = (mkResponse 500 (Error "server_error"), db))
  /\ (throwsToPrimitive rate = false -> exists r, ToNumber rate = Some r)
  /\ option_map rateInRange (ToNumber (JNum (ofZ 0))) = Some false
  /\ option_map rateInRange (ToNumber (JNum (ofZ 101))) = Some false
  /\ option_map rateInRange (ToNumber (JStr "x")) = Some false
  /\ (forall v r, ToNumber v = Some r -> isNaN r = true ->
        rateInRange r = false)
  /\ option_map rateInRange (ToNumber (JNum (ofZ 1))) = Some true
  /\ option_map rateInRange (ToNumber (JNum (ofZ 100))) = Some true
  /\ option_map rateInRange
       (ToNumber (JStr (utf8 0x3000 ++ "50" ++ utf8 0xA0))) = Some true
  /\ option_map rateInRange (ToNumber (JNum (StringToNumber "1.5")))
     = Some true
  /\ isInteger (StringToNumber "1.5") = false
  /\ ToNumber (JObj [("toString", JNum (ofZ 1))]) = None
  /\ ToNumber (JArr [JNum (ofZ 5); JObj [("toString", JNull)]]) = None.
Proof.
  intros Hadm Hfin id rate.
  pose proof (submitAttempt_admitted now req db user Hadm Hfin) as E.
  fold rate id in E.
  split; [intros r Hr K; now rewrite E, Hr, K|].
  split; [intros r Hr K; now rewrite E, Hr, K|].
  split.
  { intros K. apply ToNumber_throws in K. now rewrite E, K. }
  split.
  { intros K. destruct (ToNumber rate) as [r|] eqn:Hr; [now exists r|].
    apply ToNumber_throws in Hr. congruence. }
  do 3 (split; [reflexivity|]).
  split; [|repeat split; reflexivity].
  intros v r _ Hv. unfold rateInRange. now destruct r.
Qed.

(** The witness of C1: the player A submits the rate 100 on session 7. *)
Lemma submitAttempt_rate_witness :
  admitted (ext := sampleCollaborators) (Some "player") 0
    (rateRequest "player:A" "7" (JNum (ofZ 100))) playerA
  /\ isFinite (StringToNumber "7") = true
  /\ submitAttempt (ext := sampleCollaborators) 0
       (rateRequest "player:A" "7" (JNum (ofZ 100))) sampleDb
     = (mkResponse 201 Ok, withAttempt sampleDb (ofZ 7) playerA (ofZ 100) 0).
Proof.
  assert (H1 : admitted (ext := sampleCollaborators) (Some "player") 0
                 (rateRequest "player:A" "7" (JNum (ofZ 100))) playerA)
    by (split; reflexivity).
  assert (H2 : isFinite (StringToNumber "7") = true) by reflexivity.
  split; [exact H1|]. split; [exact H2|].
  exact (proj1 (submitAttempt_rate (ext := sampleCollaborators) 0
                  (rateRequest "player:A" "7" (JNum (ofZ 100))) sampleDb
                  playerA H1 H2) (ofZ 100) eq_refl eq_refl).
Defined.

(** Against C1 as stated: the rate 1.5 is accepted and stored, and is not
    an integer; and a rate that [Number] cannot coerce is answered 500, not
    400. *)
Lemma submitAttempt_accepts_fraction :
  submitAttempt (ext := sampleCollaborators) 0
    (rateRequest "player:A" "7" (JNum (StringToNumber "1.5"))) sampleDb
  = (mkResponse 201 Ok,
     withAttempt sampleDb (ofZ 7) playerA (StringToNumber "1.5") 0)
  /\ isInteger (StringToNumber "1.5") = false
  /\ toZ (StringToNumber "1.5") = None
  /\ submitAttempt (ext := sampleCollaborators) 0
       (rateRequest "player:A" "7" (JObj [("toString", JNum (ofZ 1))]))
       sampleDb
     = (mkResponse 500 (Error "server_error"), sampleDb).
Proof. repeat split. Qed.

(** ** The attempts of a user *)

Lemma mapThrowing_Forall2 {A B} (f : A -> option B) (P : A -> B -> Prop)
  (l : list A) :
  (forall x, In x l -> exists y, f x = Some y /\ P x y) ->
  exists ys, mapThrowing f l = Some ys /\ Forall2 P l ys.
Proof.
  induction l as [|x r IH]; cbn [mapThrowing]; intros H.
  - exists []. now split.
  - destruct (H x (or_introl eq_refl)) as (y & Hy & Py).
    destruct IH as (ys & Hys & Pys); [intros z Hz; apply H; now right|].
    rewrite Hy, Hys. exists (y :: ys). split; [reflexivity|].
    now constructor.
Qed.

Lemma attemptView_valid (a : Attempt.t) :
  validTime (Attempt.createdAt a) = true ->
  exists v, attemptView a = Some v /\ viewOf a v.
Proof.
  intros H. unfold attemptView, toISOString. rewrite H.
  eexists. split; [reflexivity|]. unfold viewOf, toISOString. rewrite H.
  cbn. repeat split.
Qed.

(** C6. For a request that passes the middleware, with a finite session id
    and a non-empty [userName] query parameter, on a store whose attempts
    carry valid dates: a player whose token subject is not the requested
    userName gets 403; the caller who asks for their own userName, and an
    admin for any userName, get 200 with the views of that user's attempts
    of the session, latest first; the store stays as it is. *)
Theorem listAttempts_access {ext : Collaborators}
  (now : Z) (req : Request) (db : Db) (user : AuthUser) (name : string) :
  admitted None now req user ->
  isFinite (StringToNumber (params_id req)) = true ->
  query_userName req = JStr name ->
  name <> "" ->
  Forall (fun a => validTime (Attempt.createdAt a) = true) (attempts db) ->
  (authRole user = "player" -> authUserName user <> name ->
     listAttempts now req db = (mkResponse 403 (Error "forbidden"), db))
  /\ (authUserName user = name \/ authRole user = "admin" ->
      exists views,
        listAttempts now req db = (mkResponse 200 (Attempts views), db)
        /\ Forall2 viewOf
             (userAttempts (StringToNumber (params_id req)) name db) views).
Proof.
  intros Hadm Hfin Hq Hname Hvalid.
  assert (E : listAttempts now req db
              = if negb (String.eqb (authRole user) "admin")
                   && negb (String.eqb (authUserName user) name)
                then (mkResponse 403 (Error "forbidden"), db)
                else
                  match mapThrowing attemptView
                          (userAttempts (StringToNumber (params_id req))
                             name db) with
                  | Some attempts => (mkResponse 200 (Attempts attempts), db)
                  | None => (serverError, db)
                  end).
  { unfold listAttempts.
    rewrite (authMiddleware_admitted _ _ _ _ _ _ Hadm), Hfin, Hq.
    cbn [negb truthy].
    destruct (String.eqb_spec name ""); [contradiction | reflexivity]. }
  rewrite E. split.
  - intros Hrole Hother. rewrite Hrole.
    destruct (String.eqb_spec (authUserName user) name);
      [contradiction | reflexivity].
  - intros Hallowed.
    assert (G : negb (String.eqb (authRole user) "admin")
                && negb (String.eqb (authUserName user) name) = false).
    { destruct Hallowed as [->| ->].
      - rewrite String.eqb_refl. apply andb_false_r.
      - reflexivity. }
    rewrite G.
    destruct (mapThrowing_Forall2 attemptView viewOf
                (userAttempts (StringToNumber (params_id req)) name db))
      as (views & Hviews & Hall).
    { intros a Ha. apply attemptView_valid.
      unfold userAttempts in Ha.
      apply (Permutation_in _ (Permutation_sym (sortBy_perm _ _))) in Ha.
      apply filter_In in Ha. destruct Ha as [Ha _].
      rewrite Forall_forall in Hvalid. now apply Hvalid. }
    exists views. now rewrite Hviews.
Qed.

(** The witness of C6: the player A asks for the attempts of B on session 7
    and is refused; for their own they are served. *)
Lemma listAttempts_access_witness :
  listAttempts (ext := sampleCollaborators) 0
    (attemptsRequest "player:A" "7" "B") sampleDb
  = (mkResponse 403 (Error "forbidden"), sampleDb)
  /\ exists views,
       listAttempts (ext := sampleCollaborators) 0
         (attemptsRequest "player:A" "7" "A") sampleDb
       = (mkResponse 200 (Attempts views), sampleDb).
Proof.
  assert (Hvalid : Forall (fun a => validTime (Attempt.createdAt a) = true)
                     (attempts sampleDb))
    by (repeat constructor).
  split.
  - apply (proj1 (listAttempts_access (ext := sampleCollaborators) 0
                    (attemptsRequest "player:A" "7" "B") sampleDb playerA "B"
                    (conj eq_refl (fun H => False_ind _ (diff_false_true H)))
                    eq_refl eq_refl ltac:(discriminate) Hvalid));
      [reflexivity | discriminate].
  - destruct (proj2 (listAttempts_access (ext := sampleCollaborators) 0
                       (attemptsRequest "player:A" "7" "A") sampleDb playerA
                       "A"
                       (conj eq_refl
                          (fun H => False_ind _ (diff_false_true H)))
                       eq_refl eq_refl ltac:(discriminate) Hvalid)
                (or_introl eq_refl))
      as (views & Hres & _).
    now exists views.
Defined.

(** ** The session id of the path *)



(** ** The header of a request *)

Lemma append_assoc (a b c : string) : (a ++ b) ++ c = a ++ (b ++ c).
Proof. induction a as [|x a IH]; cbn; [reflexivity | now rewrite IH]. Qed.

Lemma append_nil_r (s : string) : s ++ "" = s.
Proof. induction s as [|c r IH]; cbn; [reflexivity | now rewrite IH]. Qed.

Lemma skipWhiteSpace_padding (pre s : string) :
  allWhiteSpace pre = true -> skipWhiteSpace (pre ++ s) = skipWhiteSpace s.
Proof.
  induction pre as [|c r IH]; cbn [append allWhiteSpace skipWhiteSpace];
    [reflexivity|].
  intros H. apply andb_true_iff in H. destruct H as [Hc Hr].
  rewrite Hc. now apply IH.
Qed.

Lemma skipWhiteSpace_clean (s : string) :
  startsClean s = true -> skipWhiteSpace s = s.
Proof.
  destruct s as [|c r]; cbn [startsClean skipWhiteSpace]; [reflexivity|].
  now destruct (isWhiteSpace c).
Qed.

Lemma substring_all (s : string) : substring 0 (String.length s) s = s.
Proof.
  induction s as [|c r IH]; cbn [String.length substring]; [reflexivity|].
  now rewrite IH.
Qed.

Lemma prefix_bearer (rest : string) :
  prefix "bearer"
    (String "b" (String "e" (String "a" (String "r" (String "e"
       (String "r" rest)))))) = true.
Proof. destruct rest; reflexivity. Qed.

(** The capture of the header: the token after the scheme and a run of
    white space. *)
Lemma bearerToken_reads (scheme ws token : string) :
  toLowerCase scheme = "bearer" ->
  ws <> "" -> allWhiteSpace ws = true ->
  token <> "" -> startsClean token = true ->
  hasLineTerminator token = false ->
  bearerToken (scheme ++ ws ++ token) = Some token.
Proof.
  intros Hscheme Hws Hall Htok Hclean Hline.
  destruct scheme as [|c1 [|c2 [|c3 [|c4 [|c5 [|c6 [|c7 r]]]]]]];
    try discriminate.
  cbn [toLowerCase] in Hscheme. injection Hscheme as H1 H2 H3 H4 H5 H6.
  unfold bearerToken. cbn [append toLowerCase].
  rewrite H1, H2, H3, H4, H5, H6.
  rewrite (prefix_bearer (toLowerCase (ws ++ token))).
  cbn [String.length Nat.sub substring].
  rewrite Nat.sub_0_r, substring_all.
  destruct ws as [|c w]; [congruence|].
  cbn [allWhiteSpace] in Hall. apply andb_true_iff in Hall.
  destruct Hall as [Hc Hw]. cbn [append]. rewrite Hc.
  change (String c (w ++ token)) with (String c w ++ token).
  rewrite skipWhiteSpace_padding
    by (cbn [allWhiteSpace]; now rewrite Hc, Hw).
  rewrite (skipWhiteSpace_clean token Hclean).
  destruct token as [|t0 t]; [congruence|]. now rewrite Hline.
Qed.


(** ** Registration *)

Lemma find_found {A} (f : A -> bool) (l : list A) :
  find f l <> None <-> exists x, In x l /\ f x = true.
Proof.
  split.
  - destruct (find f l) as [x|] eqn:E; [|congruence].
    intros _. exists x. now apply find_some in E.
  - intros (x & Hx & Hf) E. now rewrite (find_none _ _ E x Hx) in Hf.
Qed.

Lemma find_absent {A} (f : A -> bool) (l : list A) :
  find f l = None <-> forall x, In x l -> f x = false.
Proof.
  split; [apply find_none|].
  intros H. destruct (find f l) as [x|] eqn:E; [|reflexivity].
  apply find_some in E. destruct E as [Hx Hf]. now rewrite (H x Hx) in Hf.
Qed.

Lemma hasUserName_true (name : string) (u : User.t) :
  hasUserName name u = true <-> User.userName u = name.
Proof. apply String.eqb_eq. Qed.

Lemma present_Some (s : string) : s <> "" -> present (Some s) = true.
Proof.
  intros H. cbn. now destruct (String.eqb_spec s "").
Qed.

(** Registration, step by step, for a userName and a password that are
    there. *)
Lemma playerRegister_steps {ext : Collaborators}
  (now : Z) (req : Request) (db : Db) (name : string) :
  ReqBody.userName (body req) = Some name ->
  name <> "" ->
  truthy (ReqBody.password (body req)) = true ->
  playerRegister now req db
  = match findOne (hasUserName name) (users db) with
    | Some _ => (mkResponse 409 (Error "username_taken"), db)
    | None =>
        match ToString (ReqBody.password (body req)) with
        | None => (serverError, db)
        | Some text =>
            (tokenAnswer 201 now name "player",
             setUsers db
               (users db ++ [User.mk name false None (hmacKeyHash text) now]))
        end
    end.
Proof.
  intros Hn Hne Hp. unfold playerRegister, tokenAnswer, insertOne.
  rewrite Hn, Hp, (present_Some name Hne). cbn [negb orb orEmpty].
  destruct (findOne (hasUserName name) (users db)); [reflexivity|].
  destruct (ToString (ReqBody.password (body req))); [|reflexivity].
  now destruct (signToken now (mkPayload name "player")).
Qed.

(** What [signToken] gives is what [jwt.sign] gives under the secret of
    the environment, for the lifetime of the environment or [7d]. *)
Lemma signToken_Some {ext : Collaborators}
  (now : Z) (payload : TokenPayload) (token : string) :
  signToken now payload = Some token
  <-> present JWT_SECRET = true
      /\ jwtSign payload (orEmpty JWT_SECRET) expiresIn now = Some token.
Proof.
  unfold signToken, expiresIn. destruct (present JWT_SECRET).
  - split; [now split | now intros [_ H]].
  - split; [discriminate | now intros [H _]].
Qed.




(** ** Seeding *)

Section SeedProperties.

Context {ext : Collaborators}.

Lemma find_app_found {A} (f : A -> bool) (l l' : list A) :
  find f l <> None -> find f (l ++ l') <> None.
Proof.
  rewrite !find_found. intros (x & Hx & Hf). exists x.
  split; [apply in_or_app; now left | exact Hf].
Qed.

(** The loop only appends: users that are no admins, of a seed name that no
    user had. *)
Lemma seedUsers_appends (now : Z) (ps : list (string * string)) :
  forall us,
  exists extra,
    seedUsers now ps us = (us ++ extra)%list
    /\ forall u, In u extra ->
         exists p, In p ps
           /\ u = User.mk (fst p) false None (hmacKeyHash (snd p)) now
           /\ forall v, In v us -> User.userName v <> fst p.
Proof.
  induction ps as [|[name password] r IH]; intros us; cbn [seedUsers].
  - exists []. split; [now rewrite app_nil_r | intros u []].
  - destruct (findOne (hasUserName name) us) eqn:F.
    + destruct (IH us) as (extra & H1 & H2). exists extra.
      split; [exact H1|]. intros u Hu.
      destruct (H2 u Hu) as (p & Hp & K). exists p. split; [now right|exact K].
    + destruct (IH (insertOne
                      (User.mk name false None (hmacKeyHash password) now) us))
        as (extra & H1 & H2).
      exists (User.mk name false None (hmacKeyHash password) now :: extra).
      split; [rewrite H1; unfold insertOne; now rewrite <- app_assoc|].
      intros u [<-|Hu].
      * exists (name, password). split; [now left|]. split; [reflexivity|].
        intros v Hv K. cbn [fst] in K. apply hasUserName_true in K.
        now rewrite (find_none _ _ F v Hv) in K.
      * destruct (H2 u Hu) as (p & Hp & -> & K). exists p.
        split; [now right|]. split; [reflexivity|].
        intros v Hv. apply K. apply in_or_app. now left.
Qed.

(** After the loop every seed name has its user. *)
Lemma seedUsers_covers (now : Z) (ps : list (string * string)) :
  forall us p, In p ps ->
    findOne (hasUserName (fst p)) (seedUsers now ps us) <> None.
Proof.
  induction ps as [|[name password] r IH]; intros us p Hp; [destruct Hp|].
  cbn [seedUsers]. destruct Hp as [<-|Hp]; [|now apply IH].
  cbn [fst].
  destruct (seedUsers_appends now r
              match findOne (hasUserName name) us with
              | Some _ => us
              | None =>
                  insertOne
                    (User.mk name false None (hmacKeyHash password) now) us
              end) as (extra & -> & _).
  apply find_app_found. unfold findOne.
  destruct (find (hasUserName name) us) eqn:F; [congruence|].
  apply find_found. eexists. split; [apply in_or_app; right; now left|].
  apply String.eqb_refl.
Qed.

(** The loop changes nothing when every seed name has its user. *)
Lemma seedUsers_noop (now : Z) (ps : list (string * string)) (us : list User.t) :
  (forall p, In p ps -> findOne (hasUserName (fst p)) us <> None) ->
  seedUsers now ps us = us.
Proof.
  induction ps as [|[name password] r IH]; intros H; cbn [seedUsers];
    [reflexivity|].
  destruct (findOne (hasUserName name) us) eqn:F.
  - apply IH. intros p Hp. apply H. now right.
  - exfalso. now apply (H (name, password) (or_introl eq_refl)).
Qed.

Lemma withAdmin_found (now : Z) (us : list User.t) :
  findOne isSeedAdmin (withAdmin now us) <> None.
Proof.
  unfold withAdmin. destruct (findOne isSeedAdmin us) eqn:F; [congruence|].
  apply find_found. eexists. split; [apply in_or_app; right; now left|].
  reflexivity.
Qed.

(** The seeding, step by step. *)
Lemma ensureSeedData_steps (now : Z) (db : Db) :
  let us := seedUsers now seedPlayers (withAdmin now (users db)) in
  ensureSeedData now db
  = match sessions db with
    | [] =>
        let k := counterValue db in
        mkDb us (seedSessions k now)
          (attempts db ++ seedAttempts k (nextObjectId db) now)
          (snd (findOneAndUpdateInc "sessionId"
                  (snd (findOneAndUpdateInc "sessionId" (counters db)))))
          (N.succ (N.succ (N.succ (N.succ (nextObjectId db)))))
    | _ :: _ =>
        mkDb us (sessions db) (attempts db) (counters db) (nextObjectId db)
    end.
Proof.
  intros us. unfold ensureSeedData. fold isSeedAdmin.
  unfold us, withAdmin, getNextSessionId, counterValue.
  destruct db as [us0 ss as0 cs0 oid].
  cbn [users sessions attempts counters nextObjectId].
  destruct (findOneAndUpdateInc_after cs0) as (doc1 & cs1 & F1 & V1 & L1).
  destruct (findOneAndUpdateInc_after cs1) as (doc2 & cs2 & F2 & V2 & L2).
  rewrite L1, V1 in V2.
  destruct (findOne isSeedAdmin us0);
    cbn [users sessions attempts counters nextObjectId setUsers setCounters
         setSessions];
    destruct ss as [|s r]; cbn [List.length Z.of_nat Z.eqb];
    try reflexivity;
    rewrite F1; cbn [counters setCounters snd]; rewrite F2;
    cbn [users sessions attempts counters nextObjectId setUsers setCounters
         setSessions insertAttempts insertMany insertOne app snd];
    rewrite V1, V2, <- Z.add_assoc; change (1 + 1) with 2;
    unfold seedSessions, seedAttempts;
    repeat (rewrite <- app_assoc; cbn [app]);
    reflexivity.
Qed.

Lemma seeded_users_stable (now1 now2 : Z) (us0 : list User.t) :
  let us := seedUsers now1 seedPlayers (withAdmin now1 us0) in
  seedUsers now2 seedPlayers (withAdmin now2 us) = us.
Proof.
  intros us.
  assert (A : withAdmin now2 us = us).
  { unfold withAdmin.
    destruct (findOne isSeedAdmin us) eqn:F; [reflexivity|].
    exfalso. revert F. unfold us.
    destruct (seedUsers_appends now1 seedPlayers (withAdmin now1 us0))
      as (extra & -> & _).
    apply find_app_found, withAdmin_found. }
  rewrite A. apply seedUsers_noop. intros p Hp.
  now apply seedUsers_covers.
Qed.

(** C5, as the code has it. Seeding twice leaves the store that seeding
    once leaves. The users it creates are appended: the admin account, when
    no user named admin had the admin flag, and the seed players whose
    userName no user had. With a session in the store, sessions, attempts
    and counter stay as they are; with none, the two seed sessions take the
    next two identifiers and the four seed attempts go to the first. *)
Theorem ensureSeedData_idempotent (now1 now2 : Z) (db : Db) :
  ensureSeedData now2 (ensureSeedData now1 db) = ensureSeedData now1 db
  /\ (exists created,
        users (ensureSeedData now1 db) = (users db ++ created)%list
        /\ forall u, In u created ->
             (u = User.mk "admin" true None (hmacKeyHash "admin") now1
              /\ forall v, In v (users db) -> isSeedAdmin v = false)
             \/ (exists p, In p seedPlayers
                   /\ u = User.mk (fst p) false None (hmacKeyHash (snd p))
                           now1
                   /\ forall v, In v (users db) -> User.userName v <> fst p))
  /\ (sessions db <> [] ->
      sessions (ensureSeedData now1 db) = sessions db
      /\ attempts (ensureSeedData now1 db) = attempts db
      /\ counters (ensureSeedData now1 db) = counters db)
  /\ (sessions db = [] ->
      sessions (ensureSeedData now1 db) = seedSessions (counterValue db) now1
      /\ attempts (ensureSeedData now1 db)
         = (attempts db
            ++ seedAttempts (counterValue db) (nextObjectId db) now1)%list
      /\ counterValue (ensureSeedData now1 db) = counterValue db + 2).
Proof.
  pose proof (ensureSeedData_steps now1 db) as E1. cbn zeta in E1.
  split; [|split; [|split]].
  - rewrite (ensureSeedData_steps now2 (ensureSeedData now1 db)).
    cbn zeta.
    assert (U : users (ensureSeedData now1 db)
                = seedUsers now1 seedPlayers (withAdmin now1 (users db)))
      by (rewrite E1; now destruct (sessions db)).
    assert (S : sessions (ensureSeedData now1 db) <> [])
      by (rewrite E1; now destruct (sessions db)).
    rewrite U, seeded_users_stable, <- U.
    destruct (ensureSeedData now1 db) as [us ss ats cs oid].
    cbn [users sessions attempts counters nextObjectId] in *.
    now destruct ss.
  - destruct (seedUsers_appends now1 seedPlayers (withAdmin now1 (users db)))
      as (extra & Hx & Hextra).
    assert (U : users (ensureSeedData now1 db)
                = seedUsers now1 seedPlayers (withAdmin now1 (users db)))
      by (rewrite E1; now destruct (sessions db)).
    rewrite U, Hx. unfold withAdmin in *.
    destruct (findOne isSeedAdmin (users db)) eqn:F.
    + exists extra. split; [reflexivity|]. intros u Hu. right.
      exact (Hextra u Hu).
    + exists (User.mk "admin" true None (hmacKeyHash "admin") now1 :: extra).
      split; [unfold insertOne; now rewrite <- app_assoc|].
      intros u [<-|Hu].
      * left. split; [reflexivity|]. exact (find_none _ _ F).
      * right. destruct (Hextra u Hu) as (p & Hp & Hu' & K).
        exists p. split; [exact Hp|]. split; [exact Hu'|].
        intros v Hv. apply K. apply in_or_app. now left.
  - intros Hs. rewrite E1. destruct (sessions db); [contradiction|].
    now cbn.
  - intros Hs. rewrite E1, Hs.
    cbn [sessions attempts counters]. split; [reflexivity|].
    split; [reflexivity|].
    unfold counterValue at 1. cbn [counters].
    destruct (findOneAndUpdateInc_after (counters db))
      as (doc1 & cs1 & F1 & V1 & L1).
    destruct (findOneAndUpdateInc_after cs1) as (doc2 & cs2 & F2 & V2 & L2).
    rewrite F1. cbn [snd]. rewrite F2. cbn [snd]. rewrite L2, V2, L1, V1.
    unfold counterValue. lia.
Qed.

End SeedProperties.

(** The witness of C5: seeding the empty store twice. *)
Lemma ensureSeedData_idempotent_witness :
  ensureSeedData (ext := sampleCollaborators) 2000
    (ensureSeedData (ext := sampleCollaborators) 1000 emptyDb)
  = ensureSeedData (ext := sampleCollaborators) 1000 emptyDb
  /\ sessions (ensureSeedData (ext := sampleCollaborators) 1000 emptyDb)
     = seedSessions 0 1000.
Proof.
  destruct (ensureSeedData_idempotent (ext := sampleCollaborators) 1000 2000
              emptyDb) as (H1 & _ & _ & H2).
  split; [exact H1 | exact (proj1 (H2 eq_refl))].
Defined.

(** Against C5 as stated: in a store where a player holds the userName
    [admin], seeding creates a second user of that userName. *)
Lemma ensureSeedData_duplicates_admin_name :
  users (ensureSeedData (ext := sampleCollaborators) 1000 playerNamedAdminDb)
  = [ User.mk "admin" false None "h" 0;
      User.mk "admin" true None "secret/admin" 1000;
      User.mk "Artur_1" false None "secret/artur" 1000;
      User.mk "Antuan" false None "secret/a" 1000;
      User.mk "Maria" false None "secret/m" 1000;
      User.mk "Ivan" false None "secret/i" 1000 ]
  /\ users playerNamedAdminDb = [User.mk "admin" false None "h" 0]
  /\ ~ (forall u,
          In u (users (ensureSeedData (ext := sampleCollaborators) 1000
                         playerNamedAdminDb)) ->
          ~ In u (users playerNamedAdminDb) ->
          forall v, In v (users playerNamedAdminDb) ->
                    User.userName v <> User.userName u).
Proof.
  split; [reflexivity|]. split; [reflexivity|].
  intros H.
  apply (H (User.mk "admin" true None "secret/admin" 1000)
           ltac:(right; now left)
           ltac:(intros [K|[]]; discriminate)
           (User.mk "admin" false None "h" 0) ltac:(now left)).
  reflexivity.
Qed.

(** ** Creating and listing sessions *)

Lemma getNextSessionId_value {ext : Collaborators} (db : Db) :
  getNextSessionId db
  = (counterValue db + 1,
     setCounters db (snd (findOneAndUpdateInc "sessionId" (counters db)))).
Proof.
  unfold getNextSessionId, counterValue.
  destruct (findOneAndUpdateInc_after (counters db))
    as (doc & cs & F & V & _).
  now rewrite F, V.
Qed.

(** The create endpoint on an admin request: 400 without storing when a
    field is missing or the string does not parse; otherwise the session
    goes in under the next identifier and the answer repeats the date and
    the time of the request. *)
Lemma createSession_admitted {ext : Collaborators}
  (now : Z) (req : Request) (db : Db) (user : AuthUser) :
  admitted (Some "admin") now req user ->
  createSession now req db
  = if negb (present (ReqBody.startDate (body req)))
       || negb (present (ReqBody.startTime (body req)))
    then (mkResponse 400 (Error "invalid_datetime"), db)
    else
      match Date_parse (startString req) with
      | None => (mkResponse 400 (Error "invalid_datetime"), db)
      | Some ts =>
          (mkResponse 201
             (OneSession
                (SessionView.mk (counterValue db + 1)
                   (orEmpty (ReqBody.startDate (body req)))
                   (orEmpty (ReqBody.startTime (body req)))
                   (orEmpty (ReqBody.description (body req))))),
           setSessions
             (setCounters db
                (snd (findOneAndUpdateInc "sessionId" (counters db))))
             (sessions db ++ [createdSession now req db ts]))
      end.
Proof.
  intros Hadm. unfold createSession.
  rewrite (authMiddleware_admitted _ _ _ _ _ _ Hadm).
  destruct (negb (present (ReqBody.startDate (body req)))
            || negb (present (ReqBody.startTime (body req))));
    [reflexivity|].
  fold (startString req). destruct (Date_parse (startString req));
    [|reflexivity].
  rewrite getNextSessionId_value. reflexivity.
Qed.

(** C7, at the request that shows the defect. For an admin request with
    the date [2024-01-01] and the time [24:00] the endpoint stores the
    instant 2024-01-02T00:00:00Z under the next identifier and answers 201
    with the date [2024-01-01] and the time [24:00] of the request, whereas
    the list endpoint shows that session as [2024-01-02], [00:00]. *)
Theorem createSession_echoes_request {ext : Collaborators}
  (now : Z) (req : Request) (db : Db) (user : AuthUser) :
  admitted (Some "admin") now req user ->
  ReqBody.startDate (body req) = Some "2024-01-01" ->
  ReqBody.startTime (body req) = Some "24:00" ->
  let stored := createdSession now req db 1704153600000 in
  exists db',
    createSession now req db
    = (mkResponse 201
         (OneSession
            (SessionView.mk (counterValue db + 1) "2024-01-01" "24:00"
               (orEmpty (ReqBody.description (body req))))), db')
    /\ sessions db' = (sessions db ++ [stored])%list
    /\ toISOString (Session.startAt stored) = Some "2024-01-02T00:00:00.000Z"
    /\ sessionView stored
       = Some (SessionView.mk (counterValue db + 1) "2024-01-02" "00:00"
                 (orEmpty (ReqBody.description (body req)))).
Proof.
  intros Hadm Hd Ht stored.
  rewrite (createSession_admitted now req db user Hadm).
  unfold startString. rewrite Hd, Ht. cbn [present orEmpty negb orb].
  change (Date_parse ("2024-01-01" ++ "T" ++ "24:00" ++ ":00Z"))
    with (Some 1704153600000).
  eexists. split; [reflexivity|]. split; [reflexivity|].
  split; reflexivity.
Qed.

(** The witness of C7: the admin creates that session on the empty
    store. *)
Lemma createSession_echoes_request_witness :
  createSession (ext := sampleCollaborators) 0
    (sessionRequest "admin:root" (Some "2024-01-01") (Some "24:00") None)
    emptyDb
  = (mkResponse 201 (OneSession (SessionView.mk 1 "2024-01-01" "24:00" "")),
     mkDb [] [Session.mk 1 1704153600000 "" 0] []
       [Counter.mk "sessionId" 1] 0)
  /\ sessionView (Session.mk 1 1704153600000 "" 0)
     = Some (SessionView.mk 1 "2024-01-02" "00:00" "").
Proof.
  destruct (createSession_echoes_request (ext := sampleCollaborators) 0
              (sessionRequest "admin:root" (Some "2024-01-01")
                 (Some "24:00") None)
              emptyDb rootAdmin (conj eq_refl (fun _ => eq_refl))
              eq_refl eq_refl)
    as (db' & H1 & _ & _ & H2).
  split; [reflexivity | exact H2].
Defined.

(** C8, at the store that shows the defect. For a request that passes the
    middleware, a stored session that starts with the year 10000 is listed
    with the date [+010000-01] and the time [01T00]. *)
Theorem listSessions_expanded_year {ext : Collaborators}
  (now : Z) (req : Request) (db : Db) (user : AuthUser) (s : Session.t) :
  admitted None now req user ->
  sessions db = [s] ->
  Session.startAt s = year10000 ->
  toISOString (Session.startAt s) = Some "+010000-01-01T00:00:00.000Z"
  /\ listSessions now req db
     = (mkResponse 200
          (Sessions
             [SessionView.mk (Session.id s) "+010000-01" "01T00"
                (Session.description s)]), db)
  /\ isDateShape "+010000-01" = false
  /\ isTimeShape "01T00" = false.
Proof.
  intros Hadm Hs Ht. rewrite Ht. split; [reflexivity|].
  split; [|split; reflexivity].
  unfold listSessions. rewrite (authMiddleware_admitted _ _ _ _ _ _ Hadm).
  rewrite Hs. cbn [sortBy insertSorted mapThrowing].
  unfold sessionView. rewrite Ht. reflexivity.
Qed.

(** The witness of C8. *)
Lemma listSessions_expanded_year_witness :
  listSessions (ext := sampleCollaborators) 0 (sampleRequest "player:A" "")
    (mkDb [] [Session.mk 1 year10000 "" 0] [] [Counter.mk "sessionId" 1] 0)
  = (mkResponse 200 (Sessions [SessionView.mk 1 "+010000-01" "01T00" ""]),
     mkDb [] [Session.mk 1 year10000 "" 0] [] [Counter.mk "sessionId" 1] 0).
Proof.
  exact (proj1 (proj2
    (listSessions_expanded_year (ext := sampleCollaborators) 0
       (sampleRequest "player:A" "")
       (mkDb [] [Session.mk 1 year10000 "" 0] [] [Counter.mk "sessionId" 1] 0)
       playerA (Session.mk 1 year10000 "" 0)
       (conj eq_refl (fun H => False_ind _ (diff_false_true H)))
       eq_refl eq_refl))).
Defined.

(** That store is the one an admin gets with the date [+010000-01-01] and
    the time [00:00] on the empty store. *)
Lemma createSession_year_10000 :
  snd (createSession (ext := sampleCollaborators) 0
         (sessionRequest "admin:root" (Some "+010000-01-01") (Some "00:00")
            None) emptyDb)
  = mkDb [] [Session.mk 1 year10000 "" 0] [] [Counter.mk "sessionId" 1] 0.
Proof. reflexivity. Qed.

(** X10. The list endpoint, for a request that passes the middleware, on a
    store whose sessions carry valid dates: the answer is 200 with every
    session once, latest start first, each in its view. *)
Lemma listSessions_sorted {ext : Collaborators}
  (now : Z) (req : Request) (db : Db) (user : AuthUser) :
  admitted None now req user ->
  Forall (fun d => validTime (Session.startAt d) = true) (sessions db) ->
  let docs := sortBy byStartAtDesc (sessions db) in
  exists views,
    listSessions now req db = (mkResponse 200 (Sessions views), db)
    /\ Forall2 sessionViewOf docs views
    /\ Permutation (sessions db) docs
    /\ StronglySorted
         (fun a b => Session.startAt b <= Session.startAt a) docs.
Proof.
  intros Hadm Hvalid docs.
  unfold listSessions. rewrite (authMiddleware_admitted _ _ _ _ _ _ Hadm).
  fold docs.
  assert (Hperm : Permutation (sessions db) docs) by apply sortBy_perm.
  destruct (mapThrowing_Forall2 sessionView sessionViewOf docs)
    as (views & Hviews & Hall).
  { intros d Hd. apply (Permutation_in _ (Permutation_sym Hperm)) in Hd.
    rewrite Forall_forall in Hvalid. specialize (Hvalid d Hd).
    unfold sessionView, sessionViewOf, toISOString. rewrite Hvalid.
    eexists. split; [reflexivity|]. eexists. split; reflexivity. }
  exists views. rewrite Hviews. split; [reflexivity|].
  split; [exact Hall|]. split; [exact Hperm|].
  assert (S : StronglySorted (fun a b => byStartAtDesc a b = true) docs).
  { apply sortBy_StronglySorted; unfold byStartAtDesc; intros; lia. }
  clear - S. induction S as [|a l _ IH Hall]; constructor; [exact IH|].
  eapply Forall_impl; [|exact Hall]. unfold byStartAtDesc. intros b. lia.
Qed.

Lemma isDigit_digitChar (n : Z) : isDigit (digitChar (n mod 10)) = true.
Proof.
  assert (H : 0 <= n mod 10 < 10) by (apply Z.mod_pos_bound; lia).
  assert (K : n mod 10 = 0 \/ n mod 10 = 1 \/ n mod 10 = 2 \/ n mod 10 = 3
              \/ n mod 10 = 4 \/ n mod 10 = 5 \/ n mod 10 = 6
              \/ n mod 10 = 7 \/ n mod 10 = 8 \/ n mod 10 = 9) by lia.
  repeat (destruct K as [->|K]; [reflexivity|]). now rewrite K.
Qed.

(** X11. For a valid instant within the years 0 to 9999 the two slices the
    list endpoint takes of [toISOString] are the date [YYYY-MM-DD] and the
    time [HH:MM] of the instant in UTC, digits and separators in place. *)
Lemma slices_four_digit_year (t : Z) :
  validTime t = true ->
  0 <= YearFromTime t <= 9999 ->
  exists iso,
    toISOString t = Some iso
    /\ slice 0 10 iso
       = pad 4 (YearFromTime t) ++ "-" ++ pad 2 (MonthFromTime t) ++ "-"
         ++ pad 2 (DateFromTime t)
    /\ slice 11 16 iso = pad 2 (HourFromTime t) ++ ":" ++ pad 2 (MinFromTime t)
    /\ isDateShape (slice 0 10 iso) = true
    /\ isTimeShape (slice 11 16 iso) = true.
Proof.
  intros Hv Hy. unfold toISOString, yearString. rewrite Hv.
  replace ((0 <=? YearFromTime t) && (YearFromTime t <=? 9999)) with true
    by (symmetry; apply andb_true_intro; split; apply Z.leb_le; lia).
  eexists. split; [reflexivity|].
  generalize (YearFromTime t) (MonthFromTime t) (DateFromTime t)
    (HourFromTime t) (MinFromTime t) (SecFromTime t) (msFromTime t).
  intros y m d h mi s ms.
  cbn [pad append slice substring Nat.sub isDateShape isTimeShape
       list_ascii_of_string].
  rewrite !isDigit_digitChar. repeat split.
Qed.

(** ** The middleware refuses *)

Lemma authMiddleware_unauthorized {ext : Collaborators}
  (requiredRole : option string) (next : AuthUser -> Handler)
  (now : Z) (req : Request) (db : Db) :
  authenticate now req = None ->
  authMiddleware requiredRole next now req db
  = (mkResponse 401 (Error "unauthorized"), db).
Proof. intros H. unfold authMiddleware. now rewrite H. Qed.

Lemma authMiddleware_forbidden {ext : Collaborators}
  (required : string) (next : AuthUser -> Handler)
  (now : Z) (req : Request) (db : Db) (user : AuthUser) :
  authenticate now req = Some user ->
  required <> "" ->
  authRole user <> required ->
  authMiddleware (Some required) next now req db
  = (mkResponse 403 (Error "forbidden"), db).
Proof.
  intros H Hreq Hrole. unfold authMiddleware. rewrite H.
  rewrite (present_Some required Hreq). cbn [orEmpty andb].
  now destruct (String.eqb_spec (authRole user) required).
Qed.

(** What a handler behind the middleware leaves in the store is the store
    it got or what the handler proper leaves. *)
Lemma authMiddleware_store {ext : Collaborators}
  (requiredRole : option string) (next : AuthUser -> Handler)
  (now : Z) (req : Request) (db : Db) :
  snd (authMiddleware requiredRole next now req db) = db
  \/ exists user,
       authenticate now req = Some user
       /\ authMiddleware requiredRole next now req db = next user now req db.
Proof.
  unfold authMiddleware. destruct (authenticate now req) as [user|];
    [|now left].
  destruct (present requiredRole
            && negb (String.eqb (authRole user) (orEmpty requiredRole)));
    [now left|].
  right. now exists user.
Qed.

(** ** Session identifiers stay distinct *)

Lemma deleteOne_In {A} (f : A -> bool) (x : A) (l : list A) :
  In x (deleteOne f l) -> In x l.
Proof.
  induction l as [|d r IH]; cbn [deleteOne]; [trivial|].
  destruct (f d); cbn [In]; tauto.
Qed.

Lemma deleteOne_NoDup {A B} (f : A -> bool) (key : A -> B) (l : list A) :
  NoDup (map key l) -> NoDup (map key (deleteOne f l)).
Proof.
  induction l as [|d r IH]; cbn [deleteOne map]; [trivial|].
  intros H. inversion H as [|? ? Hnot Hrest]; subst.
  destruct (f d); [exact Hrest|]. cbn [map]. constructor; [|now apply IH].
  intros K. apply Hnot. apply in_map_iff in K.
  destruct K as (x & Hx & Hin). apply in_map_iff. exists x.
  split; [exact Hx | now apply deleteOne_In in Hin].
Qed.

Lemma counterValue_next (db : Db) :
  counterValue
    (setCounters db (snd (findOneAndUpdateInc "sessionId" (counters db))))
  = counterValue db + 1.
Proof.
  unfold counterValue. cbn [counters setCounters].
  destruct (findOneAndUpdateInc_after (counters db))
    as (doc & cs & F & V & L).
  rewrite F. cbn [snd]. now rewrite L, V.
Qed.

Lemma NoDup_snoc {A} (x : A) (l : list A) :
  NoDup l -> ~ In x l -> NoDup (l ++ [x]).
Proof.
  intros Hl Hx. apply (Permutation_NoDup (l := x :: l)).
  - apply Permutation_cons_append.
  - now constructor.
Qed.

Lemma emptyDb_allocated : sessionIdsAllocated emptyDb.
Proof. split; [constructor | intros s []]. Qed.

Lemma createSession_allocated {ext : Collaborators}
  (now : Z) (req : Request) (db : Db) :
  sessionIdsAllocated db ->
  sessionIdsAllocated (snd (createSession now req db)).
Proof.
  intros [Hnd Hle].
  destruct (authenticate now req) as [user|] eqn:A.
  - destruct (String.eqb_spec (authRole user) "admin") as [Hrole|Hrole].
    + rewrite (createSession_admitted now req db user (conj A (fun _ => Hrole))).
      destruct (negb (present (ReqBody.startDate (body req)))
                || negb (present (ReqBody.startTime (body req))));
        [now split|].
      destruct (Date_parse (startString req)) as [ts|]; [|now split].
      cbn [snd]. split.
      * cbn [sessions setSessions]. rewrite map_app. cbn [map Session.id].
        apply NoDup_snoc; [exact Hnd|].
        intros K. apply in_map_iff in K. destruct K as (s & Hs & Hin).
        specialize (Hle s Hin). unfold createdSession in Hs.
        cbn [Session.id] in Hs. lia.
      * intros s Hs. cbn [sessions setSessions] in Hs.
        replace (counterValue _) with (counterValue db + 1)
          by (symmetry; apply counterValue_next).
        apply in_app_or in Hs. destruct Hs as [Hs|[<-|[]]].
        -- specialize (Hle s Hs). lia.
        -- cbn [createdSession Session.id]. lia.
    + unfold createSession.
      rewrite (authMiddleware_forbidden "admin" _ now req db user A);
        [now split | discriminate | exact Hrole].
  - unfold createSession. rewrite authMiddleware_unauthorized by exact A.
    now split.
Qed.

Lemma deleteSession_admitted {ext : Collaborators}
  (now : Z) (req : Request) (db : Db) (user : AuthUser) :
  admitted (Some "admin") now req user ->
  deleteSession now req db
  = let id := StringToNumber (params_id req) in
    if negb (isFinite id) then (mkResponse 400 (Error "invalid_id"), db)
    else
      (mkResponse 204 NoBody,
       setAttempts
         (setSessions db
            (deleteOne (fun s => integerMatches id (Session.id s))
               (sessions db)))
         (deleteMany (fun a => numberMatches id (Attempt.sessionId a))
            (attempts db))).
Proof.
  intros Hadm. unfold deleteSession.
  now rewrite (authMiddleware_admitted _ _ _ _ _ _ Hadm).
Qed.

Lemma deleteSession_allocated {ext : Collaborators}
  (now : Z) (req : Request) (db : Db) :
  sessionIdsAllocated db ->
  sessionIdsAllocated (snd (deleteSession now req db)).
Proof.
  intros [Hnd Hle].
  destruct (authenticate now req) as [user|] eqn:A.
  - destruct (String.eqb_spec (authRole user) "admin") as [Hrole|Hrole].
    + rewrite (deleteSession_admitted now req db user
                 (conj A (fun _ => Hrole))).
      cbn zeta. destruct (negb (isFinite (StringToNumber (params_id req))));
        [now split|].
      cbn [snd]. split.
      * cbn [sessions setSessions setAttempts]. now apply deleteOne_NoDup.
      * intros s Hs. cbn [sessions setSessions setAttempts] in Hs.
        apply deleteOne_In in Hs. exact (Hle s Hs).
    + unfold deleteSession.
      rewrite (authMiddleware_forbidden "admin" _ now req db user A);
        [now split | discriminate | exact Hrole].
  - unfold deleteSession. rewrite authMiddleware_unauthorized by exact A.
    now split.
Qed.

Lemma ensureSeedData_allocated {ext : Collaborators} (now : Z) (db : Db) :
  sessionIdsAllocated db ->
  sessionIdsAllocated (ensureSeedData now db).
Proof.
  intros [Hnd Hle]. rewrite ensureSeedData_steps. cbn zeta.
  destruct (sessions db) as [|s r] eqn:S.
  - split.
    + cbn. repeat constructor; cbn; [|tauto]. intros [K|[]]. lia.
    + assert (K : forall us ss ats oid,
                counterValue
                  (mkDb us ss ats
                     (snd (findOneAndUpdateInc "sessionId"
                             (snd (findOneAndUpdateInc "sessionId"
                                     (counters db))))) oid)
                = counterValue db + 2).
      { intros us ss ats oid. unfold counterValue. cbn [counters].
        destruct (findOneAndUpdateInc_after (counters db))
          as (doc1 & cs1 & F1 & V1 & L1).
        destruct (findOneAndUpdateInc_after cs1)
          as (doc2 & cs2 & F2 & V2 & L2).
        rewrite F1. cbn [snd]. rewrite F2. cbn [snd].
        rewrite L2, V2, L1, V1. lia. }
      intros x Hx. rewrite K. cbn [sessions seedSessions] in Hx.
      destruct Hx as [<-|[<-|[]]]; cbn; lia.
  - split; [exact Hnd|]. intros x Hx. exact (Hle x Hx).
Qed.

(** * Further properties of the server *)

(** ** The middleware on every route *)

(** X1. Behind the middleware no route runs for a request whose token does
    not verify: the answer is 401 [unauthorized] and the store is
    untouched; on a route that requires a role, a verified user of another
    role gets 403 [forbidden], the store untouched as well. *)
Theorem guarded_routes_reject {ext : Collaborators}
  (now : Z) (req : Request) (db : Db)
  (requiredRole : option string) (h : Handler) :
  In (requiredRole, h) guardedRoutes ->
  (authenticate now req = None ->
   h now req db = (mkResponse 401 (Error "unauthorized"), db))
  /\ (forall user required,
        authenticate now req = Some user ->
        requiredRole = Some required ->
        authRole user <> required ->
        h now req db = (mkResponse 403 (Error "forbidden"), db)).
Proof.
  intros Hin. unfold guardedRoutes in Hin. cbn [In] in Hin.
  repeat (destruct Hin as [[= <- <-]|Hin]); try destruct Hin;
    (split;
     [intros A; apply authMiddleware_unauthorized; exact A
     |intros user required A [= <-] R; try discriminate;
      apply (authMiddleware_forbidden _ _ now req db user A);
      first [discriminate | exact R]]).
Qed.

(** The witness of X1: a player asks to delete session 7. *)
Lemma guarded_routes_reject_witness :
  deleteSession (ext := sampleCollaborators) 0
    (sampleRequest "player:A" "7") sampleDb
  = (mkResponse 403 (Error "forbidden"), sampleDb)
  /\ deleteSession (ext := sampleCollaborators) 0
       (mkRequest None "7" JUndefined emptyBody) sampleDb
     = (mkResponse 401 (Error "unauthorized"), sampleDb).
Proof.
  split.
  - apply (proj2 (guarded_routes_reject (ext := sampleCollaborators) 0
                    (sampleRequest "player:A" "7") sampleDb (Some "admin")
                    (deleteSession (ext := sampleCollaborators))
                    ltac:(right; right; left; reflexivity))
             playerA "admin" eq_refl eq_refl).
    discriminate.
  - apply (proj1 (guarded_routes_reject (ext := sampleCollaborators) 0
                    (mkRequest None "7" JUndefined emptyBody) sampleDb
                    (Some "admin")
                    (deleteSession (ext := sampleCollaborators))
                    ltac:(right; right; left; reflexivity))).
    reflexivity.
Defined.

(** ** Routes that only read *)

Ltac split_conditionals :=
  repeat match goal with
         | |- context [match ?x with _ => _ end] => destruct x
         end.

Lemma reading_routes_keep_store_aux {ext : Collaborators}
  (now : Z) (req : Request) (db : Db) :
  snd (listSessions now req db) = db
  /\ snd (getLeaderboard now req db) = db
  /\ snd (listAttempts now req db) = db
  /\ snd (playerLoginOld now req db) = db
  /\ snd (adminLogin now req db) = db.
Proof.
  unfold listSessions, getLeaderboard, listAttempts, playerLoginOld,
    adminLogin, login, authMiddleware.
  repeat split; split_conditionals; reflexivity.
Qed.

(** X2. The list, leaderboard and attempts routes and the two logins never
    write: whatever the request and the answer, the store they leave is the
    store they got. *)
Theorem reading_routes_keep_store {ext : Collaborators}
  (now : Z) (req : Request) (db : Db) :
  snd (listSessions now req db) = db
  /\ snd (getLeaderboard now req db) = db
  /\ snd (listAttempts now req db) = db
  /\ snd (playerLoginOld now req db) = db
  /\ snd (adminLogin now req db) = db.
Proof. apply reading_routes_keep_store_aux. Qed.

(** ** Logging in *)

Lemma find_first {A} (f : A -> bool) (before : list A) (x : A)
  (after : list A) :
  (forall y, In y before -> f y = false) ->
  f x = true ->
  find f (before ++ x :: after) = Some x.
Proof.
  induction before as [|y r IH]; cbn [app find]; intros Hb Hx.
  - now rewrite Hx.
  - rewrite (Hb y (or_introl eq_refl)). apply IH; [|exact Hx].
    intros z Hz. apply Hb. now right.
Qed.

Lemma find_split {A} (f : A -> bool) (l : list A) (x : A) :
  find f l = Some x ->
  exists before after,
    l = (before ++ x :: after)%list
    /\ (forall y, In y before -> f y = false)
    /\ f x = true.
Proof.
  induction l as [|y r IH]; cbn [find]; [discriminate|].
  destruct (f y) eqn:E.
  - intros [= <-]. exists [], r. split; [reflexivity|].
    split; [intros z []|exact E].
  - intros H. destruct (IH H) as (before & after & -> & Hb & Hx).
    exists (y :: before), after. split; [reflexivity|].
    split; [|exact Hx]. intros z [<-|Hz]; [exact E | now apply Hb].
Qed.

Lemma login_steps {ext : Collaborators} (admin : bool) (roleName : string)
  (now : Z) (req : Request) (db : Db) :
  truthy (ReqBody.password (body req)) = true ->
  login admin roleName now req db
  = match ToString (ReqBody.password (body req)) with
    | None => (serverError, db)
    | Some text =>
        match find (holdsPassword admin text) (users db) with
        | None => (mkResponse 401 (Error "invalid_password"), db)
        | Some user =>
            (tokenAnswer 200 now (User.userName user) roleName, db)
        end
    end.
Proof.
  intros Hp. unfold login, tokenAnswer, serverError. rewrite Hp.
  cbn [negb]. destruct (ToString (ReqBody.password (body req)));
    [|reflexivity].
  unfold findOne, holdsPassword.
  destruct (find _ (users db)) as [user|]; [|reflexivity].
  now destruct (signToken now (mkPayload (User.userName user) roleName)).
Qed.

Lemma tokenAnswer_grants {ext : Collaborators}
  (status now : Z) (userName role : string) :
  grantsToken (tokenAnswer status now userName role) status now userName
    role.
Proof.
  unfold grantsToken, tokenAnswer. split.
  - intros token Hs Hsign.
    now rewrite (proj2 (signToken_Some now _ token) (conj Hs Hsign)).
  - intros Hfail.
    destruct (signToken now (mkPayload userName role)) as [t|] eqn:S;
      [|reflexivity].
    apply signToken_Some in S. destruct S as [S1 S2].
    destruct Hfail as [H|H]; congruence.
Qed.

(** X3. A login answers 400 [missing_password] when the password is absent
    or falsy, 500 [server_error] when [String] cannot coerce it, and 401
    [invalid_password] when no user of the route's kind (a player for the
    player login, an admin for the admin login) holds the hash of its
    string. Otherwise the answer is for the first such user in the store:
    200 with the token [jwt.sign] gives for that userName under the role
    of the route, and 500 when the signing secret is not set or [jwt.sign]
    throws. The store is as it was in every case. *)
Theorem login_outcomes {ext : Collaborators}
  (now : Z) (req : Request) (db : Db)
  (h : Handler) (admin : bool) (roleName : string) :
  In (h, admin, roleName) loginRoutes ->
  let password := ReqBody.password (body req) in
  (truthy password = false ->
   h now req db = (mkResponse 400 (Error "missing_password"), db))
  /\ (truthy password = true -> ToString password = None ->
      h now req db = (mkResponse 500 (Error "server_error"), db))
  /\ (forall text,
        truthy password = true ->
        ToString password = Some text ->
        ((forall u, In u (users db) ->
                    holdsPassword admin text u = false) ->
         h now req db = (mkResponse 401 (Error "invalid_password"), db))
        /\ (forall before u after,
              users db = (before ++ u :: after)%list ->
              (forall v, In v before ->
                         holdsPassword admin text v = false) ->
              holdsPassword admin text u = true ->
              snd (h now req db) = db
              /\ grantsToken (fst (h now req db)) 200 now (User.userName u)
                   roleName)).
Proof.
  intros Hin password.
  assert (E : h = login admin roleName).
  { unfold loginRoutes in Hin. cbn [In] in Hin.
    destruct Hin as [[= <- <- <-]|[[= <- <- <-]|[]]]; reflexivity. }
  subst h. split; [|split].
  - intros H. unfold login. fold password. now rewrite H.
  - intros Hp Hthrow. rewrite (login_steps _ _ _ _ _ Hp).
    fold password. now rewrite Hthrow.
  - intros text Hp Htext. rewrite (login_steps _ _ _ _ _ Hp).
    fold password. rewrite Htext. split.
    + intros Hnone.
      now rewrite (proj2 (find_absent (holdsPassword admin text)
                            (users db)) Hnone).
    + intros before u after Hu Hb Hm.
      rewrite Hu, (find_first _ _ _ _ Hb Hm). cbn [fst snd].
      split; [reflexivity | apply tokenAnswer_grants].
Qed.

(** The witness of X3: the seeded player Antuan logs in with the password
    [a], surrounded by spaces. *)
Lemma login_outcomes_witness :
  playerLoginOld (ext := sampleCollaborators) 7
    (loginRequest (JStr " a "))
    (ensureSeedData (ext := sampleCollaborators) 0 emptyDb)
  = (mkResponse 200 (Token "player:Antuan" "Antuan" "player"),
     ensureSeedData (ext := sampleCollaborators) 0 emptyDb).
Proof.
  destruct (proj2 (proj2 (proj2 (login_outcomes (ext := sampleCollaborators)
                         7 (loginRequest (JStr " a "))
                         (ensureSeedData (ext := sampleCollaborators) 0
                            emptyDb)
                         (playerLoginOld (ext := sampleCollaborators))
                         false "player" ltac:(left; reflexivity)))
                  " a " eq_refl eq_refl)
           [ User.mk "admin" true None "secret/admin" 0;
             User.mk "Artur_1" false None "secret/artur" 0 ]
           (User.mk "Antuan" false None "secret/a" 0)
           [ User.mk "Maria" false None "secret/m" 0;
             User.mk "Ivan" false None "secret/i" 0 ]
           eq_refl) as [Hdb [Htoken _]].
  - intros v [<-|[<-|[]]]; reflexivity.
  - reflexivity.
  - rewrite (surjective_pairing (playerLoginOld _ _ _)), Hdb.
    now rewrite (Htoken "player:Antuan" eq_refl eq_refl).
Defined.

(** X4. Registration followed by the player login with the same password.
    Once a new userName is registered with a password that [String]
    coerces, the user is stored whether or not a token could be signed, and
    the login then answers for a player who holds the hash of that
    password (200 with the token [jwt.sign] gives, 500 when the secret is
    not set or [jwt.sign] throws): the registered user when no player of
    the store held that hash before, and otherwise the first player who
    did. *)
Theorem register_then_login {ext : Collaborators}
  (now now' : Z) (reqR reqL : Request) (db : Db) (name text : string) :
  ReqBody.userName (body reqR) = Some name ->
  name <> "" ->
  truthy (ReqBody.password (body reqR)) = true ->
  ToString (ReqBody.password (body reqR)) = Some text ->
  ReqBody.password (body reqL) = ReqBody.password (body reqR) ->
  (forall u, In u (users db) -> User.userName u <> name) ->
  let registered := User.mk name false None (hmacKeyHash text) now in
  let db' := setUsers db (users db ++ [registered]) in
  snd (playerRegister now reqR db) = db'
  /\ grantsToken (fst (playerRegister now reqR db)) 201 now name "player"
  /\ exists u,
       find (holdsPassword false text) (users db') = Some u
       /\ snd (playerLoginOld now' reqL db') = db'
       /\ grantsToken (fst (playerLoginOld now' reqL db')) 200 now'
            (User.userName u) "player"
       /\ ((forall v, In v (users db) -> holdsPassword false text v = false)
           -> u = registered)
       /\ (forall v, find (holdsPassword false text) (users db) = Some v ->
           u = v).
Proof.
  intros HnR Hne Hp Htext HpL Hfree registered db'.
  assert (Hreg : holdsPassword false text registered = true).
  { unfold holdsPassword, registered. cbn [User.isAdmin User.keyHash].
    now rewrite String.eqb_refl. }
  assert (F0 : findOne (hasUserName name) (users db) = None).
  { apply find_absent. intros u Hu.
    destruct (hasUserName name u) eqn:K; [|reflexivity].
    apply hasUserName_true in K. now apply Hfree in Hu. }
  rewrite (playerRegister_steps now reqR db name HnR Hne Hp), F0, Htext.
  cbn [fst snd].
  split; [reflexivity|]. split; [apply tokenAnswer_grants|].
  unfold playerLoginOld. rewrite login_steps by now rewrite HpL.
  rewrite HpL, Htext.
  destruct (find (holdsPassword false text) (users db')) as [u|] eqn:F.
  - exists u. cbn [fst snd].
    split; [reflexivity|]. split; [reflexivity|].
    split; [apply tokenAnswer_grants|]. split.
    + intros Hnone. cbn [users setUsers db'] in F.
      rewrite (find_first _ (users db) registered [] Hnone Hreg) in F.
      now injection F as <-.
    + intros v Hv. destruct (find_split _ _ _ Hv)
        as (before & after & Hu & Hb & Hm).
      cbn [users setUsers db'] in F. rewrite Hu, <- app_assoc in F.
      cbn [app] in F. rewrite (find_first _ _ _ _ Hb Hm) in F.
      now injection F as <-.
  - exfalso.
    apply (proj2 (find_found (holdsPassword false text) (users db')));
      [|exact F].
    exists registered. split; [|exact Hreg].
    cbn [users setUsers db']. apply in_or_app. right. now left.
Qed.

(** The witness of X4: Bob registers on the empty store and logs in. *)
Lemma register_then_login_witness :
  playerLoginOld (ext := sampleCollaborators) 9 (loginRequest (JStr "pw"))
    (snd (playerRegister (ext := sampleCollaborators) 5
            (registerRequest (Some "Bob") (JStr "pw")) emptyDb))
  = (mkResponse 200 (Token "player:Bob" "Bob" "player"),
     setUsers emptyDb [User.mk "Bob" false None "secret/pw" 5]).
Proof.
  destruct (register_then_login (ext := sampleCollaborators) 5 9
              (registerRequest (Some "Bob") (JStr "pw"))
              (loginRequest (JStr "pw")) emptyDb "Bob" "pw"
              eq_refl ltac:(discriminate) eq_refl eq_refl eq_refl
              (fun u (Hu : In u []) => False_ind _ Hu))
    as (Hdb & _ & u & _ & Hdb' & [Htoken _] & Hnew & _).
  rewrite Hdb. cbn [setUsers users emptyDb app] in *.
  rewrite (surjective_pairing (playerLoginOld _ _ _)), Hdb'.
  rewrite (Hnew (fun v (Hv : In v []) => False_ind _ Hv)) in Htoken.
  now rewrite (Htoken "player:Bob" eq_refl eq_refl).
Defined.

(** ** Creating a session *)



(** ** Deleting twice *)

Lemma filter_idem {A} (f : A -> bool) (l : list A) :
  filter f (filter f l) = filter f l.
Proof.
  induction l as [|x r IH]; cbn [filter]; [reflexivity|].
  destruct (f x) eqn:E; cbn [filter]; [rewrite E; now f_equal | exact IH].
Qed.

Lemma NoDup_map_filter {A B} (key : A -> B) (f : A -> bool) (l : list A) :
  NoDup (map key l) -> NoDup (map key (filter f l)).
Proof.
  induction l as [|x r IH]; cbn [map filter]; [trivial|].
  intros H. inversion H as [|? ? Hnot Hrest]; subst.
  destruct (f x); [|now apply IH]. cbn [map]. constructor; [|now apply IH].
  intros K. apply Hnot. apply in_map_iff in K.
  destruct K as (y & Hy & Hin). apply in_map_iff. exists y.
  split; [exact Hy|]. now apply filter_In in Hin.
Qed.

(** X6. Deleting is idempotent: on a store whose sessions have distinct
    ids, the same admin request a second time gets the same answer and
    leaves the store that the first one left. *)
Theorem deleteSession_twice {ext : Collaborators}
  (now now' : Z) (req : Request) (db : Db) (user user' : AuthUser) :
  admitted (Some "admin") now req user ->
  admitted (Some "admin") now' req user' ->
  NoDup (map Session.id (sessions db)) ->
  deleteSession now' req (snd (deleteSession now req db))
  = (fst (deleteSession now req db), snd (deleteSession now req db)).
Proof.
  intros Hadm Hadm' Hnd.
  rewrite (deleteSession_admitted now req db user Hadm).
  rewrite (deleteSession_admitted now' req _ user' Hadm').
  cbn zeta. destruct (negb (isFinite (StringToNumber (params_id req))));
    [reflexivity|].
  cbn [fst snd sessions attempts setSessions setAttempts]. f_equal.
  set (id := StringToNumber (params_id req)).
  assert (Hs : deleteOne (fun s => integerMatches id (Session.id s))
                 (sessions db)
               = filter (fun s => negb (integerMatches id (Session.id s)))
                   (sessions db)).
  { apply (deleteOne_unique _ Session.id); [|exact Hnd].
    intros x y. apply integerMatches_same. }
  rewrite Hs.
  rewrite (deleteOne_unique _ Session.id);
    [|intros x y; apply integerMatches_same
     |now apply NoDup_map_filter].
  unfold deleteMany. now rewrite !filter_idem.
Qed.

(** The witness of X6: the admin deletes session 7 of the sample store
    twice. *)
Lemma deleteSession_twice_witness :
  deleteSession (ext := sampleCollaborators) 1
    (sampleRequest "admin:root" "7")
    (snd (deleteSession (ext := sampleCollaborators) 0
            (sampleRequest "admin:root" "7") sampleDb))
  = (mkResponse 204 NoBody,
     snd (deleteSession (ext := sampleCollaborators) 0
            (sampleRequest "admin:root" "7") sampleDb)).
Proof.
  apply (deleteSession_twice (ext := sampleCollaborators) 0 1
           (sampleRequest "admin:root" "7") sampleDb rootAdmin rootAdmin
           (conj eq_refl (fun _ => eq_refl))
           (conj eq_refl (fun _ => eq_refl))).
  cbn. repeat constructor; cbn; intuition discriminate.
Defined.

(** ** What every route keeps *)

Lemma createSession_cases {ext : Collaborators}
  (now : Z) (req : Request) (db : Db) :
  snd (createSession now req db) = db
  \/ exists ts,
       snd (createSession now req db)
       = setSessions
           (setCounters db
              (snd (findOneAndUpdateInc "sessionId" (counters db))))
           (sessions db ++ [createdSession now req db ts]).
Proof.
  destruct (authenticate now req) as [user|] eqn:A.
  - destruct (String.eqb_spec (authRole user) "admin") as [Hrole|Hrole].
    + rewrite (createSession_admitted now req db user
                 (conj A (fun _ => Hrole))).
      destruct (negb (present (ReqBody.startDate (body req)))
                || negb (present (ReqBody.startTime (body req))));
        [now left|].
      destruct (Date_parse (startString req)) as [ts|]; [|now left].
      right. now exists ts.
    + left. unfold createSession.
      now rewrite (authMiddleware_forbidden "admin" _ now req db user A).
  - left. unfold createSession.
    now rewrite authMiddleware_unauthorized by exact A.
Qed.

Lemma deleteSession_cases {ext : Collaborators}
  (now : Z) (req : Request) (db : Db) :
  snd (deleteSession now req db) = db
  \/ snd (deleteSession now req db)
     = setAttempts
         (setSessions db
            (deleteOne
               (fun s => integerMatches (StringToNumber (params_id req))
                           (Session.id s)) (sessions db)))
         (deleteMany
            (fun a => numberMatches (StringToNumber (params_id req))
                        (Attempt.sessionId a)) (attempts db)).
Proof.
  destruct (authenticate now req) as [user|] eqn:A.
  - destruct (String.eqb_spec (authRole user) "admin") as [Hrole|Hrole].
    + rewrite (deleteSession_admitted now req db user
                 (conj A (fun _ => Hrole))).
      cbn zeta. destruct (negb (isFinite (StringToNumber (params_id req))));
        [now left | now right].
    + left. unfold deleteSession.
      now rewrite (authMiddleware_forbidden "admin" _ now req db user A).
  - left. unfold deleteSession.
    now rewrite authMiddleware_unauthorized by exact A.
Qed.

Lemma submitAttempt_cases {ext : Collaborators}
  (now : Z) (req : Request) (db : Db) :
  snd (submitAttempt now req db) = db
  \/ exists user r,
       snd (submitAttempt now req db)
       = withAttempt db (StringToNumber (params_id req)) user r now.
Proof.
  unfold submitAttempt, authMiddleware.
  destruct (authenticate now req) as [user|]; [|now left].
  destruct (present (Some "player") && _); [now left|].
  destruct (negb (isFinite _)); [now left|].
  destruct (ToNumber _) as [r|]; [|now left].
  destruct (_ || _); [now left|].
  right. now eexists _, _.
Qed.

Lemma playerRegister_cases {ext : Collaborators}
  (now : Z) (req : Request) (db : Db) :
  snd (playerRegister now req db) = db
  \/ exists name hash,
       findOne (hasUserName name) (users db) = None
       /\ snd (playerRegister now req db)
          = setUsers db (users db ++ [User.mk name false None hash now]).
Proof.
  unfold playerRegister.
  destruct (_ || _); [now left|].
  destruct (findOne _ (users db)) eqn:F; [now left|].
  destruct (ToString _) as [text|]; [|now left].
  right. eexists _, _. split; [exact F|].
  now destruct (signToken _ _).
Qed.

(** X7. Session identifiers are never given twice. From a store whose
    sessions carry distinct identifiers, none above the counter, every
    route and the seeding lead to such a store again, and none of them
    lowers the counter; so the identifier of a deleted session, which a
    later creation would have to take from the counter, does not come
    back. *)
Theorem session_ids_stay_allocated {ext : Collaborators}
  (now : Z) (req : Request) (db : Db) (h : Handler) :
  sessionIdsAllocated db ->
  In h allRoutes ->
  sessionIdsAllocated (snd (h now req db))
  /\ counterValue db <= counterValue (snd (h now req db))
  /\ sessionIdsAllocated (ensureSeedData now db)
  /\ counterValue db <= counterValue (ensureSeedData now db).
Proof.
  intros Hdb Hin.
  assert (Hseed : counterValue db <= counterValue (ensureSeedData now db)).
  { rewrite ensureSeedData_steps. cbn zeta.
    destruct (sessions db); [|unfold counterValue; cbn [counters]; lia].
    unfold counterValue at 2. cbn [counters].
    destruct (findOneAndUpdateInc_after (counters db))
      as (doc1 & cs1 & F1 & V1 & L1).
    destruct (findOneAndUpdateInc_after cs1) as (doc2 & cs2 & F2 & V2 & L2).
    rewrite F1. cbn [snd]. rewrite F2. cbn [snd].
    rewrite L2, V2, L1, V1. unfold counterValue. lia. }
  split; [|split; [|split; [now apply ensureSeedData_allocated|exact Hseed]]].
  - unfold allRoutes in Hin. cbn [In] in Hin.
    destruct Hin as [<-|[<-|[<-|[<-|[<-|[<-|[<-|[<-|[<-|[]]]]]]]]]].
    + now rewrite (proj1 (proj2 (proj2 (proj2
                     (reading_routes_keep_store_aux now req db))))).
    + now rewrite (proj2 (proj2 (proj2 (proj2
                     (reading_routes_keep_store_aux now req db))))).
    + destruct (playerRegister_cases now req db)
        as [->|(name & hash & _ & ->)]; exact Hdb.
    + now rewrite (proj1 (reading_routes_keep_store_aux now req db)).
    + now apply createSession_allocated.
    + now apply deleteSession_allocated.
    + now rewrite (proj1 (proj2 (reading_routes_keep_store_aux now req db))).
    + now rewrite (proj1 (proj2 (proj2
                     (reading_routes_keep_store_aux now req db)))).
    + destruct (submitAttempt_cases now req db) as [->|(user & r & ->)];
        exact Hdb.
  - unfold allRoutes in Hin. cbn [In] in Hin.
    destruct Hin as [<-|[<-|[<-|[<-|[<-|[<-|[<-|[<-|[<-|[]]]]]]]]]].
    + rewrite (proj1 (proj2 (proj2 (proj2
                 (reading_routes_keep_store_aux now req db))))). lia.
    + rewrite (proj2 (proj2 (proj2 (proj2
                 (reading_routes_keep_store_aux now req db))))). lia.
    + destruct (playerRegister_cases now req db)
        as [->|(name & hash & _ & ->)]; unfold counterValue;
        cbn [counters setUsers]; lia.
    + rewrite (proj1 (reading_routes_keep_store_aux now req db)). lia.
    + destruct (createSession_cases now req db) as [->|(ts & ->)]; [lia|].
      pose proof (counterValue_next db) as K.
      unfold counterValue in *. cbn [counters setSessions setCounters] in *.
      lia.
    + destruct (deleteSession_cases now req db) as [->| ->];
        unfold counterValue; cbn [counters setSessions setAttempts]; lia.
    + rewrite (proj1 (proj2 (reading_routes_keep_store_aux now req db))).
      lia.
    + rewrite (proj1 (proj2 (proj2
                 (reading_routes_keep_store_aux now req db)))). lia.
    + destruct (submitAttempt_cases now req db) as [->|(user & r & ->)];
        unfold counterValue, withAttempt; cbn [counters]; lia.
Qed.

(** The witness of X7: the admin creates a session on the empty store. *)
Lemma session_ids_stay_allocated_witness :
  sessionIdsAllocated
    (snd (createSession (ext := sampleCollaborators) 3
            (sessionRequest "admin:root" (Some "2030-06-15") (Some "18:30")
               None) emptyDb))
  /\ sessionIdsAllocated
       (ensureSeedData (ext := sampleCollaborators) 3 emptyDb).
Proof.
  destruct (session_ids_stay_allocated (ext := sampleCollaborators) 3
              (sessionRequest "admin:root" (Some "2030-06-15")
                 (Some "18:30") None) emptyDb
              (createSession (ext := sampleCollaborators))
              emptyDb_allocated
              ltac:(do 4 right; left; reflexivity))
    as (H1 & _ & H2 & _).
  split; [exact H1 | exact H2].
Defined.

(** ** Users *)

Lemma users_cases {ext : Collaborators}
  (now : Z) (req : Request) (db : Db) (h : Handler) :
  In h allRoutes ->
  users (snd (h now req db)) = users db
  \/ exists name hash,
       findOne (hasUserName name) (users db) = None
       /\ users (snd (h now req db))
          = (users db ++ [User.mk name false None hash now])%list.
Proof.
  intros Hin. unfold allRoutes in Hin. cbn [In] in Hin.
  destruct Hin as [<-|[<-|[<-|[<-|[<-|[<-|[<-|[<-|[<-|[]]]]]]]]]].
  - left. now rewrite (proj1 (proj2 (proj2 (proj2
                         (reading_routes_keep_store_aux now req db))))).
  - left. now rewrite (proj2 (proj2 (proj2 (proj2
                         (reading_routes_keep_store_aux now req db))))).
  - destruct (playerRegister_cases now req db)
      as [->|(name & hash & F & ->)]; [now left|].
    right. now exists name, hash.
  - left. now rewrite (proj1 (reading_routes_keep_store_aux now req db)).
  - left. now destruct (createSession_cases now req db) as [->|(ts & ->)].
  - left. now destruct (deleteSession_cases now req db) as [->| ->].
  - left. now rewrite (proj1 (proj2
                         (reading_routes_keep_store_aux now req db))).
  - left. now rewrite (proj1 (proj2 (proj2
                         (reading_routes_keep_store_aux now req db)))).
  - left. now destruct (submitAttempt_cases now req db)
      as [->|(user & r & ->)].
Qed.

(** X8. No route removes or changes a user, and no route makes an admin: a
    route leaves the users as they are or appends one user, who is not an
    admin and whose userName no user had. The seeding only appends users
    as well. *)
Theorem users_only_appended {ext : Collaborators}
  (now : Z) (req : Request) (db : Db) (h : Handler) :
  In h allRoutes ->
  (exists extra,
     users (snd (h now req db)) = (users db ++ extra)%list
     /\ (List.length extra <= 1)%nat
     /\ forall u, In u extra ->
          User.isAdmin u = false
          /\ forall v, In v (users db) -> User.userName v <> User.userName u)
  /\ exists seeded,
       users (ensureSeedData now db) = (users db ++ seeded)%list.
Proof.
  intros Hin. split.
  - destruct (users_cases now req db h Hin) as [->|(name & hash & F & ->)].
    + exists []. split; [now rewrite app_nil_r|]. split; [cbn; lia|].
      intros u [].
    + eexists [_]. split; [reflexivity|]. split; [cbn; lia|].
      intros u [<-|[]]. split; [reflexivity|].
      intros v Hv K. cbn [User.userName] in K.
      apply hasUserName_true in K. now rewrite (find_none _ _ F v Hv) in K.
  - rewrite ensureSeedData_steps. cbn zeta.
    destruct (seedUsers_appends now seedPlayers (withAdmin now (users db)))
      as (extra & Hx & _).
    assert (U : exists seeded,
              seedUsers now seedPlayers (withAdmin now (users db))
              = (users db ++ seeded)%list).
    { rewrite Hx. unfold withAdmin, insertOne.
      destruct (findOne isSeedAdmin (users db)).
      - now exists extra.
      - eexists (_ :: extra). now rewrite <- app_assoc. }
    destruct U as (seeded & U). exists seeded.
    now destruct (sessions db).
Qed.

(** The witness of X8: Bob registers on the sample store. *)
Lemma users_only_appended_witness :
  exists extra,
    users (snd (playerRegister (ext := sampleCollaborators) 5
                  (registerRequest (Some "Bob") (JStr "pw")) sampleDb))
    = (users sampleDb ++ extra)%list
    /\ forall u, In u extra -> User.isAdmin u = false.
Proof.
  destruct (proj1 (users_only_appended (ext := sampleCollaborators) 5
                     (registerRequest (Some "Bob") (JStr "pw")) sampleDb
                     (playerRegister (ext := sampleCollaborators))
                     ltac:(do 2 right; left; reflexivity)))
    as (extra & H1 & _ & H2).
  exists extra. split; [exact H1|]. intros u Hu. exact (proj1 (H2 u Hu)).
Defined.

Lemma seedUsers_unique {ext : Collaborators} (now : Z)
  (ps : list (string * string)) : forall us,
  NoDup (map User.userName us) ->
  NoDup (map User.userName (seedUsers now ps us)).
Proof.
  induction ps as [|[name password] r IH]; intros us H; cbn [seedUsers];
    [exact H|].
  apply IH. destruct (findOne (hasUserName name) us) eqn:F; [exact H|].
  unfold insertOne. rewrite map_app. cbn [map User.userName].
  apply NoDup_snoc; [exact H|].
  intros K. apply in_map_iff in K. destruct K as (u & Hu & Hin).
  apply hasUserName_true in Hu. now rewrite (find_none _ _ F u Hin) in Hu.
Qed.

(** X9. UserNames stay distinct. From a store of distinct userNames every
    route leads to such a store; so does the seeding when every user named
    [admin] has the admin flag. *)
Theorem userNames_stay_unique {ext : Collaborators}
  (now : Z) (req : Request) (db : Db) (h : Handler) :
  userNamesUnique db ->
  In h allRoutes ->
  userNamesUnique (snd (h now req db))
  /\ ((forall u, In u (users db) -> User.userName u = "admin" ->
                 User.isAdmin u = true) ->
      userNamesUnique (ensureSeedData now db)).
Proof.
  unfold userNamesUnique. intros Hdb Hin. split.
  - destruct (users_cases now req db h Hin) as [->|(name & hash & F & ->)];
      [exact Hdb|].
    rewrite map_app. cbn [map User.userName].
    apply NoDup_snoc; [exact Hdb|].
    intros K. apply in_map_iff in K. destruct K as (u & Hu & Hu').
    apply hasUserName_true in Hu. now rewrite (find_none _ _ F u Hu') in Hu.
  - intros Hadmin.
    assert (U : users (ensureSeedData now db)
                = seedUsers now seedPlayers (withAdmin now (users db)))
      by (rewrite ensureSeedData_steps; now destruct (sessions db)).
    rewrite U. apply seedUsers_unique. unfold withAdmin.
    destruct (findOne isSeedAdmin (users db)) eqn:F; [exact Hdb|].
    unfold insertOne. rewrite map_app. cbn [map User.userName].
    apply NoDup_snoc; [exact Hdb|].
    intros K. apply in_map_iff in K. destruct K as (u & Hu & Hu').
    pose proof (find_none _ _ F u Hu') as N. unfold isSeedAdmin in N.
    rewrite (Hadmin u Hu' Hu) in N. cbn [andb] in N.
    apply hasUserName_true in Hu. now rewrite Hu in N.
Qed.

(** The witness of X9: registration on, and seeding of, the empty store. *)
Lemma userNames_stay_unique_witness :
  userNamesUnique
    (snd (playerRegister (ext := sampleCollaborators) 5
            (registerRequest (Some "Bob") (JStr "pw")) emptyDb))
  /\ userNamesUnique (ensureSeedData (ext := sampleCollaborators) 5 emptyDb).
Proof.
  destruct (userNames_stay_unique (ext := sampleCollaborators) 5
              (registerRequest (Some "Bob") (JStr "pw")) emptyDb
              (playerRegister (ext := sampleCollaborators))
              ltac:(constructor) ltac:(do 2 right; left; reflexivity))
    as [H1 H2].
  split; [exact H1|]. apply H2. intros u [].
Defined.

(** ** Listing, further *)

(** The witness of X10: the player A lists the sessions of the sample
    store. *)
Lemma listSessions_sorted_witness :
  exists views,
    listSessions (ext := sampleCollaborators) 0 (sampleRequest "player:A" "")
      sampleDb
    = (mkResponse 200 (Sessions views), sampleDb)
    /\ Forall2 sessionViewOf
         [Session.mk 8 172800000 "eight" 0; Session.mk 7 86400000 "seven" 0]
         views.
Proof.
  destruct (listSessions_sorted (ext := sampleCollaborators) 0
              (sampleRequest "player:A" "") sampleDb playerA
              (conj eq_refl (fun H => False_ind _ (diff_false_true H)))
              ltac:(repeat constructor))
    as (views & H1 & H2 & _).
  exists views. split; [exact H1 | exact H2].
Defined.

(** The witness of X11: the first instant of 2024. *)
Lemma slices_four_digit_year_witness :
  exists iso,
    toISOString 1704067200000 = Some iso
    /\ slice 0 10 iso = "2024-01-01"
    /\ slice 11 16 iso = "00:00".
Proof.
  destruct (slices_four_digit_year 1704067200000 eq_refl
              ltac:(split; discriminate))
    as (iso & H1 & H2 & H3 & _).
  exists iso. split; [exact H1|]. split; [exact H2 | exact H3].
Defined.




(** ** An attempt and the leaderboard *)

Lemma numberMatches_refl (id : number) : numberMatches id id = true.
Proof. unfold numberMatches, JSNumber.eqb. now rewrite compare_refl. Qed.

Lemma groupByUserName_snoc (docs : list Attempt.t) (a : Attempt.t) :
  groupByUserName (docs ++ [a])
  = accumulate (Attempt.userName a) (Attempt.rate a) (groupByUserName docs).
Proof. unfold groupByUserName. now rewrite fold_left_app. Qed.

Lemma lookup_perm (k : string) (g g' : list (string * number)) :
  NoDup (map fst g) -> Permutation g g' -> lookup k g = lookup k g'.
Proof.
  intros Hnd Hperm.
  assert (Hnd' : NoDup (map fst g'))
    by (eapply Permutation_NoDup;
        [apply Permutation_map; exact Hperm | exact Hnd]).
  destruct (lookup k g) as [m|] eqn:E.
  - symmetry. apply (lookup_In _ _ _ Hnd'). apply (Permutation_in _ Hperm).
    now apply (lookup_In _ _ _ Hnd).
  - destruct (lookup k g') as [m|] eqn:E'; [|reflexivity].
    apply (lookup_In _ _ _ Hnd') in E'.
    apply (Permutation_in _ (Permutation_sym Hperm)) in E'.
    apply (lookup_In _ _ _ Hnd) in E'. congruence.
Qed.

Lemma boardRate_groups (id : number) (db : Db) (name : string) :
  boardRate (boardOf id db) name
  = lookup name (groupByUserName (sessionAttempts id db)).
Proof.
  unfold boardRate, boardOf.
  destruct (mapIndexed_rows (aggregate id (attempts db)) 0) as [_ H].
  fold (leaderboardRows (aggregate id (attempts db))) in H. rewrite H.
  symmetry. apply lookup_perm; [|apply sortBy_perm].
  apply (grouped_groupByUserName (sessionAttempts id db)).
Qed.

(** X13. An accepted attempt on the leaderboard. After a player's attempt
    is stored (201), its rate being the number [r] that [Number] makes of
    the body's rate, the leaderboard of that session gives the player the
    submitted rate, or the player's earlier best when that is not lower;
    the rate of every other player there, and the leaderboard of every
    other session, are as before. *)
Theorem submit_then_leaderboard {ext : Collaborators}
  (now : Z) (req : Request) (db : Db) (user : AuthUser) (r : number) :
  admitted (Some "player") now req user ->
  isFinite (StringToNumber (params_id req)) = true ->
  ToNumber (ReqBody.rate (body req)) = Some r ->
  rateInRange r = true ->
  let id := StringToNumber (params_id req) in
  let db' := snd (submitAttempt now req db) in
  fst (submitAttempt now req db) = mkResponse 201 Ok
  /\ boardRate (boardOf id db') (authUserName user)
     = Some match boardRate (boardOf id db) (authUserName user) with
            | Some best => maxNumber best r
            | None => r
            end
  /\ (forall name, name <> authUserName user ->
        boardRate (boardOf id db') name = boardRate (boardOf id db) name)
  /\ (forall other, numberMatches other id = false ->
        boardOf other db' = boardOf other db).
Proof.
  intros Hadm Hfin Hr Hrate id db'.
  assert (E : submitAttempt now req db
              = (mkResponse 201 Ok, withAttempt db id user r now)).
  { rewrite (submitAttempt_admitted now req db user Hadm Hfin), Hr, Hrate.
    reflexivity. }
  unfold db'. rewrite E. cbn [fst snd]. split; [reflexivity|].
  assert (M : sessionAttempts id (withAttempt db id user r now)
              = (sessionAttempts id db
                 ++ [Attempt.mk (nextObjectId db) id (authUserName user) r
                       now])%list).
  { unfold sessionAttempts, withAttempt. cbn [attempts].
    rewrite filter_app. cbn [filter Attempt.sessionId].
    now rewrite numberMatches_refl. }
  split; [|split].
  - rewrite !boardRate_groups, M, groupByUserName_snoc, lookup_accumulate.
    cbn [Attempt.userName Attempt.rate]. now rewrite String.eqb_refl.
  - intros name Hname.
    rewrite !boardRate_groups, M, groupByUserName_snoc, lookup_accumulate.
    cbn [Attempt.userName Attempt.rate].
    destruct (String.eqb_spec (authUserName user) name);
      [congruence | reflexivity].
  - intros other Hother. unfold boardOf, aggregate, withAttempt.
    cbn [attempts]. rewrite filter_app. cbn [filter Attempt.sessionId].
    rewrite Hother. now rewrite app_nil_r.
Qed.

(** The witness of X13: the player C, whose best on session 7 is 50,
    submits 60. *)
Lemma submit_then_leaderboard_witness :
  boardRate
    (boardOf (ofZ 7)
       (snd (submitAttempt (ext := sampleCollaborators) 0
               (rateRequest "player:C" "7" (JNum (ofZ 60))) sampleDb))) "C"
  = Some (ofZ 60).
Proof.
  exact (proj1 (proj2
    (submit_then_leaderboard (ext := sampleCollaborators) 0
       (rateRequest "player:C" "7" (JNum (ofZ 60))) sampleDb
       (mkAuthUser "C" "player") (ofZ 60)
       (conj eq_refl (fun _ => eq_refl)) eq_refl eq_refl eq_refl))).
Defined.

(** ** White space around a password *)

(** The three shapes of a white-space character in UTF-8. *)
Lemma whiteSpace_utf8 (cp : Z) :
  isWhiteSpaceCodePoint cp = true ->
  (exists a, utf8 cp = String a "" /\ whiteSpace1 a = true)
  \/ (exists a b,
        utf8 cp = String a (String b "")
        /\ whiteSpace1 a = false /\ whiteSpace2 a b = true)
  \/ (exists a b c,
        utf8 cp = String a (String b (String c ""))
        /\ whiteSpace1 a = false /\ whiteSpace2 a b = false
        /\ whiteSpace3 a b c = true).
Proof.
  unfold isWhiteSpaceCodePoint. intros H.
  apply existsb_exists in H. destruct H as (x & Hin & Heq).
  apply Z.eqb_eq in Heq. subst x. unfold whiteSpaceCodePoints in Hin.
  cbn [In] in Hin.
  repeat (destruct Hin as [<-|Hin];
    [first [ left; eexists; split; reflexivity
           | right; left; do 2 eexists; repeat split; reflexivity
           | right; right; do 3 eexists; repeat split; reflexivity ]|]).
  destruct Hin.
Qed.

Lemma trimStart_utf8 (cp : Z) (s : string) :
  isWhiteSpaceCodePoint cp = true -> trimStart (utf8 cp ++ s) = trimStart s.
Proof.
  intros H.
  destruct (whiteSpace_utf8 cp H)
    as [(a & -> & H1)|[(a & b & -> & H1 & H2)|(a & b & c & -> & H1 & H2 & H3)]];
    cbn [append trimStart]; now rewrite ?H1, ?H2, ?H3.
Qed.

Lemma trimStart_run (cps : list Z) (s : string) :
  allWhiteSpaceCodePoints cps = true ->
  trimStart (utf8s cps ++ s) = trimStart s.
Proof.
  unfold allWhiteSpaceCodePoints.
  induction cps as [|cp r IH]; cbn [forallb utf8s]; intros H;
    [reflexivity|].
  apply andb_true_iff in H. destruct H as [Hcp Hr].
  rewrite append_assoc, (trimStart_utf8 cp _ Hcp). now apply IH.
Qed.

Lemma trimStart_run_nil (cps : list Z) :
  allWhiteSpaceCodePoints cps = true -> trimStart (utf8s cps) = "".
Proof.
  intros H. rewrite <- (append_nil_r (utf8s cps)).
  now rewrite (trimStart_run cps "" H).
Qed.

(** A white-space character does not start with a continuation byte. *)
Lemma whiteSpace_lead (a : ascii) :
  whiteSpace1 a = true \/ (exists b, whiteSpace2 a b = true)
  \/ (exists b c, whiteSpace3 a b c = true) ->
  isContinuation a = false.
Proof.
  unfold whiteSpace1, whiteSpace2, whiteSpace3, isContinuation.
  intros [H|[(b & H)|(b & c & H)]];
    repeat (apply andb_true_iff in H; destruct H as [H ?]);
    apply andb_false_iff;
    repeat match goal with
           | K : (_ <=? _) = true |- _ => apply Z.leb_le in K
           | K : (_ <? _) = true |- _ => apply Z.ltb_lt in K
           end;
    rewrite Z.leb_gt, Z.leb_gt; lia.
Qed.

Lemma run_head (cps : list Z) :
  allWhiteSpaceCodePoints cps = true ->
  utf8s cps = ""
  \/ exists p r, utf8s cps = String p r /\ isContinuation p = false.
Proof.
  unfold allWhiteSpaceCodePoints.
  destruct cps as [|cp cps]; cbn [forallb utf8s]; intros H;
    [now left|].
  apply andb_true_iff in H. destruct H as [Hcp _]. right.
  destruct (whiteSpace_utf8 cp Hcp)
    as [(a & -> & H1)|[(a & b & -> & H1 & H2)|(a & b & c & -> & H1 & H2 & H3)]];
    cbn [append]; do 2 eexists; (split; [reflexivity|]);
    apply whiteSpace_lead; eauto.
Qed.

Lemma whiteSpace2_continuation (c d : ascii) :
  isContinuation d = false -> whiteSpace2 c d = false.
Proof.
  intros H. unfold whiteSpace2. rewrite H.
  now rewrite andb_false_r.
Qed.

Lemma whiteSpace3_continuation (c d e : ascii) :
  isContinuation d = false \/ isContinuation e = false ->
  whiteSpace3 c d e = false.
Proof.
  intros [H|H]; unfold whiteSpace3; rewrite H;
    now rewrite ?andb_false_r.
Qed.

(** White space after a string: what [trimStart] leaves of the string keeps
    it. *)
Lemma trimStart_trailing (cps : list Z) (s : string) :
  allWhiteSpaceCodePoints cps = true ->
  trimStart (s ++ utf8s cps)
  = match trimStart s with
    | EmptyString => ""
    | t => t ++ utf8s cps
    end.
Proof.
  intros H. pose proof (trimStart_run_nil cps H) as Hnil.
  pose proof (run_head cps H) as Hhead.
  set (P := utf8s cps) in *. clearbody P. clear H cps.
  functional induction (trimStart s); cbn [append trimStart];
    repeat match goal with
           | K : whiteSpace1 _ = _ |- _ => rewrite K; clear K
           | K : whiteSpace2 _ _ = _ |- _ => rewrite K; clear K
           | K : whiteSpace3 _ _ _ = _ |- _ => rewrite K; clear K
           end;
    try assumption; try reflexivity.
  - destruct Hhead as [->|(p & r & -> & Hp)]; [reflexivity|].
    rewrite (whiteSpace2_continuation c p Hp).
    destruct r as [|q r]; [reflexivity|].
    now rewrite (whiteSpace3_continuation c p q (or_introl Hp)).
  - destruct Hhead as [->|(p & r & -> & Hp)]; [reflexivity|].
    now rewrite (whiteSpace3_continuation c d p (or_intror Hp)).
Qed.

Lemma trimEnd_trailing (cps : list Z) (s : string) :
  allWhiteSpaceCodePoints cps = true ->
  trimEnd (s ++ utf8s cps) = trimEnd s.
Proof.
  intros H. induction s as [|c r IH].
  - cbn [append trimEnd].
    destruct (utf8s cps) as [|p q] eqn:E; [reflexivity|].
    cbn [trimEnd]. rewrite <- E, (trimStart_run_nil cps H). reflexivity.
  - change (String c r ++ utf8s cps)
      with (String c (r ++ utf8s cps)).
    cbn [trimEnd].
    change (String c (r ++ utf8s cps))
      with (String c r ++ utf8s cps).
    rewrite (trimStart_trailing cps (String c r) H), IH.
    destruct (trimStart (String c r)); reflexivity.
Qed.

Lemma trim_padding (pre post : list Z) (s : string) :
  allWhiteSpaceCodePoints pre = true ->
  allWhiteSpaceCodePoints post = true ->
  trim (utf8s pre ++ s ++ utf8s post) = trim s.
Proof.
  intros Hpre Hpost. unfold trim.
  rewrite (trimStart_run pre _ Hpre), (trimStart_trailing post s Hpost).
  destruct (trimStart s) as [|c t] eqn:E; [reflexivity|].
  apply (trimEnd_trailing post _ Hpost).
Qed.

(** ** The trim of code points *)

Lemma code_byte (n : Z) : 0 <= n < 256 -> code (byte n) = n.
Proof.
  intros H. unfold code, byte.
  rewrite nat_ascii_embedding by lia. lia.
Qed.

(** A character that is not white space stays where it is. *)
Lemma trimStart_other (cp : Z) (s : string) :
  isCodePoint cp = true -> isWhiteSpaceCodePoint cp = false ->
  trimStart (utf8 cp ++ s) = utf8 cp ++ s.
Proof.
  unfold isCodePoint. intros Hcp Hws.
  apply andb_true_iff in Hcp. destruct Hcp as [H0 H1].
  apply Z.leb_le in H0. apply Z.ltb_lt in H1.
  unfold utf8.
  destruct (Z.ltb_spec cp 0x80) as [L1|L1];
    [|destruct (Z.ltb_spec cp 0x800) as [L2|L2];
      [|destruct (Z.ltb_spec cp 0x10000) as [L3|L3]]];
    cbn [append trimStart].
  - assert (W1 : whiteSpace1 (byte cp) = false).
    { unfold whiteSpace1. rewrite code_byte by lia. rewrite Hws.
      apply andb_false_r. }
    rewrite W1. destruct s as [|d r]; [reflexivity|].
    assert (W2 : whiteSpace2 (byte cp) d = false).
    { unfold whiteSpace2. rewrite code_byte by lia.
      replace (0xC2 <=? cp) with false by (symmetry; apply Z.leb_gt; lia).
      reflexivity. }
    rewrite W2. destruct r as [|e r]; [reflexivity|].
    assert (W3 : whiteSpace3 (byte cp) d e = false).
    { unfold whiteSpace3. rewrite code_byte by lia.
      replace (0xE0 <=? cp) with false by (symmetry; apply Z.leb_gt; lia).
      reflexivity. }
    now rewrite W3.
  - assert (B1 : 0xC2 <= 0xC0 + cp / 64 <= 0xDF)
      by (Z.div_mod_to_equations; lia).
    assert (B2 : 0x80 <= 0x80 + cp mod 64 <= 0xBF)
      by (Z.div_mod_to_equations; lia).
    assert (W1 : whiteSpace1 (byte (0xC0 + cp / 64)) = false).
    { unfold whiteSpace1. rewrite code_byte by lia.
      replace (0xC0 + cp / 64 <? 0x80) with false
        by (symmetry; apply Z.ltb_ge; lia).
      reflexivity. }
    assert (W2 : whiteSpace2 (byte (0xC0 + cp / 64))
                   (byte (0x80 + cp mod 64)) = false).
    { unfold whiteSpace2. rewrite !code_byte by lia.
      replace ((0xC0 + cp / 64 - 0xC0) * 64 + (0x80 + cp mod 64 - 0x80))
        with cp by (Z.div_mod_to_equations; lia).
      rewrite Hws. apply andb_false_r. }
    rewrite W1, W2. destruct s as [|e r]; [reflexivity|].
    assert (W3 : whiteSpace3 (byte (0xC0 + cp / 64))
                   (byte (0x80 + cp mod 64)) e = false).
    { unfold whiteSpace3. rewrite !code_byte by lia.
      replace (0xE0 <=? 0xC0 + cp / 64) with false
        by (symmetry; apply Z.leb_gt; lia).
      reflexivity. }
    now rewrite W3.
  - assert (B1 : 0xE0 <= 0xE0 + cp / 4096 <= 0xEF)
      by (Z.div_mod_to_equations; lia).
    assert (B2 : 0x80 <= 0x80 + (cp / 64) mod 64 <= 0xBF)
      by (Z.div_mod_to_equations; lia).
    assert (B3 : 0x80 <= 0x80 + cp mod 64 <= 0xBF)
      by (Z.div_mod_to_equations; lia).
    assert (W1 : whiteSpace1 (byte (0xE0 + cp / 4096)) = false).
    { unfold whiteSpace1. rewrite code_byte by lia.
      replace (0xE0 + cp / 4096 <? 0x80) with false
        by (symmetry; apply Z.ltb_ge; lia).
      reflexivity. }
    assert (W2 : whiteSpace2 (byte (0xE0 + cp / 4096))
                   (byte (0x80 + (cp / 64) mod 64)) = false).
    { unfold whiteSpace2. rewrite !code_byte by lia.
      replace (0xE0 + cp / 4096 <=? 0xDF) with false
        by (symmetry; apply Z.leb_gt; lia).
      now rewrite andb_false_r. }
    assert (W3 : whiteSpace3 (byte (0xE0 + cp / 4096))
                   (byte (0x80 + (cp / 64) mod 64))
                   (byte (0x80 + cp mod 64)) = false).
    { unfold whiteSpace3. rewrite !code_byte by lia.
      replace ((0xE0 + cp / 4096 - 0xE0) * 4096
               + (0x80 + (cp / 64) mod 64 - 0x80) * 64
               + (0x80 + cp mod 64 - 0x80))
        with cp by (Z.div_mod_to_equations; lia).
      rewrite Hws. apply andb_false_r. }
    now rewrite W1, W2, W3.
  - assert (B1 : 0xF0 <= 0xF0 + cp / 262144 <= 0xF4)
      by (Z.div_mod_to_equations; lia).
    assert (W1 : whiteSpace1 (byte (0xF0 + cp / 262144)) = false).
    { unfold whiteSpace1. rewrite code_byte by lia.
      replace (0xF0 + cp / 262144 <? 0x80) with false
        by (symmetry; apply Z.ltb_ge; lia).
      reflexivity. }
    assert (W2 : forall d, whiteSpace2 (byte (0xF0 + cp / 262144)) d = false).
    { intros d. unfold whiteSpace2. rewrite !code_byte by lia.
      replace (0xF0 + cp / 262144 <=? 0xDF) with false
        by (symmetry; apply Z.leb_gt; lia).
      now rewrite andb_false_r. }
    assert (W3 : forall d e,
               whiteSpace3 (byte (0xF0 + cp / 262144)) d e = false).
    { intros d e. unfold whiteSpace3. rewrite !code_byte by lia.
      replace (0xF0 + cp / 262144 <=? 0xEF) with false
        by (symmetry; apply Z.leb_gt; lia).
      now rewrite andb_false_r. }
    now rewrite W1, W2, W3.
Qed.

Lemma trimStart_continuation (b : ascii) (s : string) :
  isContinuation b = true -> trimStart (String b s) = String b s.
Proof.
  unfold isContinuation. intros H. apply andb_true_iff in H.
  destruct H as [H1 H2]. apply Z.leb_le in H1, H2.
  cbn [trimStart].
  assert (W1 : whiteSpace1 b = false).
  { unfold whiteSpace1.
    replace (code b <? 0x80) with false by (symmetry; apply Z.ltb_ge; lia).
    reflexivity. }
  rewrite W1. destruct s as [|d r]; [reflexivity|].
  assert (W2 : whiteSpace2 b d = false).
  { unfold whiteSpace2.
    replace (0xC2 <=? code b) with false by (symmetry; apply Z.leb_gt; lia).
    reflexivity. }
  rewrite W2. destruct r as [|e r]; [reflexivity|].
  assert (W3 : whiteSpace3 b d e = false).
  { unfold whiteSpace3.
    replace (0xE0 <=? code b) with false by (symmetry; apply Z.leb_gt; lia).
    reflexivity. }
  now rewrite W3.
Qed.

Lemma trimEnd_continuation (b : ascii) (s : string) :
  isContinuation b = true -> trimEnd (String b s) = String b (trimEnd s).
Proof.
  intros H. cbn [trimEnd]. now rewrite (trimStart_continuation b s H).
Qed.

Lemma continuation_byte (n : Z) :
  0 <= n < 64 -> isContinuation (byte (0x80 + n)) = true.
Proof.
  intros H. unfold isContinuation. rewrite code_byte by lia.
  apply andb_true_iff. split; apply Z.leb_le; lia.
Qed.

(** A character is a first byte and bytes that [trimEnd] steps over. *)
Lemma utf8_shape (cp : Z) :
  exists a t,
    utf8 cp = String a t
    /\ forall s, trimEnd (t ++ s) = t ++ trimEnd s.
Proof.
  unfold utf8.
  destruct (cp <? 0x80); [|destruct (cp <? 0x800);
                            [|destruct (cp <? 0x10000)]];
    do 2 eexists; (split; [reflexivity|]); intros s; cbn [append];
    rewrite ?trimEnd_continuation; try reflexivity;
    apply continuation_byte; apply Z.mod_pos_bound; lia.
Qed.

Lemma utf8s_nil (cps : list Z) : utf8s cps = "" -> cps = [].
Proof.
  destruct cps as [|cp r]; [reflexivity|]. cbn [utf8s].
  destruct (utf8_shape cp) as (a & t & -> & _). discriminate.
Qed.

Lemma trimStart_utf8s (cps : list Z) :
  forallb isCodePoint cps = true ->
  trimStart (utf8s cps) = utf8s (dropWhiteSpace cps).
Proof.
  induction cps as [|cp r IH]; cbn [forallb utf8s dropWhiteSpace];
    intros H; [reflexivity|].
  apply andb_true_iff in H. destruct H as [Hcp Hr].
  destruct (isWhiteSpaceCodePoint cp) eqn:W.
  - rewrite (trimStart_utf8 cp _ W). now apply IH.
  - now apply trimStart_other.
Qed.

Lemma dropWhiteSpace_nil (cps : list Z) :
  dropWhiteSpace cps = [] <-> allWhiteSpaceCodePoints cps = true.
Proof.
  unfold allWhiteSpaceCodePoints.
  induction cps as [|cp r IH]; cbn [dropWhiteSpace forallb]; [tauto|].
  destruct (isWhiteSpaceCodePoint cp); cbn [andb]; [exact IH|].
  split; discriminate.
Qed.

Lemma trimStart_utf8s_empty (cps : list Z) :
  forallb isCodePoint cps = true ->
  String.eqb (trimStart (utf8s cps)) "" = allWhiteSpaceCodePoints cps.
Proof.
  intros H. rewrite (trimStart_utf8s cps H).
  destruct (allWhiteSpaceCodePoints cps) eqn:E.
  - apply dropWhiteSpace_nil in E. now rewrite E.
  - apply String.eqb_neq. intros K. apply utf8s_nil in K.
    apply dropWhiteSpace_nil in K. congruence.
Qed.

Lemma trimEnd_utf8s (cps : list Z) :
  forallb isCodePoint cps = true ->
  trimEnd (utf8s cps) = utf8s (dropTrailingWhiteSpace cps).
Proof.
  induction cps as [|cp r IH]; intros H; [reflexivity|].
  pose proof (trimStart_utf8s_empty (cp :: r) H) as E.
  cbn [forallb] in H. apply andb_true_iff in H. destruct H as [Hcp Hr].
  cbn [utf8s dropTrailingWhiteSpace] in *.
  destruct (utf8_shape cp) as (a & t & K & Ht). rewrite K in *.
  cbn [append trimEnd] in *. rewrite E.
  destruct (allWhiteSpaceCodePoints (cp :: r)); [reflexivity|].
  cbn [utf8s]. rewrite K, Ht, (IH Hr). reflexivity.
Qed.

Lemma dropWhiteSpace_valid (cps : list Z) :
  forallb isCodePoint cps = true ->
  forallb isCodePoint (dropWhiteSpace cps) = true.
Proof.
  induction cps as [|cp r IH]; cbn [forallb dropWhiteSpace]; intros H;
    [reflexivity|].
  destruct (isWhiteSpaceCodePoint cp); [|exact H].
  apply andb_true_iff in H. now apply IH.
Qed.

(** [trim] is the trim of the code points. *)
Lemma trim_utf8s (cps : list Z) :
  forallb isCodePoint cps = true ->
  trim (utf8s cps) = utf8s (trimCodePoints cps).
Proof.
  intros H. unfold trim, trimCodePoints.
  rewrite (trimStart_utf8s cps H).
  apply trimEnd_utf8s. now apply dropWhiteSpace_valid.
Qed.

(** X14. White space around a password does not count, whatever white
    space of Unicode it is: a password and the same password between runs
    of white-space characters have the same hash, so they register the same
    credential and log the same users in. What is hashed of a string of
    code points is the string of its code points without the white space
    at its start and at its end; a character that is not white space is
    hashed whole, whatever its bytes. *)
Theorem hmacKeyHash_ignores_padding {ext : Collaborators}
  (pre post cps : list Z) (password : string) :
  allWhiteSpaceCodePoints pre = true ->
  allWhiteSpaceCodePoints post = true ->
  forallb isCodePoint cps = true ->
  hmacKeyHash (utf8s pre ++ password ++ utf8s post) = hmacKeyHash password
  /\ (forall admin u,
        holdsPassword admin (utf8s pre ++ password ++ utf8s post) u
        = holdsPassword admin password u)
  /\ trim (utf8s cps) = utf8s (trimCodePoints cps)
  /\ hmacKeyHash (utf8s cps)
     = hmacSha256Hex
         (if present JWT_SECRET then orEmpty JWT_SECRET else "change-me")
         (utf8s (trimCodePoints cps)).
Proof.
  intros Hpre Hpost Hcps.
  assert (E : hmacKeyHash (utf8s pre ++ password ++ utf8s post)
              = hmacKeyHash password)
    by (unfold hmacKeyHash; now rewrite trim_padding).
  split; [exact E|].
  split; [intros admin u; unfold holdsPassword; now rewrite E|].
  split; [now apply trim_utf8s|].
  unfold hmacKeyHash. now rewrite trim_utf8s.
Qed.

(** The witness of X14: the password [МИР], whose last byte is A0, after
    an ideographic space and before a no-break space and a line feed. *)
Lemma hmacKeyHash_ignores_padding_witness :
  hmacKeyHash (ext := sampleCollaborators)
    (utf8s [0x3000] ++ "МИР" ++ utf8s [0xA0; 0x0A])
  = hmacKeyHash (ext := sampleCollaborators) "МИР"
  /\ hmacKeyHash (ext := sampleCollaborators) (utf8s [0x41C; 0x418; 0x420])
     = "secret/МИР".
Proof.
  destruct (hmacKeyHash_ignores_padding (ext := sampleCollaborators)
              [0x3000] [0xA0; 0x0A] [0x41C; 0x418; 0x420] "МИР"
              eq_refl eq_refl eq_refl) as (H1 & _ & _ & H2).
  split; [exact H1 | exact H2].
Defined.

(** ** The bearer token of a header *)

(** X15. The header the middleware reads. A token that is not empty, does
    not start with white space and holds no line break is read back from
    any header made of the scheme [Bearer] in any case, a run of white
    space and the token. Conversely a header without the scheme gives no
    token, and a token that is read is never empty and never holds a line
    break. *)
Theorem bearerToken_reads_token (scheme ws token : string) :
  toLowerCase scheme = "bearer" ->
  ws <> "" -> allWhiteSpace ws = true ->
  token <> "" -> startsClean token = true ->
  hasLineTerminator token = false ->
  bearerToken (scheme ++ ws ++ token) = Some token
  /\ (forall header,
        prefix "bearer" (toLowerCase header) = false ->
        bearerToken header = None)
  /\ (forall header t,
        bearerToken header = Some t ->
        t <> "" /\ hasLineTerminator t = false
        /\ prefix "bearer" (toLowerCase header) = true).
Proof.
  intros Hscheme Hws Hall Htok Hclean Hline. split; [|split].
  - now apply bearerToken_reads.
  - intros header H. unfold bearerToken. now rewrite H.
  - intros header t. unfold bearerToken.
    destruct (prefix "bearer" (toLowerCase header)); [|discriminate].
    destruct (substring 6 (String.length header - 6) header) as [|c r1];
      [discriminate|].
    destruct (isWhiteSpace c); [|discriminate].
    destruct (skipWhiteSpace (String c r1)) as [|t0 t1] eqn:E.
    + destruct r1 as [|c1 r2]; [discriminate|].
      set (l := substring _ 1 _).
      destruct (hasLineTerminator l) eqn:L; [discriminate|].
      intros [= <-]. split; [|now split].
      intros K. subst l.
      assert (N : forall s, s <> "" ->
                    substring (String.length s - 1) 1 s <> "").
      { clear. induction s as [|a s IH]; [congruence|]. intros _.
        destruct s as [|b s]; [cbn; congruence|].
        replace (String.length (String a (String b s)) - 1)%nat
          with (S (String.length (String b s) - 1))
          by (cbn [String.length]; lia).
        cbn [substring]. apply IH. congruence. }
      apply (N (String c (String c1 r2))); [congruence | exact K].
    + destruct (hasLineTerminator (String t0 t1)) eqn:L; [discriminate|].
      intros [= <-]. split; [congruence | now split].
Qed.

(** The witness of X15: the header [bearer] with two spaces and the token
    [player:A]. *)
Lemma bearerToken_reads_token_witness :
  bearerToken "bEaReR  player:A" = Some "player:A".
Proof.
  exact (proj1 (bearerToken_reads_token "bEaReR" "  " "player:A" eq_refl
                  ltac:(discriminate) eq_refl ltac:(discriminate) eq_refl
                  eq_refl)).
Defined.

(** ** The calendar *)

Lemma isLeapYear_iff (y : Z) :
  isLeapYear y = true
  <-> (y mod 4 = 0 /\ y mod 100 <> 0) \/ y mod 400 = 0.
Proof.
  unfold isLeapYear.
  rewrite orb_true_iff, andb_true_iff, negb_true_iff, !Z.eqb_eq, Z.eqb_neq.
  tauto.
Qed.

(** The year of the era from the day of the era. *)
Lemma yearOfEra (yoe doy : Z) :
  0 <= yoe <= 399 -> 0 <= doy <= 365 ->
  (doy = 365 ->
   ((yoe + 1) mod 4 = 0 /\ (yoe + 1) mod 100 <> 0) \/ yoe = 399) ->
  let doe := 365 * yoe + yoe / 4 - yoe / 100 + doy in
  (doe - doe / 1460 + doe / 36524 - doe / 146096) / 365 = yoe.
Proof.
  intros Hy Hd Hl doe. subst doe. Z.div_mod_to_equations. lia.
Qed.

(** Evaluates the comparisons of numerals. *)
Ltac eval_tests :=
  repeat match goal with
         | |- context [Z.ltb ?a ?b] =>
             let v := eval vm_compute in (Z.ltb a b) in
             match v with true => idtac | false => idtac end;
             change (Z.ltb a b) with v
         | |- context [Z.leb ?a ?b] =>
             let v := eval vm_compute in (Z.leb a b) in
             match v with true => idtac | false => idtac end;
             change (Z.leb a b) with v
         | |- context [Z.eqb ?a ?b] =>
             let v := eval vm_compute in (Z.eqb a b) in
             match v with true => idtac | false => idtac end;
             change (Z.eqb a b) with v
         | H : context [Z.eqb ?a ?b] |- _ =>
             let v := eval vm_compute in (Z.eqb a b) in
             match v with true => idtac | false => idtac end;
             change (Z.eqb a b) with v in H
         end;
  cbn [orb andb negb] in *.

(** The day of the year, counted from 1 March, of a day of the calendar. *)
Lemma dayOfYear_bounds (y m d : Z) :
  1 <= m <= 12 -> 1 <= d <= daysInMonth y m ->
  let mp := if 2 <? m then m - 3 else m + 9 in
  let doy := (153 * mp + 2) / 5 + d - 1 in
  0 <= mp <= 11
  /\ 0 <= doy <= 365
  /\ (doy = 365 -> m = 2 /\ isLeapYear y = true)
  /\ (5 * doy + 2) / 153 = mp
  /\ doy - (153 * mp + 2) / 5 + 1 = d
  /\ (if mp <? 10 then mp + 3 else mp - 9) = m.
Proof.
  intros Hm Hd.
  assert (M : m = 1 \/ m = 2 \/ m = 3 \/ m = 4 \/ m = 5 \/ m = 6 \/ m = 7
              \/ m = 8 \/ m = 9 \/ m = 10 \/ m = 11 \/ m = 12) by lia.
  unfold daysInMonth in Hd.
  repeat (destruct M as [-> | M]); try subst m; eval_tests; eval_tests;
    try (destruct (isLeapYear y));
    (repeat split; try reflexivity; try congruence;
     try (Z.div_mod_to_equations; lia)).
Qed.

Lemma civilFromDays_daysFromCivil (y m d : Z) :
  1 <= m <= 12 -> 1 <= d <= daysInMonth y m ->
  civilFromDays (daysFromCivil y m d) = (y, m, d).
Proof.
  intros Hm Hd.
  destruct (dayOfYear_bounds y m d Hm Hd)
    as (Hmp & Hdoy & Hleap & Hmp' & Hd' & Hm').
  unfold civilFromDays, daysFromCivil.
  set (mp := if 2 <? m then m - 3 else m + 9) in *.
  set (doy := (153 * mp + 2) / 5 + d - 1) in *.
  set (y' := if m <=? 2 then y - 1 else y).
  assert (Hy' : y = y' + (if m <=? 2 then 1 else 0))
    by (unfold y'; destruct (m <=? 2); lia).
  assert (Hyoe : 0 <= y' mod 400 <= 399)
    by (pose proof (Z.mod_pos_bound y' 400); lia).
  set (yoe := y' mod 400) in *.
  set (era := y' / 400).
  assert (Hera : y' = era * 400 + yoe)
    by (unfold era, yoe; pose proof (Z.div_mod y' 400); lia).
  assert (Hl : doy = 365 ->
               ((yoe + 1) mod 4 = 0 /\ (yoe + 1) mod 100 <> 0) \/ yoe = 399).
  { intros E. destruct (Hleap E) as [Hm2 L]. apply isLeapYear_iff in L.
    assert (Hy2 : y = era * 400 + yoe + 1)
      by (rewrite Hy', Hm2; change (2 <=? 2) with true; cbv iota; lia).
    clearbody era yoe. clear - L Hy2 Hyoe. subst y.
    Z.div_mod_to_equations. lia. }
  pose proof (yearOfEra yoe doy Hyoe Hdoy Hl) as Hcrux. cbn zeta in Hcrux.
  set (doe := yoe * 365 + yoe / 4 - yoe / 100 + doy).
  replace (365 * yoe + yoe / 4 - yoe / 100 + doy) with doe in Hcrux
    by (unfold doe; lia).
  assert (Hdoe : 0 <= doe <= 146096).
  { unfold doe. clear - Hyoe Hdoy Hl. Z.div_mod_to_equations. lia. }
  replace (era * 146097 + doe - 719468 + 719468) with (doe + era * 146097)
    by lia.
  rewrite Z.div_add, Z_mod_plus_full by lia.
  rewrite (Z.div_small doe 146097), (Z.mod_small doe 146097) by lia.
  cbn [Z.add]. rewrite Hcrux.
  replace (doe - (365 * yoe + yoe / 4 - yoe / 100)) with doy
    by (unfold doe; lia).
  rewrite Hmp', Hd', Hm'. f_equal. f_equal. lia.
Qed.

(** ** Digits *)

Lemma digitValue_digitChar (k : Z) :
  0 <= k <= 9 -> digitValue 10 (digitChar k) = Some k.
Proof.
  intros H.
  assert (K : k = 0 \/ k = 1 \/ k = 2 \/ k = 3 \/ k = 4 \/ k = 5 \/ k = 6
              \/ k = 7 \/ k = 8 \/ k = 9) by lia.
  repeat (destruct K as [-> | K]; [reflexivity|]). now rewrite K.
Qed.

(** Reading back the [w] digits of [n]. *)
Lemma readDigits_pad (w : nat) : forall (k : nat) (n : Z) (s : string) acc,
  0 <= n < 10 ^ Z.of_nat w ->
  readDigits (w + k) (pad w n ++ s) acc
  = readDigits k s (acc * 10 ^ Z.of_nat w + n).
Proof.
  induction w as [|w IH]; intros k n s acc Hn.
  - cbn [pad append Nat.add]. f_equal. cbn in Hn. lia.
  - cbn [pad]. rewrite append_assoc. cbn [append].
    replace (S w + k)%nat with (w + S k)%nat by lia.
    rewrite Nat2Z.inj_succ, Z.pow_succ_r in Hn by lia.
    rewrite IH by (Z.div_mod_to_equations; lia).
    cbn [readDigits].
    rewrite digitValue_digitChar by (Z.div_mod_to_equations; lia).
    f_equal. rewrite Nat2Z.inj_succ, Z.pow_succ_r by lia.
    Z.div_mod_to_equations. lia.
Qed.

Lemma readDigits_pad_exact (w : nat) (n : Z) (s : string) :
  0 <= n < 10 ^ Z.of_nat w ->
  readDigits w (pad w n ++ s) 0 = Some (n, s).
Proof.
  intros Hn. replace w with (w + 0)%nat at 1 by lia.
  rewrite readDigits_pad by exact Hn. reflexivity.
Qed.

Lemma pad_length (w : nat) : forall n, String.length (pad w n) = w.
Proof.
  induction w as [|w IH]; intros n; cbn [pad]; [reflexivity|].
  assert (L : forall a b, String.length (a ++ b)
                          = (String.length a + String.length b)%nat).
  { induction a as [|c a IHa]; intros b; cbn; [reflexivity|].
    now rewrite IHa. }
  rewrite L, IH. cbn. lia.
Qed.

Lemma append_length (a b : string) :
  String.length (a ++ b) = (String.length a + String.length b)%nat.
Proof.
  induction a as [|c a IH]; cbn; [reflexivity | now rewrite IH].
Qed.

(** A string is not itself behind a prefix that is not empty. *)
Lemma eqb_longer (a s : string) :
  a <> "" -> String.eqb (a ++ s) s = false.
Proof.
  intros Ha. apply String.eqb_neq. intros E.
  apply (f_equal String.length) in E. rewrite append_length in E.
  destruct a; [congruence | cbn in E; lia].
Qed.

Lemma readYear_digits (c : ascii) (r : string) :
  isDigit c = true -> readYear (String c r) = readDigits 4 (String c r) 0.
Proof.
  destruct c as [[] [] [] [] [] [] [] []]; intros H; try discriminate H;
    reflexivity.
Qed.

(** The standard format reads a day and a minute in digits as that day and
    that minute. *)
Lemma parseISO_canonical (y m d h mi : Z) :
  validDate y m d -> validMinute h mi ->
  parseISO (dateString y m d ++ "T" ++ timeString h mi ++ ":00Z")
  = Some (MakeDate (daysFromCivil y m d) (MakeTime h mi 0 0)).
Proof.
  intros (Hy & Hm & Hd) (Hh & Hmi).
  assert (Hd31 : d <= 31).
  { unfold daysInMonth in Hd.
    destruct (m =? 2); [destruct (isLeapYear y); lia|].
    destruct (_ || _); lia. }
  unfold dateString, timeString, parseISO.
  rewrite !append_assoc.
  assert (Hfirst : exists c r, pad 4 y = String c r /\ isDigit c = true).
  { cbn [pad append]. eexists _, _. split; [reflexivity|].
    apply isDigit_digitChar. }
  destruct Hfirst as (c & r & Hpad & Hc).
  assert (Hyear : forall s, readYear (pad 4 y ++ s) = Some (y, s)).
  { intros s. rewrite <- (readDigits_pad_exact 4 y s) by (cbn; lia).
    rewrite Hpad. cbn [append]. now apply readYear_digits. }
  rewrite Hyear. cbn [append readField]. cbn [Ascii.eqb Bool.eqb].
  rewrite (readDigits_pad_exact 2 m) by (cbn; lia).
  change (String "-" (pad 2 m ++ String "-"
            (pad 2 d ++ String "T" (pad 2 h ++ String ":"
               (pad 2 mi ++ ":00Z")))))
    with (("-" ++ pad 2 m)
          ++ String "-" (pad 2 d ++ String "T" (pad 2 h ++ String ":"
               (pad 2 mi ++ ":00Z")))).
  rewrite eqb_longer by discriminate.
  cbn [readField Ascii.eqb Bool.eqb].
  rewrite (readDigits_pad_exact 2 d) by (cbn; lia).
  replace ((1 <=? m) && (m <=? 12) && (1 <=? d) && (d <=? daysInMonth y m))
    with true
    by (symmetry; rewrite !andb_true_iff, !Z.leb_le; lia).
  unfold readTimeZ.
  rewrite (readDigits_pad_exact 2 h) by (cbn; lia).
  rewrite (readDigits_pad_exact 2 mi) by (cbn; lia).
  change (readField ":"%char 2 0 ":00Z") with (Some (0, "Z")).
  cbv iota beta.
  change (String.eqb ":00Z" "Z") with false. cbv iota.
  change (readField "."%char 3 0 "Z") with (Some (0, "Z")).
  cbv iota beta.
  replace ((h <=? 23) && (mi <=? 59) && (0 <=? 59)) with true
    by (symmetry; rewrite !andb_true_iff, !Z.leb_le; lia).
  reflexivity.
Qed.

Lemma daysFromCivil_bounds (y m d : Z) :
  0 <= y <= 9999 -> 1 <= m <= 12 -> 1 <= d <= daysInMonth y m ->
  - 800000 <= daysFromCivil y m d <= 3000000.
Proof.
  intros Hy Hm Hd.
  destruct (dayOfYear_bounds y m d Hm Hd) as (_ & Hdoy & _).
  unfold daysFromCivil.
  set (doy := (153 * (if 2 <? m then m - 3 else m + 9) + 2) / 5 + d - 1)
    in *.
  clearbody doy.
  assert (Hy' : -1 <= (if m <=? 2 then y - 1 else y) <= 9999)
    by (destruct (m <=? 2); lia).
  set (y' := if m <=? 2 then y - 1 else y) in *. clearbody y'.
  clear - Hdoy Hy'. Z.div_mod_to_equations. lia.
Qed.

(** The instant of a day and a minute, taken apart again. *)
Lemma instant_components (days h mi : Z) :
  validMinute h mi ->
  let t := MakeDate days (MakeTime h mi 0 0) in
  Day t = days /\ HourFromTime t = h /\ MinFromTime t = mi
  /\ SecFromTime t = 0 /\ msFromTime t = 0.
Proof.
  intros (Hh & Hmi) t. subst t.
  unfold Day, HourFromTime, MinFromTime, SecFromTime, msFromTime,
    TimeWithinDay, MakeDate, MakeTime, msPerDay.
  repeat split; Z.div_mod_to_equations; lia.
Qed.

(** X16. A day and a minute in digits go through the create route and the
    list route unchanged. For a day of the calendar in a four-digit year
    and a minute of the day, written [YYYY-MM-DD] and [HH:MM], the string
    the create route builds parses to the instant of that minute in UTC,
    [toISOString] prints that instant with the same digits, and the view
    the list route gives of the stored session carries the date and the
    time of the request, as the 201 answer does. *)
Theorem canonical_session_round_trip {ext : Collaborators}
  (now : Z) (req : Request) (db : Db) (user : AuthUser) (y m d h mi : Z) :
  validDate y m d -> validMinute h mi ->
  admitted (Some "admin") now req user ->
  ReqBody.startDate (body req) = Some (dateString y m d) ->
  ReqBody.startTime (body req) = Some (timeString h mi) ->
  let ts := MakeDate (daysFromCivil y m d) (MakeTime h mi 0 0) in
  Date_parse (startString req) = Some ts
  /\ toISOString ts
     = Some (dateString y m d ++ "T" ++ timeString h mi ++ ":00.000Z")
  /\ exists view db',
       createSession now req db = (mkResponse 201 (OneSession view), db')
       /\ SessionView.startDate view = dateString y m d
       /\ SessionView.startTime view = timeString h mi
       /\ sessions db' = (sessions db ++ [createdSession now req db ts])%list
       /\ sessionView (createdSession now req db ts) = Some view.
Proof.
  intros Hdate Hminute Hadm Hsd Hst ts.
  pose proof Hdate as (Hy & Hm & Hd).
  pose proof (daysFromCivil_bounds y m d Hy Hm Hd) as Hdays.
  destruct (instant_components (daysFromCivil y m d) h mi Hminute)
    as (HDay & HH & HM & HS & Hms).
  fold ts in HDay, HH, HM, HS, Hms.
  assert (Hvalid : validTime ts = true).
  { unfold validTime, maxTime, ts, MakeDate, MakeTime, msPerDay.
    destruct Hminute as [Hh Hmi].
    apply andb_true_intro. split; apply Z.leb_le; lia. }
  assert (Hparse : Date_parse (startString req) = Some ts).
  { unfold Date_parse, startString. rewrite Hsd, Hst. cbn [orEmpty].
    rewrite (parseISO_canonical y m d h mi Hdate Hminute).
    fold ts. now rewrite Hvalid. }
  assert (Hciv : civilFromDays (Day ts) = (y, m, d))
    by (rewrite HDay; now apply civilFromDays_daysFromCivil).
  assert (Hiso : toISOString ts
                 = Some (dateString y m d ++ "T" ++ timeString h mi
                         ++ ":00.000Z")).
  { unfold toISOString, YearFromTime, MonthFromTime, DateFromTime.
    rewrite Hvalid, Hciv, HH, HM, HS, Hms. cbn [fst snd].
    unfold yearString.
    replace ((0 <=? y) && (y <=? 9999)) with true
      by (symmetry; apply andb_true_intro; split; apply Z.leb_le; lia).
    unfold dateString, timeString. rewrite !append_assoc. reflexivity. }
  split; [exact Hparse|]. split; [exact Hiso|].
  assert (Hpresent : forall w n s, present (Some (pad (S w) n ++ s)) = true).
  { intros w n s. cbn [pad]. rewrite append_assoc.
    destruct (pad w (n / 10)); reflexivity. }
  rewrite (createSession_admitted now req db user Hadm).
  rewrite Hparse, Hsd, Hst.
  unfold dateString at 1, timeString at 1. rewrite !Hpresent.
  cbn [negb orb orEmpty].
  eexists _, _. split; [reflexivity|]. split; [reflexivity|].
  split; [reflexivity|]. split; [reflexivity|].
  unfold sessionView, createdSession. cbn [Session.startAt]. rewrite Hiso.
  unfold dateString, timeString.
  cbn [pad append slice substring Nat.sub Session.id Session.description].
  reflexivity.
Qed.

(** The witness of X16: the admin creates a session on 29 February 2024 at
    23:59. *)
Lemma canonical_session_round_trip_witness :
  exists view db',
    createSession (ext := sampleCollaborators) 0
      (sessionRequest "admin:root" (Some "2024-02-29") (Some "23:59") None)
      emptyDb
    = (mkResponse 201 (OneSession view), db')
    /\ sessionView (createdSession 0
                      (sessionRequest "admin:root" (Some "2024-02-29")
                         (Some "23:59") None) emptyDb
                      (MakeDate (daysFromCivil 2024 2 29)
                         (MakeTime 23 59 0 0)))
       = Some view.
Proof.
  destruct (canonical_session_round_trip (ext := sampleCollaborators) 0
              (sessionRequest "admin:root" (Some "2024-02-29")
                 (Some "23:59") None) emptyDb rootAdmin 2024 2 29 23 59
              ltac:(repeat split; discriminate)
              ltac:(repeat split; discriminate)
              (conj eq_refl (fun _ => eq_refl)) eq_refl eq_refl)
    as (_ & _ & view & db' & H1 & _ & _ & _ & H2).
  exists view, db'. split; [exact H1 | exact H2].
Defined.

(** The date of a day number is a day of the calendar, and its day number
    is that number. *)
Lemma civil_of_day_of_era (doe : Z) :
  0 <= doe <= 146096 ->
  let yoe := (doe - doe / 1460 + doe / 36524 - doe / 146096) / 365 in
  let doy := doe - (365 * yoe + yoe / 4 - yoe / 100) in
  0 <= yoe <= 399 /\ 0 <= doy <= 365
  /\ (doy = 365 ->
      ((yoe + 1) mod 4 = 0 /\ (yoe + 1) mod 100 <> 0) \/ yoe = 399).
Proof.
  intros H yoe doy. subst yoe doy. Z.div_mod_to_equations. lia.
Qed.

Lemma month_of_dayOfYear (doy : Z) :
  0 <= doy <= 365 ->
  let mp := (5 * doy + 2) / 153 in
  let d := doy - (153 * mp + 2) / 5 + 1 in
  let m := if mp <? 10 then mp + 3 else mp - 9 in
  1 <= m <= 12
  /\ (if 2 <? m then m - 3 else m + 9) = mp
  /\ 1 <= d
  /\ (m <> 2 -> d <= daysInMonth 0 m)
  /\ (m = 2 -> d <= 29 /\ (d = 29 -> doy = 365)).
Proof.
  intros H mp d m.
  assert (Hmp : 0 <= mp <= 11) by (unfold mp; Z.div_mod_to_equations; lia).
  assert (M : mp = 0 \/ mp = 1 \/ mp = 2 \/ mp = 3 \/ mp = 4 \/ mp = 5
              \/ mp = 6 \/ mp = 7 \/ mp = 8 \/ mp = 9 \/ mp = 10 \/ mp = 11)
    by lia.
  assert (Hd : d = doy - (153 * mp + 2) / 5 + 1) by reflexivity.
  assert (Hdoy : 153 * mp <= 5 * doy + 2 < 153 * mp + 153)
    by (unfold mp; Z.div_mod_to_equations; lia).
  clearbody d. unfold m. clearbody mp. clear m.
  repeat (destruct M as [-> | M]); try subst mp; eval_tests;
    unfold daysInMonth; eval_tests;
    (repeat split; try reflexivity; intros;
     try (Z.div_mod_to_equations; lia)).
Qed.

Lemma daysInMonth_not_february (y m : Z) :
  m <> 2 -> daysInMonth y m = daysInMonth 0 m.
Proof.
  intros H. unfold daysInMonth. now destruct (Z.eqb_spec m 2).
Qed.

Lemma civilFromDays_valid (z : Z) :
  let '(y, m, d) := civilFromDays z in
  1 <= m <= 12 /\ 1 <= d <= daysInMonth y m /\ daysFromCivil y m d = z.
Proof.
  unfold civilFromDays.
  set (era := (z + 719468) / 146097).
  set (doe := (z + 719468) mod 146097).
  assert (Hz : z + 719468 = era * 146097 + doe)
    by (unfold era, doe; pose proof (Z.div_mod (z + 719468) 146097); lia).
  assert (Hdoe : 0 <= doe <= 146096)
    by (unfold doe; pose proof (Z.mod_pos_bound (z + 719468) 146097); lia).
  clearbody era doe.
  destruct (civil_of_day_of_era doe Hdoe) as (Hyoe & Hdoy & Hleap).
  set (yoe := (doe - doe / 1460 + doe / 36524 - doe / 146096) / 365) in *.
  set (doy := doe - (365 * yoe + yoe / 4 - yoe / 100)) in *.
  assert (Hdoy' : doe = yoe * 365 + yoe / 4 - yoe / 100 + doy)
    by (unfold doy; lia).
  clearbody doy. clearbody yoe.
  destruct (month_of_dayOfYear doy Hdoy) as (Hm & Hmp & Hd1 & Hother & Hfeb).
  set (mp := (5 * doy + 2) / 153) in *.
  set (d := doy - (153 * mp + 2) / 5 + 1) in *.
  set (m := if mp <? 10 then mp + 3 else mp - 9) in *.
  assert (Hdd : doy = (153 * mp + 2) / 5 + d - 1) by (unfold d; lia).
  clearbody d. clearbody m. clearbody mp.
  split; [exact Hm|]. split; [split; [exact Hd1|]|].
  - destruct (Z.eq_dec m 2) as [E|E].
    + destruct (Hfeb E) as [H29 Hlast]. unfold daysInMonth.
      rewrite E. change (2 =? 2) with true. cbv iota.
      change (2 <=? 2) with true. cbv iota.
      destruct (isLeapYear (yoe + era * 400 + 1)) eqn:L; [exact H29|].
      assert (d <> 29); [|lia]. intros K.
      specialize (Hleap (Hlast K)).
      assert (L' : isLeapYear (yoe + era * 400 + 1) = true); [|congruence].
      apply isLeapYear_iff. clear - Hleap Hyoe.
      Z.div_mod_to_equations. lia.
    + rewrite daysInMonth_not_february by exact E. now apply Hother.
  - unfold daysFromCivil. rewrite Hmp, <- Hdd.
    replace (if m <=? 2 then yoe + era * 400 + (if m <=? 2 then 1 else 0) - 1
             else yoe + era * 400 + (if m <=? 2 then 1 else 0))
      with (yoe + era * 400) by (destruct (m <=? 2); lia).
    rewrite Z.div_add, Z_mod_plus_full by lia.
    rewrite (Z.div_small yoe 400), (Z.mod_small yoe 400) by lia.
    cbn [Z.add]. lia.
Qed.

(** X17. What the list route shows of a session parses back to the
    session's minute. For a valid instant within the years 0 to 9999, the
    date and the time the list route shows, put in the string the create
    route builds, parse to that instant with its seconds and milliseconds
    dropped; so a session whose instant is a whole minute is recreated at
    the same instant. *)
Theorem listed_session_parses_back {ext : Collaborators} (t : Z) :
  validTime t = true ->
  0 <= YearFromTime t <= 9999 ->
  exists iso,
    toISOString t = Some iso
    /\ Date_parse (slice 0 10 iso ++ "T" ++ slice 11 16 iso ++ ":00Z")
       = Some (t - t mod 60000)
    /\ (t mod 60000 = 0 ->
        Date_parse (slice 0 10 iso ++ "T" ++ slice 11 16 iso ++ ":00Z")
        = Some t).
Proof.
  intros Hv Hy.
  pose proof (civilFromDays_valid (Day t)) as Hciv.
  unfold YearFromTime in Hy.
  destruct (civilFromDays (Day t)) as [[y m] d] eqn:E.
  cbn [fst] in Hy. destruct Hciv as (Hm & Hd & Hdays).
  assert (Hminute : validMinute (HourFromTime t) (MinFromTime t)).
  { unfold validMinute, HourFromTime, MinFromTime, TimeWithinDay, msPerDay.
    Z.div_mod_to_equations. lia. }
  assert (Hfloor : MakeDate (daysFromCivil y m d)
                     (MakeTime (HourFromTime t) (MinFromTime t) 0 0)
                   = t - t mod 60000).
  { rewrite Hdays.
    unfold MakeDate, MakeTime, Day, HourFromTime, MinFromTime,
      TimeWithinDay, msPerDay.
    Z.div_mod_to_equations. lia. }
  assert (Hv' : validTime (t - t mod 60000) = true).
  { unfold validTime, maxTime in *.
    apply andb_true_iff in Hv. destruct Hv as [H1 H2].
    apply Z.leb_le in H1, H2.
    apply andb_true_intro. split; apply Z.leb_le;
      Z.div_mod_to_equations; lia. }
  assert (Hparse :
    Date_parse (dateString y m d ++ "T"
                ++ timeString (HourFromTime t) (MinFromTime t) ++ ":00Z")
    = Some (t - t mod 60000)).
  { unfold Date_parse.
    rewrite (parseISO_canonical y m d _ _ (conj Hy (conj Hm Hd)) Hminute).
    now rewrite Hfloor, Hv'. }
  unfold toISOString, yearString, YearFromTime, MonthFromTime, DateFromTime.
  rewrite Hv, E. cbn [fst snd].
  replace ((0 <=? y) && (y <=? 9999)) with true
    by (symmetry; apply andb_true_intro; split; apply Z.leb_le; lia).
  eexists. split; [reflexivity|].
  assert (Hslices :
    forall a b c e f g i,
      slice 0 10 (pad 4 a ++ "-" ++ pad 2 b ++ "-" ++ pad 2 c ++ "T"
                  ++ pad 2 e ++ ":" ++ pad 2 f ++ ":" ++ pad 2 g ++ "."
                  ++ pad 3 i ++ "Z") = dateString a b c
      /\ slice 11 16 (pad 4 a ++ "-" ++ pad 2 b ++ "-" ++ pad 2 c ++ "T"
                      ++ pad 2 e ++ ":" ++ pad 2 f ++ ":" ++ pad 2 g ++ "."
                      ++ pad 3 i ++ "Z") = timeString e f).
  { intros. unfold dateString, timeString.
    cbn [pad append slice substring Nat.sub]. now split. }
  destruct (Hslices y m d (HourFromTime t) (MinFromTime t) (SecFromTime t)
              (msFromTime t)) as [-> ->].
  split; [exact Hparse|]. intros H0. rewrite Hparse. f_equal. lia.
Qed.

(** The witness of X17: the instant 2024-01-02T03:04:05.006Z. *)
Lemma listed_session_parses_back_witness :
  exists iso,
    toISOString 1704164645006 = Some iso
    /\ Date_parse (ext := sampleCollaborators)
         (slice 0 10 iso ++ "T" ++ slice 11 16 iso ++ ":00Z")
       = Some 1704164640000.
Proof.
  destruct (listed_session_parses_back (ext := sampleCollaborators)
              1704164645006 eq_refl ltac:(split; discriminate))
    as (iso & H1 & H2 & _).
  exists iso. split; [exact H1 | exact H2].
Defined.

(** ** Integers as doubles *)

Lemma pow2_pos (d : positive) : 2 ^ Z.pos d = 2 * 2 ^ (Z.pos d - 1).
Proof.
  rewrite <- Z.pow_succ_r by lia. f_equal. lia.
Qed.

(** The number of binary digits of a positive integer. *)
Lemma digits2_pos_bounds (p : positive) :
  2 ^ (Z.pos (digits2_pos p) - 1) <= Z.pos p < 2 ^ Z.pos (digits2_pos p).
Proof.
  induction p as [p IH | p IH |]; cbn [digits2_pos];
    [change (Z.pos p~1) with (2 * Z.pos p + 1)
    |change (Z.pos p~0) with (2 * Z.pos p)
    |cbn; lia];
    rewrite Pos2Z.inj_succ;
    replace (Z.succ (Z.pos (digits2_pos p)) - 1)
      with (Z.pos (digits2_pos p)) by lia;
    rewrite Z.pow_succ_r by lia;
    pose proof (pow2_pos (digits2_pos p)) as E;
    revert IH E;
    generalize (2 ^ Z.pos (digits2_pos p)),
               (2 ^ (Z.pos (digits2_pos p) - 1));
    intros; lia.
Qed.

Lemma iter_xO_spec (p d : positive) :
  Z.pos (Pos.iter xO p d) = Z.pos p * 2 ^ Z.pos d
  /\ Z.pos (digits2_pos (Pos.iter xO p d)) = Z.pos (digits2_pos p) + Z.pos d.
Proof.
  induction d as [|d IH] using Pos.peano_ind.
  - cbn [Pos.iter digits2_pos]. rewrite Pos2Z.inj_succ. split; lia.
  - rewrite Pos.iter_succ. cbn [digits2_pos].
    rewrite !Pos2Z.inj_succ, Pos2Z.inj_xO, Z.pow_succ_r by lia.
    destruct IH as [-> ->]. split; lia.
Qed.

(** Rounding a mantissa of 53 bits changes nothing. *)
Lemma binary_round_aux_exact (s : bool) (m : positive) (e : Z) :
  Z.pos (digits2_pos m) = prec -> - 1074 <= e <= 971 ->
  binary_round_aux prec emax s (Z.pos m) e loc_Exact = S754_finite s m e.
Proof.
  intros Hd He.
  unfold binary_round_aux, shr_fexp, fexp, emin, round_nearest_even.
  cbn [Zdigits2 shr_record_of_loc]. rewrite Hd.
  replace (Z.max (prec + e - prec) (3 - emax - prec) - e) with 0
    by (unfold prec, emax; lia).
  cbn [shr shr_m loc_of_shr_record Zdigits2]. rewrite Hd.
  replace (Z.max (prec + e - prec) (3 - emax - prec) - e) with 0
    by (unfold prec, emax; lia).
  cbn [shr shr_m].
  replace (e <=? emax - prec) with true
    by (symmetry; apply Z.leb_le; unfold prec, emax; lia).
  reflexivity.
Qed.

(** An integer below 2^53 is shifted to a mantissa of 53 bits. *)
Lemma binary_round_small (s : bool) (p : positive) :
  Z.pos p < 2 ^ prec ->
  exists m e,
    binary_round prec emax s p 0 = S754_finite s m e
    /\ - 52 <= e <= 0 /\ Z.pos m = Z.pos p * 2 ^ (- e)
    /\ e = Z.pos (digits2_pos p) - prec.
Proof.
  intros Hp.
  pose proof (digits2_pos_bounds p) as [Hlo Hhi].
  assert (Hd : Z.pos (digits2_pos p) <= prec).
  { destruct (Z_le_gt_dec (Z.pos (digits2_pos p)) prec) as [|Hgt]; [easy|].
    exfalso.
    assert (2 ^ prec <= 2 ^ (Z.pos (digits2_pos p) - 1))
      by (apply Z.pow_le_mono_r; unfold prec in *; lia).
    lia. }
  unfold binary_round, fexp, emin, shl_align.
  replace (Z.max (Z.pos (digits2_pos p) + 0 - prec) (3 - emax - prec) - 0)
    with (Z.pos (digits2_pos p) - prec) by (unfold prec, emax in *; lia).
  replace (Z.max (Z.pos (digits2_pos p) + 0 - prec) (3 - emax - prec))
    with (Z.pos (digits2_pos p) - prec) by (unfold prec, emax in *; lia).
  destruct (Z.pos (digits2_pos p) - prec) as [|q|q] eqn:E; [| lia |].
  - exists p, 0. rewrite binary_round_aux_exact by (unfold prec in *; lia).
    repeat split; lia.
  - destruct (iter_xO_spec p q) as [Hv Hdig].
    exists (Pos.iter xO p q), (Z.neg q).
    rewrite binary_round_aux_exact by (unfold prec in *; lia).
    repeat split; try (unfold prec in *; lia).
    rewrite Hv. now rewrite Pos2Z.opp_neg.
Qed.

(** The double of an integer below 2^53 in magnitude denotes it. *)
Lemma toZ_ofZ (z : Z) : exactInteger z -> toZ (ofZ z) = Some z.
Proof.
  unfold exactInteger, ofZ. intros Hz.
  destruct z as [|p|p]; cbn [binary_normalize]; [reflexivity| |].
  - destruct (binary_round_small false p) as (m & e & -> & He & Hm & _);
      [unfold prec; lia|].
    cbn [toZ]. destruct (Z.leb_spec 0 e) as [H0|H0].
    + replace e with 0 in * by lia. cbn [cond_Zopp]. f_equal.
      rewrite Hm. cbn. lia.
    + rewrite Hm, Z.mod_mul, Z.eqb_refl, Z.div_mul
        by (apply Z.pow_nonzero; lia).
      reflexivity.
  - destruct (binary_round_small true p) as (m & e & -> & He & Hm & _);
      [unfold prec; lia|].
    cbn [toZ]. destruct (Z.leb_spec 0 e) as [H0|H0].
    + replace e with 0 in * by lia. cbn [cond_Zopp]. f_equal.
      rewrite Hm. cbn. lia.
    + rewrite Hm, Z.mod_mul, Z.eqb_refl, Z.div_mul
        by (apply Z.pow_nonzero; lia).
      reflexivity.
Qed.

Lemma isFinite_ofZ (z : Z) : exactInteger z -> isFinite (ofZ z) = true.
Proof.
  unfold exactInteger, ofZ. intros Hz.
  destruct z as [|p|p]; cbn [binary_normalize]; [reflexivity| |].
  - destruct (binary_round_small false p) as (m & e & -> & _);
      [unfold prec; lia | reflexivity].
  - destruct (binary_round_small true p) as (m & e & -> & _);
      [unfold prec; lia | reflexivity].
Qed.

Lemma integerMatches_ofZ (v z : Z) :
  exactInteger v -> integerMatches (ofZ v) z = (v =? z).
Proof.
  intros Hv. unfold integerMatches. now rewrite (toZ_ofZ v Hv).
Qed.

(** The shifted mantissas and their exponents order as the integers. *)
Lemma binary_round_small_lt (s t : bool) (p q : positive) :
  Z.pos p < Z.pos q -> Z.pos q < 2 ^ prec ->
  exists m e n f,
    binary_round prec emax s p 0 = S754_finite s m e
    /\ binary_round prec emax t q 0 = S754_finite t n f
    /\ (e < f \/ e = f /\ Z.pos m < Z.pos n).
Proof.
  intros Hlt Hq.
  destruct (binary_round_small s p) as (m & e & Hp' & He & Hm & Hde);
    [lia|].
  destruct (binary_round_small t q) as (n & f & Hq' & Hf & Hn & Hdf);
    [lia|].
  exists m, e, n, f. split; [exact Hp'|]. split; [exact Hq'|].
  pose proof (digits2_pos_bounds p) as [Hlo _].
  pose proof (digits2_pos_bounds q) as [_ Hhi].
  assert (Hdig : Z.pos (digits2_pos p) - 1 < Z.pos (digits2_pos q)).
  { apply (Z.pow_lt_mono_r_iff 2); lia. }
  destruct (Z.eq_dec e f) as [->|Hne];
    [right; split; [reflexivity|] | left; lia].
  rewrite Hm, Hn. apply Z.mul_lt_mono_pos_r; [|exact Hlt].
  apply Z.pow_pos_nonneg; lia.
Qed.

Lemma key_ofZ_lt (a b : Z) :
  exactInteger a -> exactInteger b -> a < b ->
  keyLt (key (ofZ a)) (key (ofZ b)).
Proof.
  unfold exactInteger, ofZ. intros Ha Hb Hlt.
  destruct a as [|p|p], b as [|q|q]; cbn [binary_normalize]; try lia.
  - destruct (binary_round_small false q) as (n & f & -> & _);
      [unfold prec; lia|]. cbn [key keyLt]. lia.
  - destruct (binary_round_small_lt false false p q)
      as (m & e & n & f & -> & -> & H); [lia | unfold prec; lia|].
    cbn [key keyLt]. lia.
  - destruct (binary_round_small true p) as (n & f & -> & _);
      [unfold prec; lia|]. cbn [key keyLt]. lia.
  - destruct (binary_round_small true p) as (m & e & -> & _);
      [unfold prec; lia|].
    destruct (binary_round_small false q) as (n & f & -> & _);
      [unfold prec; lia|]. cbn [key keyLt]. lia.
  - destruct (binary_round_small_lt true true q p)
      as (m & e & n & f & -> & -> & H); [lia | unfold prec; lia|].
    cbn [key keyLt]. lia.
Qed.

(** On integers below 2^53 the store's order is the order of the
    integers. *)
Lemma compare_ofZ (a b : Z) :
  exactInteger a -> exactInteger b ->
  JSNumber.compare (ofZ a) (ofZ b) = (a ?= b).
Proof.
  intros Ha Hb. destruct (Z.compare_spec a b) as [->|Hlt|Hgt].
  - apply compare_refl.
  - apply compare_Lt. now apply key_ofZ_lt.
  - apply compare_Gt. now apply key_ofZ_lt.
Qed.

(** ** Decimal numerals *)

Lemma isNumeral_digits (ds : list Z) :
  isNumeral ds = true -> ds <> [] /\ Forall (fun d => 0 <= d <= 9) ds.
Proof.
  destruct ds as [|d r]; [discriminate|]. unfold isNumeral. intros H.
  split; [discriminate|]. apply Forall_forall. intros x Hx.
  rewrite forallb_forall in H. specialize (H x Hx).
  apply andb_true_iff in H. destruct H as [H1 H2].
  apply Z.leb_le in H1, H2. lia.
Qed.

Lemma digit_cases (d : Z) :
  0 <= d <= 9 ->
  d = 0 \/ d = 1 \/ d = 2 \/ d = 3 \/ d = 4 \/ d = 5 \/ d = 6 \/ d = 7
  \/ d = 8 \/ d = 9.
Proof. lia. Qed.

Ltac each_digit H :=
  apply digit_cases in H;
  repeat (destruct H as [H | H]); subst.

Lemma numeralValueFrom_nonneg (ds : list Z) : forall acc,
  Forall (fun d => 0 <= d <= 9) ds -> 0 <= acc ->
  0 <= numeralValueFrom acc ds.
Proof.
  induction ds as [|d r IH]; intros acc Hds Hacc; cbn [numeralValueFrom];
    [exact Hacc|].
  inversion Hds; subst. apply IH; [assumption | lia].
Qed.

Lemma takeDigits_numeral (ds : list Z) : forall acc n,
  Forall (fun d => 0 <= d <= 9) ds ->
  takeDigits 10 (numeral ds) acc n
  = (numeralValueFrom acc ds, n + Z.of_nat (List.length ds), "").
Proof.
  induction ds as [|d r IH]; intros acc n Hds;
    cbn [numeral takeDigits numeralValueFrom List.length].
  - now rewrite Z.add_0_r.
  - inversion Hds; subst.
    rewrite digitValue_digitChar, IH by assumption.
    replace (n + Z.of_nat (S (List.length r)))
      with (n + 1 + Z.of_nat (List.length r)) by lia.
    reflexivity.
Qed.

Lemma trimStart_digit (d : Z) (s : string) :
  0 <= d <= 9 ->
  trimStart (String (digitChar d) s) = String (digitChar d) s.
Proof.
  intros Hd. each_digit Hd; destruct s as [|a [|b r]]; reflexivity.
Qed.

Lemma trim_numeral (ds : list Z) :
  Forall (fun d => 0 <= d <= 9) ds -> trim (numeral ds) = numeral ds.
Proof.
  intros Hds. unfold trim.
  assert (E : trimStart (numeral ds) = numeral ds).
  { destruct Hds as [|d r Hd Hr]; [reflexivity|].
    now apply trimStart_digit. }
  rewrite E. clear E.
  induction Hds as [|d r Hd Hr IH]; [reflexivity|].
  cbn [numeral trimEnd]. rewrite (trimStart_digit d _ Hd), IH.
  reflexivity.
Qed.

Lemma parseUnsignedDecimal_numeral (ds : list Z) :
  isNumeral ds = true ->
  parseUnsignedDecimal (numeral ds) = Some (numeralValue ds, 0).
Proof.
  intros H. destruct (isNumeral_digits ds H) as [Hne Hds].
  unfold parseUnsignedDecimal. rewrite takeDigits_numeral by assumption.
  replace (0 + Z.of_nat (List.length ds) + 0 =? 0) with false;
    [reflexivity|].
  symmetry. apply Z.eqb_neq. destruct ds; [congruence|].
  cbn [List.length]. lia.
Qed.

Lemma unsignedDecimal_numeral (ds : list Z) :
  isNumeral ds = true ->
  unsignedDecimal false (numeral ds) = ofZ (numeralValue ds).
Proof.
  intros H. destruct (isNumeral_digits ds H) as [Hne Hds].
  unfold unsignedDecimal. rewrite (parseUnsignedDecimal_numeral ds H).
  replace (String.eqb (numeral ds) "Infinity") with false.
  - pose proof (numeralValueFrom_nonneg ds 0 Hds (Z.le_refl 0)) as Hv.
    fold (numeralValue ds) in Hv.
    destruct (numeralValue ds) as [|m|m]; [reflexivity | | lia].
    unfold roundDecimal, ofZ. cbn [Z.leb Z.compare cond_Zopp Z.pow Z.pow_pos].
    cbn [Pos.iter Z.mul Pos.mul]. now rewrite Pos.mul_1_r.
  - destruct ds as [|d r]; [congruence|].
    inversion Hds as [|? ? Hd Hr]; subst. cbn [numeral].
    each_digit Hd; reflexivity.
Qed.

(** [Number] of a string of decimal digits is the double of the integer
    the digits write. *)
Lemma StringToNumber_numeral (ds : list Z) :
  isNumeral ds = true ->
  StringToNumber (numeral ds) = ofZ (numeralValue ds).
Proof.
  intros H. destruct (isNumeral_digits ds H) as [Hne Hds].
  rewrite <- (unsignedDecimal_numeral ds H).
  unfold StringToNumber. rewrite (trim_numeral ds Hds).
  destruct ds as [|d r]; [congruence|].
  inversion Hds as [|? ? Hd Hr]; subst. cbn [numeral].
  each_digit Hd; try reflexivity.
  destruct r as [|d2 r2]; [reflexivity|].
  inversion Hr as [|? ? Hd2 Hr2]; subst. cbn [numeral].
  each_digit Hd2; reflexivity.
Qed.

Lemma leb_ofZ (a b : Z) :
  exactInteger a -> exactInteger b ->
  JSNumber.leb (ofZ a) (ofZ b) = (a <=? b).
Proof.
  intros Ha Hb. unfold JSNumber.leb, Z.leb. now rewrite compare_ofZ.
Qed.

Lemma rateInRange_ofZ (n : Z) :
  exactInteger n -> rateInRange (ofZ n) = (1 <=? n) && (n <=? 100).
Proof.
  intros Hn. unfold rateInRange.
  assert (H1 : exactInteger 1) by (split; reflexivity).
  assert (H100 : exactInteger 100) by (split; reflexivity).
  now rewrite (isFinite_ofZ n Hn), (leb_ofZ 1 n H1 Hn),
    (leb_ofZ n 100 Hn H100).
Qed.

(** X18. A session is addressed by the decimal numeral of its id. For an
    admin request whose id parameter is a string of decimal digits writing
    an integer below 2^53, on a store whose sessions have distinct ids, the
    delete route answers 204 and removes exactly the session whose id is
    that integer, however the numeral is spelled (leading zeros included),
    and the attempts stored under the double of that integer. *)
Theorem deleteSession_by_numeral {ext : Collaborators}
  (now : Z) (req : Request) (db : Db) (user : AuthUser) (ds : list Z) :
  admitted (Some "admin") now req user ->
  isNumeral ds = true ->
  exactInteger (numeralValue ds) ->
  params_id req = numeral ds ->
  NoDup (map Session.id (sessions db)) ->
  exists db',
    deleteSession now req db = (mkResponse 204 NoBody, db')
    /\ sessions db'
       = filter (fun s => negb (numeralValue ds =? Session.id s))
           (sessions db)
    /\ (forall s, In s (sessions db') <->
          In s (sessions db) /\ Session.id s <> numeralValue ds)
    /\ attempts db'
       = filter (fun a => negb (numberMatches (ofZ (numeralValue ds))
                                  (Attempt.sessionId a)))
           (attempts db)
    /\ (forall a, In a (attempts db') ->
          Attempt.sessionId a <> ofZ (numeralValue ds)).
Proof.
  intros Hadm Hnum Hexact Hid Hnd.
  rewrite (deleteSession_admitted now req db user Hadm), Hid.
  rewrite (StringToNumber_numeral ds Hnum).
  cbv zeta. rewrite (isFinite_ofZ _ Hexact). cbn [negb].
  eexists. split; [reflexivity|].
  assert (Hs : deleteOne
                 (fun s => integerMatches (ofZ (numeralValue ds))
                             (Session.id s)) (sessions db)
               = filter (fun s => negb (numeralValue ds =? Session.id s))
                   (sessions db)).
  { rewrite (deleteOne_unique _ Session.id).
    - apply filter_ext. intros s.
      now rewrite (integerMatches_ofZ _ _ Hexact).
    - intros x y Hx Hy. now apply (integerMatches_same _ _ _ Hx Hy).
    - exact Hnd. }
  destruct db as [us ss ats cs nid]. cbn [sessions attempts setSessions
    setAttempts] in *.
  rewrite Hs. split; [reflexivity|]. split; [|split; [reflexivity|]].
  - intros s. rewrite filter_In, negb_true_iff, Z.eqb_neq.
    intuition congruence.
  - intros a Ha E. unfold deleteMany in Ha.
    apply filter_In in Ha. destruct Ha as [_ Ha].
    rewrite E, numberMatches_refl in Ha. discriminate.
Qed.

(** The witness of X18: the admin deletes session 7 of the sample store
    under the numeral 007. *)
Lemma deleteSession_by_numeral_witness :
  exists db',
    deleteSession (ext := sampleCollaborators) 0
      (sampleRequest "admin:root" "007") sampleDb
    = (mkResponse 204 NoBody, db')
    /\ sessions db' = [Session.mk 8 172800000 "eight" 0].
Proof.
  destruct (deleteSession_by_numeral (ext := sampleCollaborators) 0
              (sampleRequest "admin:root" "007") sampleDb rootAdmin
              [0; 0; 7] (conj eq_refl (fun _ => eq_refl)) eq_refl
              (conj eq_refl eq_refl) eq_refl)
    as (db' & H1 & H2 & _).
  - cbn. repeat constructor; cbn; intuition discriminate.
  - exists db'. split; [exact H1 | exact H2].
Defined.

(** X19. An integer rate counts as the integer it is, sent as a JSON
    number or as a string of decimal digits. For a request of a player on a
    finite session id whose rate is the integer [n], below 2^53 in
    magnitude, the attempt is stored with the double of [n] and the answer
    is 201 exactly when [n] is from 1 to 100; otherwise the answer is 400
    [invalid_rate] and the store stays as it is. *)
Theorem submitAttempt_integer_rate {ext : Collaborators}
  (now : Z) (req : Request) (db : Db) (user : AuthUser) (n : Z) :
  admitted (Some "player") now req user ->
  isFinite (StringToNumber (params_id req)) = true ->
  exactInteger n ->
  (ReqBody.rate (body req) = JNum (ofZ n)
   \/ exists ds, isNumeral ds = true /\ numeralValue ds = n
                 /\ ReqBody.rate (body req) = JStr (numeral ds)) ->
  submitAttempt now req db
  = if (1 <=? n) && (n <=? 100)
    then (mkResponse 201 Ok,
          withAttempt db (StringToNumber (params_id req)) user (ofZ n) now)
    else (mkResponse 400 (Error "invalid_rate"), db).
Proof.
  intros Hadm Hfin Hn Hrate.
  rewrite (submitAttempt_admitted now req db user Hadm Hfin).
  assert (E : ToNumber (ReqBody.rate (body req)) = Some (ofZ n)).
  { destruct Hrate as [-> | (ds & Hds & Hv & ->)]; [reflexivity|].
    cbn [ToNumber]. now rewrite (StringToNumber_numeral ds Hds), Hv. }
  now rewrite E, (rateInRange_ofZ n Hn).
Qed.

(** The witness of X19: the player C rates session 7 with the string 60. *)
Lemma submitAttempt_integer_rate_witness :
  submitAttempt (ext := sampleCollaborators) 0
    (rateRequest "player:C" "7" (JStr "60")) sampleDb
  = (mkResponse 201 Ok,
     withAttempt sampleDb (StringToNumber "7") (mkAuthUser "C" "player")
       (ofZ 60) 0).
Proof.
  exact (submitAttempt_integer_rate (ext := sampleCollaborators) 0
           (rateRequest "player:C" "7" (JStr "60")) sampleDb
           (mkAuthUser "C" "player") 60
           (conj eq_refl (fun _ => eq_refl)) eq_refl
           (conj eq_refl eq_refl)
           (or_intror (ex_intro _ [6; 0]
              (conj eq_refl (conj eq_refl eq_refl))))).
Defined.

(** ** Seeding, then logging in *)

Lemma seedUsers_inserts {ext : Collaborators} (now : Z)
  (ps : list (string * string)) :
  forall us name password,
    NoDup (map fst ps) -> In (name, password) ps ->
    findOne (hasUserName name) us = None ->
    In (User.mk name false None (hmacKeyHash password) now)
       (seedUsers now ps us).
Proof.
  induction ps as [|[n p] r IH]; intros us name password Hnd Hin Hfree;
    [destruct Hin|].
  cbn [seedUsers]. cbn [map fst] in Hnd.
  inversion Hnd as [|? ? Hn Hr]; subst.
  destruct Hin as [[= -> ->]|Hin].
  - rewrite Hfree.
    destruct (seedUsers_appends now r
                (insertOne (User.mk name false None (hmacKeyHash password)
                              now) us)) as (extra & -> & _).
    unfold insertOne. rewrite !in_app_iff. left. right. now left.
  - apply IH; [exact Hr | exact Hin |].
    assert (Hne : n <> name).
    { intros ->. apply Hn. now apply (in_map fst _ _ Hin). }
    destruct (findOne (hasUserName n) us); [exact Hfree|].
    unfold findOne, insertOne in *. apply find_absent. intros x Hx.
    apply in_app_iff in Hx. destruct Hx as [Hx|[<-|[]]].
    + now apply (proj1 (find_absent _ _) Hfree).
    + unfold hasUserName. cbn [User.userName]. now apply String.eqb_neq.
Qed.

Lemma login_holder {ext : Collaborators} (admin : bool) (roleName : string)
  (now : Z) (req : Request) (db : Db) (password : string) (u : User.t) :
  ReqBody.password (body req) = JStr password ->
  password <> "" ->
  In u (users db) ->
  holdsPassword admin password u = true ->
  exists v,
    find (holdsPassword admin password) (users db) = Some v
    /\ snd (login admin roleName now req db) = db
    /\ grantsToken (fst (login admin roleName now req db)) 200 now
         (User.userName v) roleName.
Proof.
  intros Hp Hne Hin Hu.
  assert (Ht : truthy (ReqBody.password (body req)) = true).
  { rewrite Hp. cbn [truthy]. now destruct (String.eqb_spec password ""). }
  rewrite (login_steps _ _ _ _ _ Ht), Hp. cbn [ToString].
  destruct (find (holdsPassword admin password) (users db)) as [v|] eqn:F.
  - exists v. cbn [fst snd]. split; [reflexivity|].
    split; [reflexivity | apply tokenAnswer_grants].
  - exfalso. rewrite (find_none _ _ F u Hin) in Hu. discriminate.
Qed.

(** X20. The credentials of the seed log in once the store is seeded. On a
    store without the seed admin, after the seeding the admin login with
    the password [admin] finds an admin who holds its hash; and for every
    seed player whose userName was free, after the seeding the player
    login with the player's seed password finds a player who holds its
    hash. The answer is for the first user of the route's kind who holds
    the hash, who need not be the seeded one, the login going by the
    password alone: 200 with the token [jwt.sign] gives for that user, and
    500 when the signing secret is not set or [jwt.sign] throws. The store
    stays as the seeding left it. *)
Theorem seeded_credentials_log_in {ext : Collaborators}
  (now now' : Z) (req : Request) (db : Db) :
  let db' := ensureSeedData now db in
  (findOne isSeedAdmin (users db) = None ->
   ReqBody.password (body req) = JStr "admin" ->
   exists v,
     find (holdsPassword true "admin") (users db') = Some v
     /\ snd (adminLogin now' req db') = db'
     /\ grantsToken (fst (adminLogin now' req db')) 200 now'
          (User.userName v) "admin")
  /\ (forall name password,
        In (name, password) seedPlayers ->
        findOne (hasUserName name) (users db) = None ->
        ReqBody.password (body req) = JStr password ->
        exists v,
          find (holdsPassword false password) (users db') = Some v
          /\ snd (playerLoginOld now' req db') = db'
          /\ grantsToken (fst (playerLoginOld now' req db')) 200 now'
               (User.userName v) "player").
Proof.
  intros db'.
  assert (Hus : users db'
                = seedUsers now seedPlayers (withAdmin now (users db))).
  { unfold db'. rewrite ensureSeedData_steps. now destruct (sessions db). }
  split.
  - intros Hnone Hp.
    apply (login_holder true "admin" now' req db' "admin"
             (User.mk "admin" true None (hmacKeyHash "admin") now));
      [exact Hp | discriminate | |].
    + rewrite Hus. unfold withAdmin. rewrite Hnone.
      destruct (seedUsers_appends now seedPlayers
                  (insertOne (User.mk "admin" true None
                                (hmacKeyHash "admin") now) (users db)))
        as (extra & -> & _).
      unfold insertOne. rewrite !in_app_iff. left. right. now left.
    + unfold holdsPassword. cbn [User.isAdmin User.keyHash Bool.eqb andb].
      apply String.eqb_refl.
  - intros name password Hin Hfree Hp.
    apply (login_holder false "player" now' req db' password
             (User.mk name false None (hmacKeyHash password) now));
      [exact Hp | | |].
    + cbn in Hin.
      destruct Hin as [[= <- <-]|[[= <- <-]|[[= <- <-]|[[= <- <-]|[]]]]];
        discriminate.
    + rewrite Hus. apply seedUsers_inserts; [| exact Hin |].
      * cbn. repeat constructor; cbn; intuition discriminate.
      * assert (Hname : name <> "admin").
        { cbn in Hin.
          destruct Hin as [[= <- <-]|[[= <- <-]|[[= <- <-]|[[= <- <-]|[]]]]];
            discriminate. }
        unfold withAdmin. destruct (findOne isSeedAdmin (users db));
          [exact Hfree|].
        unfold findOne, insertOne in *. apply find_absent. intros x Hx.
        apply in_app_iff in Hx. destruct Hx as [Hx|[<-|[]]].
        -- now apply (proj1 (find_absent _ _) Hfree).
        -- unfold hasUserName. cbn [User.userName].
           apply String.eqb_neq. congruence.
    + unfold holdsPassword. cbn [User.isAdmin User.keyHash Bool.eqb andb].
      apply String.eqb_refl.
Qed.

(** The witness of X20: on the seeded empty store, Maria logs in with the
    password [m]. *)
Lemma seeded_credentials_log_in_witness :
  playerLoginOld (ext := sampleCollaborators) 7 (loginRequest (JStr "m"))
    (ensureSeedData (ext := sampleCollaborators) 0 emptyDb)
  = (mkResponse 200 (Token "player:Maria" "Maria" "player"),
     ensureSeedData (ext := sampleCollaborators) 0 emptyDb).
Proof.
  destruct (proj2 (seeded_credentials_log_in (ext := sampleCollaborators)
                     0 7 (loginRequest (JStr "m")) emptyDb)
              "Maria" "m" (or_intror (or_intror (or_introl eq_refl)))
              eq_refl eq_refl) as (v & Hv & Hdb & [Htoken _]).
  rewrite (surjective_pairing (playerLoginOld _ _ _)), Hdb.
  injection Hv as <-.
  now rewrite (Htoken "player:Maria" eq_refl eq_refl).
Defined.
